(* ===== verification/_CoqProject ===== *)
-Q . S2P
Prelude.v
Utf8.v
PyStr.v
Json.v
PyJson.v
JsonTypes.v
Roster.v
GenAI.v
Roleplay.v
Matchmaker.v
Session.v
SpecMachine.v
Completeness.v
Resources.v
Attachment.v
Render.v
Dashboard.v
PageView.v
Errors.v
Screen.v
Scenarios.v
