(* ===== verification/Prelude.v ===== *)
(** * Dev Connect AI: a verification development of [src/app.py]

    The program is a single Streamlit script.  Streamlit re-executes the
    whole script from the top on every user interaction; the only state
    that survives a run is [st.session_state] (three fields: [messages],
    [user_profile], [selected_match]).  The script has these parts:

    - the persona roster: the literal list [developers] (lines 10-23);
    - the sidebar: API-key configuration and model discovery
      (lines 31-47) and the "Clear Chat" button (lines 51-53);
    - two functions that call the hosted text-generation model:
      [find_best_match] (lines 56-71), which asks the model to pick a
      persona and parses its JSON answer, and [chat_with_persona]
      (lines 73-105), which asks the model for an in-character reply;
    - the page body: the login form (lines 111-118), and once logged in
      the logout button (lines 127-129), the browse tab (lines 134-147),
      the matchmaker tab (lines 150-162) and the chat tab (lines 165-234).

    ** Library layout (one file per part, in dependency order)

    - [Prelude] (this file): the [dc_scope] notation [in_str] (Python's
      substring test), the string helpers the prompts need ([dq], [nl]),
      Python truthiness ([py_truthy]), negative indexing
      ([py_index_neg], for [messages[-2]]), the Python exceptions
      ([py_exc]), the substring lemmas, the hint databases [dc] and
      [dc_rw] and the tactics [invc], [solve_infix], [solve_infix_lines].
    - [Utf8]: CPython's UTF-8 codec ([utf8_decode], [utf8_encode_cp]),
      the bridge between the model's byte strings and Python's code
      points, with both round trips.
    - [PyStr]: [str.replace] as CPython's one-pass scan ([py_replace],
      [replace_scan]), [str.strip] ([py_strip]) and [str.split()]
      ([py_split], CPython's [split_whitespace]) over the whole
      [str.isspace] set of Unicode (the 29 code points of
      [py_space_cps], read as their UTF-8 byte sequences); [replaces]
      is a declarative specification of leftmost non-overlapping
      replacement.
    - [Json]: the values [json.loads] returns ([json]), [dict.get] and
      [d[k]] on them ([py_get], [py_getitem]), and the class [JsonLib]:
      the interface through which the script uses Python's [json]
      module.
    - [PyJson]: Python's [json.dumps] and [json.loads] after CPython's
      [_json.c] ([ensure_ascii] escapes, surrogate pairs, lone
      surrogate escapes kept, strict strings, integers, floats, nested
      arrays and objects built as dicts), the instance [py_json] every concrete run uses; fuel
      adequacy and the round trip [loads (dumps v) = Some v].
    - [JsonTypes]: the values [json.loads] returns are Python values
      (every object, at every depth, a [dict] with distinct keys).
    - [Roster]: [persona], the literal [developers], the generator lookup
      [find_persona], and the class [PersonaDirectory] (the spec's
      directory contract) with the roster as instance; clients use the
      roster through the class's lemmas.
    - [GenAI]: the calls to the hosted model as a free monad [gen]
      ([GRet], or [Generate model prompt k] continued with the answer),
      its nondeterministic semantics [gen_exec] (every answer of the
      model) and its interpreter [gen_run] (an oracle function); Module
      [Discovery]: the sidebar's [select_model].
    - [Roleplay]: [chat_with_persona] (src/app.py 73-105) and its prompt.
    - [Matchmaker]: [find_best_match] (56-71), [clean_response],
      [decode_answer], and the tab's roster search [next_by_name] (156).
    - [Session]: [st.session_state] as the record [session]; one
      Streamlit run is [page cfg ev] in the [script] monad (state passing
      over [session], early exit by [Rerun] or [Raised e], model calls
      lifted from [gen]), composed as the script composes its handlers
      ([sidebar_clear], [login_form], [logout_button], [browse_loop],
      [matchmaker_tab] with [handle_match_result], [chat_tab] with its
      history loop [history_loop] (which raises when [st.image] meets a
      file PIL cannot open) and [file_context_of]); [step] and
      [reachable]; [run_effect] summarises what one run can do to a
      session.
    - [SpecMachine]: the spec's session machine (section 4.4) as the
      step relation [spec_step], and the refinement of [step] into it.
    - [Completeness]: the converse of [step_run_effect] (every effect is
      realised by one run) and the exact set of reachable sessions.
    - [Resources]: the calls to the hosted model one run can make.
    - [Attachment]: the spec's pending attachment (section 9) as an
      explicit field of a session machine [pstep], and the refinement
      of the script's positional rule into it.
    - [Render]: the chat tab's display (lines 165-192, 224-234): the
      history loop ([render_history], a [st.chat_message] bubble per
      message, a shared file drawn by its type), the bubbles drawn live
      when a text is sent ([live_turn]), the whole tab ([chat_tab_view]).
    - [Dashboard]: the browse tab's profile cards (lines 136-144): the
      column [cols[i % 3]], the texts, the button label from
      [name.split()[0]] and the widget key [btn_<id>] ([browse_cards]).
    - [PageView]: everything else the page draws: the sidebar, the
      title, the login form, the top bar and tabs, the browse toast, the
      matchmaker's spinner and banners ([match_banners], drawn along
      [handle_match_result]), the chat tab's input controls.
    - [Errors]: where a run ends with an uncaught exception.
    - [Screen]: the whole page of a run ([screen]): the displays of
      [PageView], [Dashboard] and [Render] in the script's order, each
      tab reading the session the script's own handlers leave, and the
      run's end (a rerun or an exception) where the script stops.
    - [Scenarios]: the spec's end-to-end scenarios, computed on [page].

    ** Theorems, by group

    - Invariant (Session, rule induction on [reachable]): every
      reachable session has its selection in the roster and a log made
      of shared files and (user text, assistant reply) pairs
      ([reachable_wf]); hence a chat text always reaches the model with
      the selected persona's prompt ([reachable_send_text]).
    - Handlers, every branch: browse ([browse_select]), login ([join_requires_key]), logout
      ([logout_keeps_chat]), file upload ([send_file_one_message]), the
      file context of a reply ([file_context_pending]), the matchmaker
      on every kind of answer ([find_match_hallucinated],
      [find_match_selects], [find_match_failure_silent]).
    - Components: [chat_with_persona] ([chat_unknown_persona_no_call],
      [chat_roster_persona_exec], [roleplay_prompt_mentions]);
      [find_best_match] ([find_best_match_exec],
      [find_best_match_unvalidated]); the fence stripping round trip,
      for any Unicode whitespace around the fences
      ([clean_response_fenced]); the directory contract
      ([roster_contract]); model discovery
      ([Discovery.select_model_listed], [Discovery.select_model_fallback]);
      the matchmaker on a fenced printed value
      ([find_best_match_roundtrip]); the matchmaker prompt names every
      candidate ([matchmaker_prompt_lists_roster]); a JSON answer that
      is not an object raises [AttributeError] at [.get]
      ([find_match_non_dict]); Clear Chat drops a shared attachment,
      so the next text carries no file context
      ([clear_drops_file_context]).
    - Library lemmas (not claims of the program's behaviour, used by the
      theorems above): [str.replace] against its specification
      ([py_replace_spec]); Python's [json] module ([loads_dumps], round
      trip and injectivity of [dumps]; [scan_once_enough_fuel],
      termination of [loads]; [loads_py_value], every object [loads]
      returns has distinct keys).
    - Refinement (SpecMachine): every run is a transition of the spec's
      session machine except logout ([step_refines_spec]), and that
      exception happens from a reachable session
      ([logout_not_spec_step]).
    - Characterisation (Completeness): from a session with a roster
      selection, a run can leave exactly the sessions [run_effect]
      lists ([step_iff_run_effect]); the reachable sessions are exactly
      the well-formed ones with an empty log while nothing is selected
      ([reachable_iff]).
    - Resources (spec section 5): every run makes at most one call to
      the model, only for the matchmaker button or a non-empty chat
      text with a persona selected ([run_calls]).
    - Pending attachment (Attachment): every reachable session is
      reached by the machine with an explicit pending field, and the
      script's positional file context ([messages[-2]]) is exactly that
      field ([pending_refinement]).
    - Display (Render): the next run redraws what a chat turn drew live
      except the persona's avatar ([live_turn_redrawn]); in a reachable
      session every reply is displayed right below the text it answers
      ([history_reply_below_text]); the browse cards stay within the
      three columns, fill them round robin and have distinct widget
      keys ([browse_layout]); the matchmaker's banners agree with the
      run: it raises where the drawing stops, the Best Match banner is
      drawn exactly when a persona is selected, and a failed match draws
      nothing ([matchmaker_view_agrees]).
    - Composition (Screen): the screen ends as the run does, and a
      persona selected in a run is drawn by that run: a Message click
      or a Best Match banner is followed by the persona's chat room,
      except when the answer has no reason, which raises after the
      banner, and a run whose matchmaker tab raises draws no chat room
      ([screen_same_run_selection]).
    - Errors (Errors): a run raises in two places only: the matchmaker
      button, with [AttributeError], [KeyError 'name'], [StopIteration]
      or [KeyError 'reason']; or, with a persona selected, the history
      loop of the chat tab, with PIL's [UnidentifiedImageError] when
      the log holds an image-typed file PIL cannot open, and then the
      session is unchanged ([run_raises_only_matchmaker]).
    - Liveness (Completeness): from every session, at most two runs
      open a chat with any roster persona, and a chat turn with any
      answer of the model is one more run ([chat_always_reachable]).
    - Scenarios: Sam chats with Bob, the matchmaker picks Alice, the
      matchmaker gets invalid JSON, the matchmaker gets a JSON list or
      a number (an uncaught [AttributeError]), a shared file is
      consumed by the next text only, Clear Chat drops an attachment
      shared before it.
    - Findings: a made-up match name raises [StopIteration]; a missing
      ["reason"] raises [KeyError] after the selection was changed; a
      failed match is silent; logout keeps the selection and the log;
      [find_best_match] does not validate the name; an empty model
      listing is not reported; a non-object answer raises
      [AttributeError]; Clear Chat silently drops a shared attachment
      the spec does not say what becomes of; a reply loses the
      persona's avatar when the history is redrawn; an uploaded file
      whose type says image but which PIL cannot open (SVG, HEIC)
      makes every later run with that persona raise in the history
      loop, and only Clear Chat, logout, or another persona recover.

    ** Modelling choices

    - Strings are byte strings: a Python [str] is the UTF-8 encoding of
      its code points (a lone surrogate, which only [json.loads] can
      produce, gets the three bytes of its code point); the emoji
      literals of the roster keep their UTF-8 bytes.  [str.isspace] is
      the full Unicode set (ASCII \t-\r, \x1c-\x1f and space, then
      U+0085, U+00A0, U+1680, U+2000-U+200A, U+2028, U+2029, U+202F,
      U+205F, U+3000), matched as UTF-8 byte sequences at the ends of
      the string.
    - [st.image] on an uploaded file is abstracted to one bit of the
      file, [uf_opens]: whether PIL's [Image.open] recognises the
      payload.  The image decoders themselves are not modelled.
    - A Streamlit run handles at most one widget event: a button is true
      only in the run its click triggered, [st.chat_input] returns text
      only in the run its submission triggered.  [st.rerun()] ends the
      run ([Rerun]); an uncaught Python exception ends it too
      ([Raised e]) and the mutations made before it stay.
    - The model is an oracle: [step] quantifies over every answer.
    - All recursion is structural, except two fuelled loops of
      [PyJson]: the JSON scanner, given twice the length of its text
      plus one (each nested scan consumes a character before the next
      fuel unit, so it never runs out: [scan_once_enough_fuel]), and
      the decimal printing of an integer, given the bit length of the
      number (at least its number of digits).
    - In [Screen], the model's one answer of a run is a single value
      [a] (a run makes at most one call: [Resources.run_calls]); the
      toasts of the browse loop are listed after its cards; the cards
      of a browse loop that raises part-way are not listed (no roster
      name is blank, so it never does).

    ** Not modelled
    The Google SDK (only its call contract, as the oracle), and how
    the browser lays out the elements.  Python's [str] of a decoded
    JSON value in the matchmaker's [st.info] is kept as the value.  Of
    Python's [json] module, [dumps] of a float or of a string with a
    lone surrogate (the script dumps only the roster, which has
    neither).

    ** Further work
    Python's [str] of a decoded JSON value ([repr] of lists and dicts),
    for the text of the matchmaker's reason banner.
*)

From stdpp Require Export base list strings.
From Stdlib Require Export Ascii ZArith Lia.

Declare Scope dc_scope.
Delimit Scope dc_scope with dc.
Open Scope stdpp_scope.

(** ** Characters and strings the prompts are built from *)

Definition dq_char : ascii := "034"%char.
Definition nl_char : ascii := "010"%char.

(** A one-character string holding a double quote, and a newline. *)
Definition dq : string := String dq_char EmptyString.
Definition nl : string := String nl_char EmptyString.

(** Python truthiness of a [str]: the empty string is falsy. *)
Definition py_truthy (s : string) : bool :=
  match s with EmptyString => false | String _ _ => true end.

(** Python truthiness of an optional string ([None] is falsy). *)
Definition py_truthy_opt (o : option string) : bool :=
  match o with Some s => py_truthy s | None => false end.

(** [xs[-k]] for [k >= 1], or [None] when [len(xs) < k] (Python raises). *)
Definition py_index_neg {A} (xs : list A) (k : nat) : option A :=
  if decide (k <= length xs) then xs !! (length xs - k) else None.

(** [s1] occurs in [s2] (Python's [s1 in s2]). *)
Definition str_infix (s1 s2 : string) : Prop :=
  exists a b, s2 = a +:+ s1 +:+ b.

Notation "s1 'in_str' s2" := (str_infix s1 s2) (at level 70) : dc_scope.
Open Scope dc_scope.

(** ** Generic lemmas on strings *)

(** stdpp makes [simpl] leave [String.append] folded; this is its
    defining equation on a non-empty left argument. *)
Lemma string_app_cons (c : ascii) (a b : string) :
  String c a +:+ b = String c (a +:+ b).
Proof. reflexivity. Qed.

Lemma string_app_nil_r (s : string) : s +:+ "" = s.
Proof. induction s as [|c s IH]; [done | by rewrite string_app_cons, IH]. Qed.

Lemma string_app_assoc (a b c : string) : a +:+ (b +:+ c) = (a +:+ b) +:+ c.
Proof. induction a as [|x a IH]; [done | by rewrite !string_app_cons, IH]. Qed.

Lemma string_app_length (a b : string) :
  String.length (a +:+ b) = String.length a + String.length b.
Proof.
  induction a as [|x a IH]; [done |].
  rewrite string_app_cons. cbn [String.length]. by rewrite IH.
Qed.

Lemma str_infix_refl s : s in_str s.
Proof. exists "", "". by rewrite string_app_nil_r. Qed.

Lemma str_infix_app_l s a b : s in_str b -> s in_str (a +:+ b).
Proof.
  intros (x & y & ->). exists (a +:+ x), y.
  by rewrite !string_app_assoc.
Qed.

Lemma str_infix_app_r s a b : s in_str a -> s in_str (a +:+ b).
Proof.
  intros (x & y & ->). exists x, (y +:+ b).
  by rewrite !string_app_assoc.
Qed.

Lemma str_infix_cons s c a : s in_str a -> s in_str (String c a).
Proof. intros H. by apply (str_infix_app_l s (String c "") a). Qed.

Lemma py_index_neg_app_last {A} (xs : list A) (x y : A) :
  py_index_neg (xs ++ [x; y]) 2 = Some x.
Proof.
  unfold py_index_neg. rewrite length_app. simpl.
  rewrite decide_True by lia.
  replace (length xs + 2 - 2) with (length xs) by lia.
  by rewrite lookup_app_r, Nat.sub_diag by lia.
Qed.

(** [(xs + [y])[-2]] is the last element of [xs]. *)
Lemma py_index_neg_snoc_2 {A} (xs : list A) (y : A) :
  py_index_neg (xs ++ [y]) 2 = last xs.
Proof.
  destruct xs as [|x xs'] using rev_ind.
  - unfold py_index_neg. by rewrite decide_False by (simpl; lia).
  - rewrite <- app_assoc, last_snoc. apply py_index_neg_app_last.
Qed.

Lemma py_index_neg_short {A} (xs : list A) k :
  length xs < k -> py_index_neg xs k = None.
Proof. intros H. unfold py_index_neg. by rewrite decide_False by lia. Qed.

Lemma str_infix_app_prefix a b c : (a +:+ b) in_str (a +:+ b +:+ c).
Proof. exists "", c. by rewrite string_app_assoc. Qed.

Lemma str_infix_trans a b c : a in_str b -> b in_str c -> a in_str c.
Proof.
  intros (x & y & ->) (u & v & ->). exists (u +:+ x), (y +:+ v).
  by rewrite !string_app_assoc.
Qed.

(** Every line of a joined text occurs in it. *)
Lemma str_infix_concat (sep x : string) (l : list string) :
  In x l -> x in_str String.concat sep l.
Proof.
  induction l as [|y [|z l] IH]; intros Hx; [done | |].
  - destruct Hx as [->|[]]. apply str_infix_refl.
  - destruct Hx as [->|Hx].
    + change (String.concat sep (x :: z :: l)) with (x +:+ sep +:+ String.concat sep (z :: l)).
      apply str_infix_app_r, str_infix_refl.
    + change (String.concat sep (y :: z :: l)) with (y +:+ sep +:+ String.concat sep (z :: l)).
      by apply str_infix_app_l, str_infix_app_l, IH.
Qed.

Lemma str_infix_concat_lines (sep x : string) (l : list string) :
  Exists (fun y => x in_str y) l -> x in_str String.concat sep l.
Proof.
  intros (y & Hy & Hx)%Exists_exists.
  eapply str_infix_trans; [exact Hx | by apply str_infix_concat, list_elem_of_In].
Qed.

Create HintDb dc.
Create Rewrite HintDb dc_rw.
#[export] Hint Resolve str_infix_refl str_infix_app_l str_infix_app_r
  str_infix_cons str_infix_app_prefix : dc.
#[export] Hint Rewrite string_app_nil_r string_app_length : dc_rw.

(** ** Tactics *)

(** Invert a hypothesis and substitute the equations it produces. *)
Ltac invc H := inversion H; subst; clear H.

(** Close a substring goal by peeling appends off both sides. *)
Ltac solve_infix :=
  repeat rewrite <- string_app_assoc; eauto 20 with dc.

(** ** Python exceptions the script can raise *)

(** [AttributeError]: [.get] on a value that is not a [dict];
    [KeyError k]: [d[k]] on a [dict] without [k]; [TypeError]: [x[k]]
    on a value that is not subscriptable by a string; [StopIteration]:
    [next] on an exhausted generator with no default; [IndexError]:
    [xs[0]] on an empty list; [UnidentifiedImageError]: PIL's
    [Image.open] on bytes in no format it reads, raised through
    [st.image]. *)
Inductive py_exc : Type :=
| AttributeError
| KeyError (k : string)
| TypeError
| StopIteration
| IndexError
| UnidentifiedImageError.

#[export] Instance py_exc_eq_dec : EqDecision py_exc.
Proof. solve_decision. Defined.

(** Close [x in_str String.concat sep lines] by finding the line [x]
    occurs in. *)
Ltac solve_infix_lines :=
  apply str_infix_concat_lines;
  solve [repeat first [ apply Exists_cons_hd; cbv beta; solve [solve_infix]
                      | apply Exists_cons_tl ]].
