(* ===== verification/Utf8.v ===== *)
(** * UTF-8: from the model's byte strings to Python's code points

    Python's [str] is a sequence of code points; the development keeps
    strings as byte strings ([string], a list of [ascii] bytes) holding
    their UTF-8 encoding, as the roster's emoji literals are stored.
    Where the program's behaviour depends on the code points, namely
    [json.dumps] escaping every non-ASCII character (ensure_ascii), the
    model decodes the bytes with the decoder of CPython's UTF-8 codec
    ([utf8_decode], after [Objects/stringlib/codecs.h], [utf8_decode])
    and [json.loads] re-encodes the code points it reads with the
    encoder ([utf8_encode_cp], after the same file's [utf8_encoder]).

    The two are inverse: [utf8_decode_encode] (every list of scalar
    values is decoded back from its encoding) and [utf8_encode_decode]
    (whatever decodes is the encoding of what it decodes to). *)

From S2P Require Import Prelude.

Open Scope Z_scope.

(** [ord] and [chr] on bytes. *)
Definition ord (c : ascii) : Z := Z.of_nat (nat_of_ascii c).
Definition chr (z : Z) : ascii := ascii_of_nat (Z.to_nat z).

(** A Unicode scalar value: a code point that is not a surrogate. *)
Definition is_surrogate (cp : Z) : bool := (0xD800 <=? cp) && (cp <=? 0xDFFF).
Definition valid_cp (cp : Z) : bool :=
  (0 <=? cp) && (cp <=? 0x10FFFF) && negb (is_surrogate cp).

(** [(char)(0x80 | (ch & 0x3f))]. *)
Definition cont_byte (x : Z) : ascii := chr (Z.lor 0x80 (Z.land x 0x3F)).

(** The encoder's loop body for one code point. *)
Definition utf8_encode_cp (cp : Z) : list ascii :=
  if cp <? 0x80 then [chr cp]
  else if cp <? 0x800 then [chr (Z.lor 0xC0 (Z.shiftr cp 6)); cont_byte cp]
  else if cp <? 0x10000 then
    [chr (Z.lor 0xE0 (Z.shiftr cp 12)); cont_byte (Z.shiftr cp 6); cont_byte cp]
  else
    [chr (Z.lor 0xF0 (Z.shiftr cp 18)); cont_byte (Z.shiftr cp 12);
     cont_byte (Z.shiftr cp 6); cont_byte cp].

Fixpoint utf8_encode (cps : list Z) : list ascii :=
  match cps with
  | [] => []
  | cp :: cps' => utf8_encode_cp cp ++ utf8_encode cps'
  end.

(** [IS_CONTINUATION_BYTE(ch)]. *)
Definition is_cont (c : ascii) : bool := (0x80 <=? ord c) && (ord c <? 0xC0).

(** The decoder: a lead byte below [0xC2] or above [0xF4], a missing
    or bad continuation byte, an overlong form, a surrogate or a code
    point above [0x10FFFF] is an error ([None]). *)
Fixpoint utf8_decode (l : list ascii) : option (list Z) :=
  match l with
  | [] => Some []
  | c0 :: l1 =>
      let ch := ord c0 in
      if ch <? 0x80 then cons ch <$> utf8_decode l1
      else if ch <? 0xC2 then None
      else if ch <? 0xE0 then
        match l1 with
        | c1 :: l2 =>
            if is_cont c1
            then cons (Z.shiftl ch 6 + ord c1 - (Z.shiftl 0xC0 6 + 0x80)) <$> utf8_decode l2
            else None
        | [] => None
        end
      else if ch <? 0xF0 then
        match l1 with
        | c1 :: c2 :: l3 =>
            if is_cont c1 && is_cont c2 &&
               negb ((ch =? 0xE0) && (ord c1 <? 0xA0)) &&
               negb ((ch =? 0xED) && (0xA0 <=? ord c1))
            then cons (Z.shiftl ch 12 + Z.shiftl (ord c1) 6 + ord c2 -
                       (Z.shiftl 0xE0 12 + Z.shiftl 0x80 6 + 0x80)) <$> utf8_decode l3
            else None
        | _ => None
        end
      else if ch <? 0xF5 then
        match l1 with
        | c1 :: c2 :: c3 :: l4 =>
            if is_cont c1 && is_cont c2 && is_cont c3 &&
               negb ((ch =? 0xF0) && (ord c1 <? 0x90)) &&
               negb ((ch =? 0xF4) && (0x90 <=? ord c1))
            then cons (Z.shiftl ch 18 + Z.shiftl (ord c1) 12 + Z.shiftl (ord c2) 6 + ord c3 -
                       (Z.shiftl 0xF0 18 + Z.shiftl 0x80 12 + Z.shiftl 0x80 6 + 0x80))
                   <$> utf8_decode l4
            else None
        | _ => None
        end
      else None
  end.

(** ** Bytes and bits *)

Lemma ord_range (c : ascii) : 0 <= ord c < 256.
Proof. unfold ord. pose proof (nat_ascii_bounded c). lia. Qed.

Lemma ord_chr (z : Z) : 0 <= z < 256 -> ord (chr z) = z.
Proof.
  intros H. unfold ord, chr. rewrite nat_ascii_embedding by lia. lia.
Qed.

Lemma chr_ord (c : ascii) : chr (ord c) = c.
Proof. unfold ord, chr. rewrite Nat2Z.id. apply ascii_nat_embedding. Qed.

Lemma ord_inj (c d : ascii) : ord c = ord d -> c = d.
Proof. intros E. by rewrite <- (chr_ord c), <- (chr_ord d), E. Qed.

(** Or-ing a multiple of [2^n] with a number below [2^n] adds them. *)
Lemma lor_low_add (a b n : Z) :
  0 <= n -> 0 <= b < 2 ^ n -> Z.lor (a * 2 ^ n) b = a * 2 ^ n + b.
Proof.
  intros Hn Hb. rewrite <- Z.add_lor_land.
  enough (Z.land (a * 2 ^ n) b = 0) by lia.
  apply Z.bits_inj'. intros i Hi. rewrite Z.land_spec, Z.bits_0.
  destruct (Z.lt_ge_cases i n).
  - rewrite <- Z.shiftl_mul_pow2, Z.shiftl_spec_low by lia. done.
  - rewrite <- (Z.mod_small b (2 ^ n)) by lia.
    rewrite Z.mod_pow2_bits_high by lia. apply andb_false_r.
Qed.

Lemma land_3f (x : Z) : Z.land x 0x3F = x mod 64.
Proof. apply (Z.land_ones x 6). lia. Qed.

Lemma shiftr_div (x n : Z) : 0 <= n -> Z.shiftr x n = x / 2 ^ n.
Proof. apply Z.shiftr_div_pow2. Qed.

Lemma shiftl_mul (x n : Z) : 0 <= n -> Z.shiftl x n = x * 2 ^ n.
Proof. intros. by apply Z.shiftl_mul_pow2. Qed.

(** [lia] with divisions and remainders by constants turned into
    equations. *)
Ltac zlia := Z.div_mod_to_equations; lia.

(** [zlia] with the powers of two evaluated. *)
Ltac pow_lia :=
  repeat match goal with
  | |- context [2 ^ ?n] => let v := eval vm_compute in (2 ^ n) in change (2 ^ n) with v
  end; zlia.

Lemma lor_lead (c x n : Z) :
  0 <= n -> 0 <= x < 2 ^ n -> c mod 2 ^ n = 0 -> Z.lor c x = c + x.
Proof.
  intros Hn Hx Hc. rewrite (Z.div_mod c (2 ^ n)) by lia. rewrite Hc, Z.add_0_r.
  rewrite (Z.mul_comm (2 ^ n)). by apply lor_low_add.
Qed.

(** The byte [cont_byte] writes. *)
Lemma ord_cont_byte (x : Z) : ord (cont_byte x) = 0x80 + x mod 64.
Proof.
  unfold cont_byte. rewrite land_3f. pose proof (Z.mod_pos_bound x 64).
  rewrite (lor_lead _ _ 6) by (done || pow_lia). apply ord_chr. lia.
Qed.

Lemma shr6 (x : Z) : Z.shiftr x 6 = x / 64.
Proof. by rewrite shiftr_div. Qed.
Lemma shr12 (x : Z) : Z.shiftr x 12 = x / 4096.
Proof. by rewrite shiftr_div. Qed.
Lemma shr18 (x : Z) : Z.shiftr x 18 = x / 262144.
Proof. by rewrite shiftr_div. Qed.
Lemma shl6 (x : Z) : Z.shiftl x 6 = x * 64.
Proof. by rewrite shiftl_mul. Qed.
Lemma shl12 (x : Z) : Z.shiftl x 12 = x * 4096.
Proof. by rewrite shiftl_mul. Qed.
Lemma shl18 (x : Z) : Z.shiftl x 18 = x * 262144.
Proof. by rewrite shiftl_mul. Qed.

(** The lead bytes the encoder writes. *)
Lemma ord_lead2 (cp : Z) : 0x80 <= cp < 0x800 -> ord (chr (Z.lor 0xC0 (Z.shiftr cp 6))) = 0xC0 + cp / 64.
Proof. intros H. rewrite shr6, (lor_lead _ _ 5) by (done || pow_lia). apply ord_chr. zlia. Qed.
Lemma ord_lead3 (cp : Z) : 0x800 <= cp < 0x10000 -> ord (chr (Z.lor 0xE0 (Z.shiftr cp 12))) = 0xE0 + cp / 4096.
Proof. intros H. rewrite shr12, (lor_lead _ _ 4) by (done || pow_lia). apply ord_chr. zlia. Qed.
Lemma ord_lead4 (cp : Z) : 0x10000 <= cp <= 0x10FFFF -> ord (chr (Z.lor 0xF0 (Z.shiftr cp 18))) = 0xF0 + cp / 262144.
Proof. intros H. rewrite shr18, (lor_lead _ _ 3) by (done || pow_lia). apply ord_chr. zlia. Qed.

Create Rewrite HintDb utf8_rw.
#[export] Hint Rewrite ord_cont_byte shr6 shr12 shr18 shl6 shl12 shl18 : utf8_rw.

(** Decide every comparison of the goal by arithmetic. *)
Ltac zcompare :=
  repeat match goal with
  | |- context [?a <? ?b] => destruct (Z.ltb_spec a b); try zlia
  | |- context [?a <=? ?b] => destruct (Z.leb_spec a b); try zlia
  | |- context [?a =? ?b] => destruct (Z.eqb_spec a b); try zlia
  end.

Lemma utf8_decode_encode_cp (cp : Z) (rest : list ascii) :
  valid_cp cp = true ->
  utf8_decode (utf8_encode_cp cp ++ rest) = cons cp <$> utf8_decode rest.
Proof.
  unfold valid_cp, is_surrogate. intros Hv.
  repeat (apply andb_prop in Hv as [Hv ?]). apply negb_true_iff in H.
  apply Z.leb_le in Hv, H0. unfold utf8_encode_cp.
  destruct (Z.ltb_spec cp 0x80).
  { cbn [app utf8_decode]. rewrite ord_chr by lia. by zcompare. }
  destruct (Z.ltb_spec cp 0x800).
  { cbn [app utf8_decode]. rewrite ord_lead2 by lia. unfold is_cont.
    autorewrite with utf8_rw. zcompare. do 2 f_equal. zlia. }
  destruct (Z.ltb_spec cp 0x10000).
  { cbn [app utf8_decode]. rewrite ord_lead3 by lia. unfold is_cont.
    autorewrite with utf8_rw. cbn [andb negb]. zcompare; do 2 f_equal; zlia. }
  cbn [app utf8_decode]. rewrite ord_lead4 by lia. unfold is_cont.
  autorewrite with utf8_rw. cbn [andb negb]. zcompare; do 2 f_equal; zlia.
Qed.

(** Every list of scalar values is decoded back from its encoding. *)
Lemma utf8_decode_encode (cps : list Z) :
  Forall (fun cp => valid_cp cp = true) cps -> utf8_decode (utf8_encode cps) = Some cps.
Proof.
  induction 1 as [|cp cps Hcp _ IH]; [done |].
  cbn [utf8_encode]. by rewrite utf8_decode_encode_cp, IH.
Qed.

(** The bytes of an encoding, compared one by one through [ord]. *)
Ltac same_bytes :=
  cbn [app]; repeat f_equal; apply ord_inj;
  rewrite ?ord_lead2, ?ord_lead3, ?ord_lead4 by zlia;
  autorewrite with utf8_rw; zlia.

Ltac cont_facts :=
  repeat match goal with
  | H : is_cont _ = true |- _ =>
      unfold is_cont in H; apply andb_prop in H as [?%Z.leb_le ?%Z.ltb_lt]
  | H : (_ && _) = true |- _ => apply andb_prop in H as [? ?]
  | H : negb _ = true |- _ => apply negb_true_iff in H
  end.

(** One step of the decoder reads the encoding of one scalar value. *)
Lemma utf8_decode_step (c0 : ascii) (l1 : list ascii) (cps : list Z) :
  utf8_decode (c0 :: l1) = Some cps ->
  exists cp l' cps', cps = cp :: cps' /\ valid_cp cp = true /\
    c0 :: l1 = utf8_encode_cp cp ++ l' /\ utf8_decode l' = Some cps' /\
    (length l' <= length l1)%nat.
Proof.
  cbn [utf8_decode]. pose proof (ord_range c0) as R0. unfold valid_cp, is_surrogate.
  destruct (Z.ltb_spec (ord c0) 0x80).
  { intros (cps' & Hd & ->)%fmap_Some. exists (ord c0), l1, cps'.
    split; [done |]. split; [zcompare; done |]. split; [| done].
    unfold utf8_encode_cp. zcompare. by rewrite chr_ord. }
  destruct (Z.ltb_spec (ord c0) 0xC2); [done |].
  destruct (Z.ltb_spec (ord c0) 0xE0).
  { destruct l1 as [|c1 l2]; [done |]. destruct (is_cont c1) eqn:Hc; [| done].
    intros (cps' & Hd & ->)%fmap_Some. cont_facts. rewrite !shl6.
    eexists _, l2, cps'. split; [done |]. split; [zcompare; done |].
    split; [| simpl; split; [done | lia]].
    unfold utf8_encode_cp. zcompare. same_bytes. }
  destruct (Z.ltb_spec (ord c0) 0xF0).
  { destruct l1 as [|c1 [|c2 l3]]; try done.
    destruct (_ && _) eqn:Hc; [| done]. intros (cps' & Hd & ->)%fmap_Some.
    cont_facts. pose proof (ord_range c1). pose proof (ord_range c2).
    rewrite !shl6, !shl12.
    eexists _, l3, cps'. split; [done |]. split; [zcompare; done |].
    split; [| simpl; split; [done | lia]].
    unfold utf8_encode_cp. zcompare. same_bytes. }
  destruct (Z.ltb_spec (ord c0) 0xF5); [| done].
  destruct l1 as [|c1 [|c2 [|c3 l4]]]; try done.
  destruct (_ && _) eqn:Hc; [| done]. intros (cps' & Hd & ->)%fmap_Some.
  cont_facts. pose proof (ord_range c1). pose proof (ord_range c2). pose proof (ord_range c3).
  rewrite !shl6, !shl12, !shl18.
  eexists _, l4, cps'. split; [done |]. split; [zcompare; done |].
  split; [| simpl; split; [done | lia]].
  unfold utf8_encode_cp. zcompare. same_bytes.
Qed.

(** Whatever decodes is the encoding of the scalar values it decodes to. *)
Lemma utf8_encode_decode (l : list ascii) (cps : list Z) :
  utf8_decode l = Some cps ->
  Forall (fun cp => valid_cp cp = true) cps /\ utf8_encode cps = l.
Proof.
  revert cps. induction l as [l IH] using (induction_ltof1 _ (@length _)).
  unfold ltof in IH. intros cps H. destruct l as [|c0 l1].
  { injection H as <-. split; [constructor | done]. }
  apply utf8_decode_step in H as (cp & l' & cps' & -> & Hv & Hl & Hd & Hlen).
  destruct (IH l' ltac:(simpl; lia) cps' Hd) as [Hvs He].
  split; [by constructor |]. cbn [utf8_encode]. by rewrite He.
Qed.
