(* ===== verification/PyStr.v ===== *)
(** * The Python [str] methods the script calls

    [find_best_match] cleans the model's answer with
    [response.text.replace("```json", "").replace("```", "").strip()]
    (src/app.py, line 68).  This file models [str.replace] and
    [str.strip] on byte strings:
    - [py_replace] is CPython's one-pass left-to-right scan for a
      non-empty pattern (a counter skips the rest of a match), and the
      interleaving behaviour for an empty pattern;
    - [replaces] is a declarative specification of leftmost,
      non-overlapping replacement; the scanner satisfies it and it has at
      most one result, so it characterises [py_replace];
    - [py_strip] removes leading and trailing whitespace characters as
      [str.strip] does: the code points [str.isspace] accepts, ASCII
      and Unicode (U+00A0, U+2000-U+200A, U+3000, ...), each read as the
      bytes of its UTF-8 encoding; [py_strip_padded] shows it gives back
      a text padded with any run of them;
    - [py_split] is [str.split()] (the names' first word), with the
      same whitespace. *)

From S2P Require Import Prelude Utf8.

(** Counters and lengths here are [nat]s. *)
Local Open Scope nat_scope.

(** ** [str.replace] *)

Section Replace.
Variables old new : string.

(** One pass over [s]; [skip] counts the characters of the current
    match that are still to be dropped. *)
Fixpoint replace_scan (s : string) (skip : nat) : string :=
  match s with
  | EmptyString => EmptyString
  | String c s' =>
      match skip with
      | S k => replace_scan s' k
      | O =>
          if String.prefix old s
          then new +:+ replace_scan s' (String.length old - 1)
          else String c (replace_scan s' 0)
      end
  end.

(** With an empty pattern Python inserts [new] around every character. *)
Fixpoint replace_interleave (s : string) : string :=
  match s with
  | EmptyString => new
  | String c s' => new +:+ String c (replace_interleave s')
  end.

(** Leftmost, non-overlapping replacement of a non-empty [old]:
    wherever [old] starts, it is replaced; elsewhere the character is
    kept. *)
Inductive replaces : string -> string -> Prop :=
| replaces_nil : replaces "" ""
| replaces_hit s t :
    replaces s t -> replaces (old +:+ s) (new +:+ t)
| replaces_skip c s t :
    String.prefix old (String c s) = false ->
    replaces s t -> replaces (String c s) (String c t).
End Replace.

Definition py_replace (s old new : string) : string :=
  match old with
  | EmptyString => replace_interleave new s
  | String _ _ => replace_scan old new s 0
  end.


(** ** [str.strip] and [str.split()]: Python's whitespace *)

(** The code points [str.isspace] accepts (CPython's
    [_PyUnicode_IsWhitespace], used by [str.strip] and [str.split]):
    \t \n \v \f \r, \x1c-\x1f, the space, U+0085, U+00A0, U+1680,
    U+2000-U+200A, U+2028, U+2029, U+202F, U+205F and U+3000. *)
Definition py_space_cps : list Z :=
  [0x09; 0x0A; 0x0B; 0x0C; 0x0D; 0x1C; 0x1D; 0x1E; 0x1F; 0x20; 0x85; 0xA0; 0x1680;
   0x2000; 0x2001; 0x2002; 0x2003; 0x2004; 0x2005; 0x2006; 0x2007; 0x2008; 0x2009;
   0x200A; 0x2028; 0x2029; 0x202F; 0x205F; 0x3000]%Z.

(** A whitespace character of a byte string: the UTF-8 encoding of one
    of these code points (one to three bytes). *)
Definition space_seqs : list (list ascii) := map utf8_encode_cp py_space_cps.

Fixpoint ascii_list_eqb (a b : list ascii) : bool :=
  match a, b with
  | [], [] => true
  | c :: a', d :: b' => Ascii.eqb c d && ascii_list_eqb a' b'
  | _, _ => false
  end.

(** [Py_UNICODE_ISSPACE] of the character whose bytes are [bs]. *)
Definition py_isspace (bs : list ascii) : bool := existsb (ascii_list_eqb bs) space_seqs.

(** Read from the end of a text, the bytes of a character come last
    first. *)
Definition py_isspace_rev (bs : list ascii) : bool := py_isspace (rev bs).

(** Drops the whitespace characters at the front of [s]: [sp bs] says
    whether the one, two or three bytes [bs] the text starts with form
    one. *)
Fixpoint strip_front (sp : list ascii -> bool) (s : string) : string :=
  match s with
  | EmptyString => EmptyString
  | String c s1 =>
      if sp [c] then strip_front sp s1 else
      match s1 with
      | EmptyString => s
      | String c1 s2 =>
          if sp [c; c1] then strip_front sp s2 else
          match s2 with
          | EmptyString => s
          | String c2 s3 => if sp [c; c1; c2] then strip_front sp s3 else s
          end
      end
  end.

(** CPython's [do_strip]: the index moves past whitespace from the left,
    then from the right. *)
Definition py_lstrip (s : string) : string := strip_front py_isspace s.

Definition py_rstrip (s : string) : string :=
  String.rev (strip_front py_isspace_rev (String.rev s)).

Definition py_strip (s : string) : string := py_rstrip (py_lstrip s).

(** [w] is a run of whitespace characters. *)
Definition all_space (w : string) : Prop :=
  exists ws, Forall (fun bs => bs ∈ space_seqs) ws /\ w = String.string_of_list_ascii (concat ws).

(** [c] is the first byte of a whitespace character, or its last. *)
Definition space_lead (c : ascii) : bool :=
  existsb (fun bs => match bs with d :: _ => Ascii.eqb c d | [] => false end) space_seqs.

Definition space_last (c : ascii) : bool :=
  existsb (fun bs => match rev bs with d :: _ => Ascii.eqb c d | [] => false end) space_seqs.

(** [j] neither starts with the first byte of a whitespace character
    nor ends with the last byte of one. *)
Definition edges_not_space (j : string) : Prop :=
  match j with
  | EmptyString => True
  | String c _ =>
      space_lead c = false /\
      match String.rev j with
      | String d _ => space_last d = false
      | EmptyString => True
      end
  end.

(** ** Lemmas on [String.prefix] and [String.rev] *)

Lemma prefix_app (p s : string) : String.prefix p (p +:+ s) = true.
Proof.
  induction p as [|c p IH]; [by destruct s |].
  rewrite string_app_cons. simpl. by destruct (ascii_dec c c).
Qed.

Lemma prefix_true_inv (p s : string) :
  String.prefix p s = true -> exists r, s = p +:+ r.
Proof.
  revert s. induction p as [|c p IH]; intros [|d s] H; simpl in H.
  - by exists "".
  - by exists (String d s).
  - done.
  - destruct (ascii_dec c d) as [->|]; [|done].
    destruct (IH s H) as [r ->]. by exists r.
Qed.

Lemma rev_app_app (a b c : string) :
  String.rev_app (a +:+ b) c = String.rev_app b (String.rev_app a c).
Proof. revert c. induction a as [|x a IH]; intros c; [done |]. apply IH. Qed.

Lemma rev_app_acc (a c : string) : String.rev_app a c = String.rev a +:+ c.
Proof.
  revert c. induction a as [|x a IH]; intros c; [done |].
  unfold String.rev. simpl. rewrite !IH, <- string_app_assoc. done.
Qed.

Lemma string_rev_app (a b : string) :
  String.rev (a +:+ b) = String.rev b +:+ String.rev a.
Proof. unfold String.rev at 1. by rewrite rev_app_app, !rev_app_acc, string_app_nil_r. Qed.

Lemma string_rev_involutive (s : string) : String.rev (String.rev s) = s.
Proof.
  induction s as [|c s IH]; [done |].
  change (String c s) with (String c "" +:+ s).
  by rewrite !string_rev_app, IH.
Qed.

#[export] Hint Rewrite string_rev_app string_rev_involutive : dc_rw.

(** [d] does not occur in [s]. *)
Fixpoint char_free (d : ascii) (s : string) : bool :=
  match s with
  | EmptyString => true
  | String c s' => negb (Ascii.eqb c d) && char_free d s'
  end.

(** ** [str.replace] meets its specification *)

Lemma char_free_app (d : ascii) (a b : string) :
  char_free d (a +:+ b) = char_free d a && char_free d b.
Proof.
  induction a as [|c a IH]; [done |].
  rewrite string_app_cons. simpl. by rewrite IH, andb_assoc.
Qed.

Lemma string_cons_inv (s : string) :
  s <> "" -> exists c s', s = String c s'.
Proof. destruct s as [|c s']; [done | by exists c, s']. Qed.

Section ReplaceProofs.
Variables old new : string.

(** Scanning with [skip = length a] drops exactly [a]. *)
Lemma replace_scan_skip (a s : string) :
  replace_scan old new (a +:+ s) (String.length a) = replace_scan old new s 0.
Proof. induction a as [|c a IH]; [done |]. by rewrite string_app_cons. Qed.

Lemma replace_scan_hit (r : string) :
  old <> "" ->
  replace_scan old new (old +:+ r) 0 = new +:+ replace_scan old new r 0.
Proof.
  intros Hne. destruct (string_cons_inv old Hne) as (d & old' & Hold).
  assert (E : old +:+ r = String d (old' +:+ r)) by (by rewrite Hold).
  rewrite E. cbn [replace_scan]. rewrite <- E, prefix_app.
  replace (String.length old - 1) with (String.length old')
    by (rewrite Hold; simpl; lia).
  by rewrite replace_scan_skip.
Qed.

(** The scanner computes a leftmost non-overlapping replacement. *)
Lemma replace_scan_replaces (s : string) :
  old <> "" -> replaces old new s (replace_scan old new s 0).
Proof.
  intros Hne. remember (String.length s) as n eqn:Hn.
  revert s Hn. induction n as [n IH] using lt_wf_ind.
  intros [|c s'] Hn; [constructor |].
  destruct (String.prefix old (String c s')) eqn:Hp.
  - destruct (prefix_true_inv _ _ Hp) as [r Hr]. rewrite Hr.
    rewrite replace_scan_hit by done. constructor.
    apply (IH (String.length r)); [|done].
    subst n. rewrite Hr, string_app_length.
    destruct old; [done | simpl; lia].
  - cbn [replace_scan]. rewrite Hp. constructor; [done |].
    apply (IH (String.length s')); [subst n; simpl; lia | done].
Qed.

(** The specification has at most one result. *)

(** Every result the specification allows is the scanner's result. *)
Lemma replaces_scan (s t : string) :
  old <> "" -> replaces old new s t -> t = replace_scan old new s 0.
Proof.
  intros Hne H. induction H as [|s t H IH|c s t Hp H IH]; [done | |].
  - by rewrite replace_scan_hit, IH.
  - cbn [replace_scan]. by rewrite Hp, IH.
Qed.

(** A prefix free of [old]'s first character passes through unchanged. *)
Lemma replace_scan_app_fresh (d : ascii) (old' a b : string) :
  old = String d old' -> char_free d a = true ->
  replace_scan old new (a +:+ b) 0 = a +:+ replace_scan old new b 0.
Proof.
  intros Hold Ha. induction a as [|c a IH]; [done |].
  simpl in Ha. apply andb_prop in Ha as [Hc Ha].
  rewrite !string_app_cons. cbn [replace_scan]. rewrite Hold. simpl.
  destruct (ascii_dec d c) as [->|_].
  - by rewrite Ascii.eqb_refl in Hc.
  - f_equal. rewrite <- Hold. by apply IH.
Qed.

Lemma py_replace_nonempty (s : string) :
  old <> "" -> py_replace s old new = replace_scan old new s 0.
Proof. unfold py_replace. by destruct old. Qed.
End ReplaceProofs.

(** [str.replace] with a non-empty pattern computes exactly the
    leftmost, non-overlapping replacement described by [replaces]: the
    scanner's result satisfies the specification, and it is the only
    string that does. *)
Theorem py_replace_spec (s old new t : string) :
  old <> "" -> (replaces old new s t <-> py_replace s old new = t).
Proof.
  intros Hne. unfold py_replace. destruct old as [|d old']; [done |]. split.
  - intros H. symmetry. by apply replaces_scan.
  - intros <-. by apply replace_scan_replaces.
Qed.


(** ** [str.strip] *)

Lemma string_rev_cons (c : ascii) (s : string) :
  String.rev (String c s) = String.rev s +:+ String c "".
Proof. change (String c s) with (String c "" +:+ s). by rewrite string_rev_app. Qed.

Lemma string_rev_nil (s : string) : String.rev s = "" -> s = "".
Proof. intros H. by rewrite <- (string_rev_involutive s), H. Qed.

Lemma string_of_list_app (a b : list ascii) :
  String.string_of_list_ascii (a ++ b) =
  String.string_of_list_ascii a +:+ String.string_of_list_ascii b.
Proof. induction a as [|c a IH]; [done |]. simpl. by rewrite IH, string_app_cons. Qed.

Lemma string_rev_of_list (l : list ascii) :
  String.rev (String.string_of_list_ascii l) = String.string_of_list_ascii (rev l).
Proof.
  induction l as [|c l IH]; [done |]. cbn [String.string_of_list_ascii rev].
  by rewrite string_rev_cons, IH, string_of_list_app.
Qed.

Lemma ascii_list_eqb_eq (a b : list ascii) : ascii_list_eqb a b = true -> a = b.
Proof.
  revert b. induction a as [|c a IH]; intros [|d b]; cbn; try done.
  intros [E%Ascii.eqb_eq H]%andb_prop. by rewrite E, (IH b H).
Qed.

(** [bs] is one character as [strip_front sp] reads it: [sp] accepts
    its bytes and no shorter prefix of them. *)
Definition char_read (sp : list ascii -> bool) (bs : list ascii) : bool :=
  match bs with
  | [c] => sp [c]
  | [c; c1] => negb (sp [c]) && sp [c; c1]
  | [c; c1; c2] => negb (sp [c]) && negb (sp [c; c1]) && sp [c; c1; c2]
  | _ => false
  end.

Lemma strip_front_char (sp : list ascii -> bool) (bs : list ascii) (s : string) :
  char_read sp bs = true ->
  strip_front sp (String.string_of_list_ascii bs +:+ s) = strip_front sp s.
Proof.
  destruct bs as [|c [|c1 [|c2 [|]]]]; cbn [char_read]; try done.
  - intros Hc. simpl. by rewrite Hc.
  - intros [Hc%negb_true_iff Hc1]%andb_prop. simpl. by rewrite Hc, Hc1.
  - intros [[Hc%negb_true_iff Hc1%negb_true_iff]%andb_prop Hc2]%andb_prop.
    simpl. by rewrite Hc, Hc1, Hc2.
Qed.

(** [strip_front] stops at a byte that starts no character it accepts. *)
Lemma strip_front_stop (sp : list ascii -> bool) (c : ascii) (s : string) :
  (forall bs, sp (c :: bs) = false) -> strip_front sp (String c s) = String c s.
Proof. intros H. destruct s as [|c1 [|c2 s]]; cbn; by rewrite ?H. Qed.

(** Every whitespace character is read whole, from either end. *)
Lemma space_seqs_read :
  Forall (fun bs => char_read py_isspace bs = true /\ char_read py_isspace_rev (rev bs) = true)
    space_seqs.
Proof. apply (bool_decide_unpack _). vm_compute. reflexivity. Qed.

Lemma isspace_lead (c : ascii) (bs : list ascii) :
  py_isspace (c :: bs) = true -> space_lead c = true.
Proof.
  unfold py_isspace, space_lead. rewrite !existsb_exists. intros (l & Hl & E).
  apply ascii_list_eqb_eq in E as <-. exists (c :: bs). split; [done |]. apply Ascii.eqb_refl.
Qed.

Lemma isspace_rev_last (c : ascii) (bs : list ascii) :
  py_isspace_rev (c :: bs) = true -> space_last c = true.
Proof.
  unfold py_isspace_rev, py_isspace, space_last. rewrite !existsb_exists. intros (l & Hl & E).
  apply ascii_list_eqb_eq in E as <-. exists (rev (c :: bs)). split; [done |].
  rewrite rev_involutive. apply Ascii.eqb_refl.
Qed.

(** Leading whitespace is dropped by [str.lstrip]... *)
Lemma lstrip_space_app (w s : string) :
  all_space w -> py_lstrip (w +:+ s) = py_lstrip s.
Proof.
  intros (ws & Hws & ->). induction Hws as [|bs ws Hbs _ IH]; [done |].
  cbn [concat]. rewrite string_of_list_app, <- string_app_assoc.
  unfold py_lstrip in *. rewrite strip_front_char; [exact IH |].
  by destruct (proj1 (Forall_forall _ _) space_seqs_read _ Hbs).
Qed.

(** ... and trailing whitespace, read from the end, by [str.rstrip]. *)
Lemma rstrip_space_app (w s : string) :
  all_space w -> strip_front py_isspace_rev (String.rev w +:+ s) = strip_front py_isspace_rev s.
Proof.
  intros (ws & Hws & ->). revert s. induction Hws as [|bs ws Hbs _ IH]; intros s; [done |].
  cbn [concat]. rewrite string_of_list_app, string_rev_app, <- string_app_assoc, IH.
  rewrite string_rev_of_list. apply strip_front_char.
  by destruct (proj1 (Forall_forall _ _) space_seqs_read _ Hbs).
Qed.

(** Stripping a whitespace-padded string whose edges are not
    whitespace gives the string back. *)
Lemma py_strip_padded (w1 j w2 : string) :
  all_space w1 -> all_space w2 -> edges_not_space j -> py_strip (w1 +:+ j +:+ w2) = j.
Proof.
  intros H1 H2 Hj. unfold py_strip, py_rstrip. rewrite lstrip_space_app by done.
  destruct j as [|c j'].
  - change ("" +:+ w2) with w2.
    by rewrite <- (string_app_nil_r w2), lstrip_space_app.
  - destruct Hj as [Hc Hd]. unfold py_lstrip. rewrite string_app_cons, strip_front_stop.
    2:{ intros bs. destruct (py_isspace (c :: bs)) eqn:E; [| done].
        apply isspace_lead in E. congruence. }
    rewrite <- string_app_cons, string_rev_app, rstrip_space_app by done.
    destruct (String.rev (String c j')) as [|d r] eqn:Er; [by apply string_rev_nil in Er |].
    rewrite strip_front_stop; [by rewrite <- Er, string_rev_involutive |].
    intros bs. destruct (py_isspace_rev (d :: bs)) eqn:E; [| done].
    apply isspace_rev_last in E. congruence.
Qed.

(** A byte [d] that occurs in no whitespace character occurs in no run
    of them. *)
Lemma all_space_char_free (d : ascii) (w : string) :
  Forall (fun bs => char_free d (String.string_of_list_ascii bs) = true) space_seqs ->
  all_space w -> char_free d w = true.
Proof.
  intros Hd (ws & Hws & ->). induction Hws as [|bs ws Hbs _ IH]; [done |].
  cbn [concat]. rewrite string_of_list_app, char_free_app, IH, andb_true_r.
  exact (proj1 (Forall_forall _ _) Hd _ Hbs).
Qed.

(** No printable ASCII byte starts or ends a whitespace character. *)
Lemma space_edges_ascii (c : ascii) :
  (33 <= ord c < 128)%Z -> space_lead c = false /\ space_last c = false.
Proof.
  intros Hc. rewrite <- (chr_ord c).
  assert (Hall : Forall (fun n => space_lead (chr n) = false /\ space_last (chr n) = false)
                        (map Z.of_nat (seq 33 95)))
    by (apply (bool_decide_unpack _); vm_compute; reflexivity).
  apply (proj1 (Forall_forall _ _) Hall). apply list_elem_of_In, in_map_iff.
  exists (Z.to_nat (ord c)). split; [lia | apply in_seq; lia].
Qed.

(** ** Python's [in] on strings, decided *)

(** [s1 in s2]: a prefix of [s2] or of one of its suffixes. *)
Fixpoint str_infixb (s1 s2 : string) : bool :=
  String.prefix s1 s2 ||
  match s2 with
  | EmptyString => false
  | String _ s2' => str_infixb s1 s2'
  end.

Lemma str_infixb_spec (s1 s2 : string) : str_infixb s1 s2 = true <-> s1 in_str s2.
Proof.
  split.
  - induction s2 as [|c s2 IH]; cbn [str_infixb].
    + rewrite orb_false_r. intros [r ->]%prefix_true_inv. by exists "", r.
    + intros [[r E]%prefix_true_inv | H]%orb_true_iff.
      * rewrite E. by exists "", r.
      * apply str_infix_cons, IH, H.
  - intros (a & b & ->). induction a as [|c a IH].
    + change ("" +:+ s1 +:+ b) with (s1 +:+ b).
      pose proof (prefix_app s1 b) as Hp. revert Hp.
      destruct (s1 +:+ b); cbn [str_infixb]; intros ->; done.
    + rewrite string_app_cons. cbn [str_infixb]. rewrite IH. apply orb_true_r.
Qed.

#[export] Instance str_infix_dec (s1 s2 : string) : Decision (s1 in_str s2).
Proof.
  destruct (str_infixb s1 s2) eqn:E; [left | right]; rewrite <- str_infixb_spec; [done | congruence].
Defined.

(** ** Witnesses *)

Lemma py_replace_spec_witness :
  "```" <> "" /\ replaces "```" "" "a```b" "ab".
Proof.
  split; [discriminate |].
  apply (proj2 (py_replace_spec "a```b" "```" "" "ab" ltac:(discriminate))).
  reflexivity.
Defined.


(** ** [str.split()] with no separator: CPython's [split_whitespace]

    The words of the text in order: its maximal runs of characters that
    are not whitespace.  [split_go] reads the text from the right and
    returns the word the text starts with (empty when it starts with
    whitespace or is empty) and the words after it; a whitespace
    character is read as its one to three bytes, as in [strip_front]. *)

(** The leading word, when there is one, followed by the other words. *)
Definition split_flush (p : string * list string) : list string :=
  if py_truthy p.1 then p.1 :: p.2 else p.2.

Fixpoint split_go (s : string) : string * list string :=
  match s with
  | EmptyString => (EmptyString, [])
  | String c s1 =>
      let word := let p := split_go s1 in (String c p.1, p.2) in
      if py_isspace [c] then (EmptyString, split_flush (split_go s1)) else
      match s1 with
      | EmptyString => word
      | String c1 s2 =>
          if py_isspace [c; c1] then (EmptyString, split_flush (split_go s2)) else
          match s2 with
          | EmptyString => word
          | String c2 s3 =>
              if py_isspace [c; c1; c2] then (EmptyString, split_flush (split_go s3)) else word
          end
      end
  end.

Definition py_split (s : string) : list string := split_flush (split_go s).
