(* ===== verification/Json.v ===== *)
(** * JSON values and the [json] module interface

    [find_best_match] returns [json.loads(clean)] (src/app.py, line 69)
    and the matchmaker tab reads the result with [.get("name")],
    [["name"]] and [["reason"]] (lines 155-161); the prompt embeds
    [json.dumps(developers)] (line 61).  This file holds
    - [json]: the Python values [json.loads] produces: [None], [bool],
      [int] ([JNum]), [float] ([JFloat], kept as the literal it was
      read from: the script never computes with it), [str], [list]
      and [dict] (an association list);
    - [py_get] and [py_getitem]: Python's [v.get(k)] and [v[k]], with
      the exceptions they raise on values that are not [dict]s; a JSON
      object with a repeated key becomes a [dict] in which the last
      binding wins;
    - [JsonLib]: the part of Python's [json] module the script uses;
      [PyJson.py_json] is its model after CPython. *)

From S2P Require Import Prelude.

#[local] Set Warnings "-register-all".
Inductive json : Type :=
| JNull
| JBool (b : bool)
| JNum (n : Z)
| JFloat (lit : string)
| JStr (s : string)
| JArr (items : list json)
| JObj (fields : list (string * json)).

(** The value bound to [k] in a decoded object: the last binding. *)
Fixpoint obj_lookup (k : string) (fields : list (string * json)) : option json :=
  match fields with
  | [] => None
  | (k', v) :: rest =>
      match obj_lookup k rest with
      | Some v' => Some v'
      | None => if String.eqb k k' then Some v else None
      end
  end.

(** Induction on values, through the items of arrays and objects. *)
Section JsonInd.
Context (P : json -> Prop).
Context (Hnull : P JNull) (Hbool : forall b, P (JBool b)) (Hnum : forall n, P (JNum n))
  (Hfloat : forall lit, P (JFloat lit)) (Hstr : forall s, P (JStr s))
  (Harr : forall xs, Forall P xs -> P (JArr xs))
  (Hobj : forall fs, Forall (fun kv => P kv.2) fs -> P (JObj fs)).

Fixpoint json_nested_ind (v : json) : P v :=
  match v with
  | JNull => Hnull
  | JBool b => Hbool b
  | JNum n => Hnum n
  | JFloat lit => Hfloat lit
  | JStr s => Hstr s
  | JArr xs =>
      Harr xs ((fix go (xs : list json) : Forall P xs :=
                  match xs with
                  | [] => List.Forall_nil _
                  | x :: xs' => List.Forall_cons _ x xs' (json_nested_ind x) (go xs')
                  end) xs)
  | JObj fs =>
      Hobj fs ((fix go (fs : list (string * json)) : Forall (fun kv => P kv.2) fs :=
                  match fs with
                  | [] => List.Forall_nil _
                  | (k, x) :: fs' => List.Forall_cons _ (k, x) fs' (json_nested_ind x) (go fs')
                  end) fs)
  end.
End JsonInd.

(** Equality of values, decided structurally. *)
Fixpoint json_eqb (v w : json) : bool :=
  match v, w with
  | JNull, JNull => true
  | JBool a, JBool b => Bool.eqb a b
  | JNum a, JNum b => Z.eqb a b
  | JFloat a, JFloat b => String.eqb a b
  | JStr a, JStr b => String.eqb a b
  | JArr xs, JArr ys =>
      (fix go (xs ys : list json) : bool :=
         match xs, ys with
         | [], [] => true
         | x :: xs', y :: ys' => json_eqb x y && go xs' ys'
         | _, _ => false
         end) xs ys
  | JObj fs, JObj gs =>
      (fix go (fs gs : list (string * json)) : bool :=
         match fs, gs with
         | [], [] => true
         | (k, x) :: fs', (l, y) :: gs' => String.eqb k l && json_eqb x y && go fs' gs'
         | _, _ => false
         end) fs gs
  | _, _ => false
  end.

Lemma json_eqb_eq (v w : json) : json_eqb v w = true <-> v = w.
Proof.
  revert w. induction v as [| a | a | a | a | xs IH | fs IH] using json_nested_ind;
    intros [| b | b | b | b | ys | gs]; simpl; try (split; congruence).
  - rewrite Bool.eqb_true_iff. split; congruence.
  - rewrite Z.eqb_eq. split; congruence.
  - rewrite String.eqb_eq. split; congruence.
  - rewrite String.eqb_eq. split; congruence.
  - revert ys. induction IH as [|x xs Hx _ IHxs]; intros [|y ys]; try (split; congruence).
    rewrite andb_true_iff, Hx, IHxs. split; [intros [-> [= ->]] | intros [= -> ->]]; done.
  - revert gs. induction IH as [|[k x] fs Hx _ IHfs]; intros [|[l y] gs]; try (split; congruence).
    simpl in Hx. rewrite !andb_true_iff, String.eqb_eq, Hx, IHfs.
    split; [intros [[-> ->] [= ->]] | intros [= -> -> ->]]; done.
Qed.

#[export] Instance json_eq_dec : EqDecision json.
Proof.
  intros v w. destruct (json_eqb v w) eqn:E; [left | right]; rewrite <- json_eqb_eq; [done | congruence].
Defined.

(** [v.get(k)]: [inl None] is Python's [None]. *)
Definition py_get (v : json) (k : string) : option json + py_exc :=
  match v with
  | JObj fields => inl (obj_lookup k fields)
  | _ => inr AttributeError
  end.

(** [v[k]] with a string key. *)
Definition py_getitem (v : json) (k : string) : json + py_exc :=
  match v with
  | JObj fields =>
      match obj_lookup k fields with
      | Some x => inl x
      | None => inr (KeyError k)
      end
  | _ => inr TypeError
  end.

(** Python's [x == s] for a decoded value [x] and a [str] [s]. *)
Definition py_eq_str (x : json) (s : string) : bool :=
  match x with
  | JStr s' => String.eqb s' s
  | _ => false
  end.

(** The part of Python's [json] module the script calls: [loads]
    returns [None] where Python raises [JSONDecodeError]. *)
Class JsonLib : Type := {
  json_loads : string -> option json;
  json_dumps : json -> string
}.

Lemma py_getitem_get (v x : json) (k : string) :
  py_getitem v k = inl x <-> py_get v k = inl (Some x).
Proof.
  destruct v; simpl; try done.
  destruct (obj_lookup k fields); split; congruence.
Qed.

Lemma py_eq_str_iff (x : json) (s : string) : py_eq_str x s = true <-> x = JStr s.
Proof.
  destruct x; simpl; try (split; congruence).
  rewrite String.eqb_eq. split; congruence.
Qed.
