(* ===== verification/PyJson.v ===== *)
(** * Python's [json] module: [json.dumps] and [json.loads]

    The script calls [json.dumps(developers)] (src/app.py, line 61) to
    put the roster in the matchmaker prompt, and [json.loads(clean)]
    (line 69) on the model's answer.  This file models both after
    CPython's accelerator ([Modules/_json.c]) with the default options,
    and is the [JsonLib] instance [py_json].

    - [dumps]: separators comma-space and colon-space, [ensure_ascii]: a
      string is decoded to code points ([Utf8.utf8_decode]) and every
      character outside [' '..'~'], and the quote and the backslash, is
      escaped ([ascii_escape_unichar]): backspace, form feed, newline,
      carriage return and tab by their letter, anything else as [uXXXX]
      with lowercase hex digits, above
      [0xFFFF] as a surrogate pair; an [int] is printed in decimal.
    - [loads]: [scan_once] on the text after its leading whitespace,
      then only whitespace may follow (Python's Extra data error).
      Strings ([scanstring]) accept the escapes of the quote, the
      backslash, the slash, [b f n r t] and [uXXXX] (a high surrogate
      joined with a following low one, a lone surrogate kept as its
      own code point),
      refuse raw control characters (strict mode), and are re-encoded
      in UTF-8; numbers follow [_match_number_unicode]: an optional
      minus, [0] or a non-zero digit and digits, then an optional
      fraction and exponent, which make it a [float]; [NaN],
      [Infinity] and [-Infinity] are floats too.
    - Arrays and objects nest; the recursion carries fuel, and the fuel
      [loads] gives, twice the length of the text plus one, is never
      exhausted ([scan_once_enough_fuel]).

    A Python [str] is held as the UTF-8 encoding of its code points; a
    lone surrogate, which [json.loads] can put in a [str], gets the
    three bytes its code point encodes to.  Out of the model: a float
    keeps the literal it was read from, and [dumps] prints that literal
    (the script dumps only the roster, which has no float); [dumps] of
    a string holding a lone surrogate (the script never dumps one). *)

From S2P Require Import Prelude Utf8 Json.

Open Scope Z_scope.

(** ** json.dumps *)

(** [Py_hexdigits], lowercase. *)
Definition hexdigit (d : Z) : ascii := chr (if d <? 10 then 48 + d else 87 + d).

(** [u] and four hex digits. *)
Definition u_hex4 (c : Z) : list ascii :=
  ["u"%char; hexdigit (Z.land (Z.shiftr c 12) 0xf); hexdigit (Z.land (Z.shiftr c 8) 0xf);
   hexdigit (Z.land (Z.shiftr c 4) 0xf); hexdigit (Z.land c 0xf)].

(** [Py_UNICODE_HIGH_SURROGATE] and [Py_UNICODE_LOW_SURROGATE]. *)
Definition high_surrogate (c : Z) : Z := 0xD800 - Z.shiftr 0x10000 10 + Z.shiftr c 10.
Definition low_surrogate (c : Z) : Z := 0xDC00 + Z.land c 0x3FF.

(** [S_CHAR(c)]: printed as it is. *)
Definition s_char (c : Z) : bool :=
  (32 <=? c) && (c <=? 126) && negb (c =? 92) && negb (c =? 34).

(** [ascii_escape_unichar]. *)
Definition ascii_escape_unichar (c : Z) : list ascii :=
  "\"%char ::
  (if c =? 92 then ["\"%char]
   else if c =? 34 then [dq_char]
   else if c =? 8 then ["b"%char]
   else if c =? 12 then ["f"%char]
   else if c =? 10 then ["n"%char]
   else if c =? 13 then ["r"%char]
   else if c =? 9 then ["t"%char]
   else if 0x10000 <=? c
   then u_hex4 (high_surrogate c) ++ "\"%char :: u_hex4 (low_surrogate c)
   else u_hex4 c).

Definition escape_cp (c : Z) : list ascii :=
  if s_char c then [chr c] else ascii_escape_unichar c.

Fixpoint escape_all (cps : list Z) : list ascii :=
  match cps with
  | [] => []
  | c :: cps' => escape_cp c ++ escape_all cps'
  end.

(** [c_encode_basestring_ascii]: the quoted, escaped string. *)
Definition encode_basestring_ascii (s : string) : list ascii :=
  let bytes := String.list_ascii_of_string s in
  let cps := match utf8_decode bytes with Some cps => cps | None => map ord bytes end in
  dq_char :: escape_all cps ++ [dq_char].

(** [int.__repr__]: the decimal digits of [n >= 0] before [acc]; the
    fuel, the bit length of [n], is at least its number of digits. *)
Fixpoint decimal (fuel : nat) (n : Z) (acc : list ascii) : list ascii :=
  match fuel with
  | O => acc
  | S f =>
      let acc' := chr (48 + n mod 10) :: acc in
      if n <? 10 then acc' else decimal f (n / 10) acc'
  end.

Definition int_repr (n : Z) : list ascii :=
  if n <? 0 then "-"%char :: decimal (S (Z.to_nat (Z.log2 (- n)))) (- n) []
  else decimal (S (Z.to_nat (Z.log2 n))) n [].

(** [item_separator.join(...)]. *)
Fixpoint join_items (items : list (list ascii)) : list ascii :=
  match items with
  | [] => []
  | [x] => x
  | x :: rest => x ++ [","%char; " "%char] ++ join_items rest
  end.

Fixpoint dumps_l (v : json) : list ascii :=
  match v with
  | JNull => String.list_ascii_of_string "null"
  | JBool true => String.list_ascii_of_string "true"
  | JBool false => String.list_ascii_of_string "false"
  | JNum n => int_repr n
  | JFloat lit => String.list_ascii_of_string lit
  | JStr s => encode_basestring_ascii s
  | JArr xs => "["%char :: join_items (map dumps_l xs) ++ ["]"%char]
  | JObj fs =>
      "{"%char ::
      join_items (map (fun '(k, x) => encode_basestring_ascii k ++ [":"%char; " "%char] ++ dumps_l x) fs)
      ++ ["}"%char]
  end.

Definition dumps (v : json) : string := String.string_of_list_ascii (dumps_l v).

(** ** json.loads *)

(** The scanner's result: a value and the rest of the text, a decoding
    error, or fuel exhausted. *)
Inductive scan (A : Type) : Type :=
| Scanned (a : A) (rest : list ascii)
| ScanError
| ScanFuel.
Arguments Scanned {A} a rest.
Arguments ScanError {A}.
Arguments ScanFuel {A}.

Definition scan_bind {A B} (m : scan A) (k : A -> list ascii -> scan B) : scan B :=
  match m with
  | Scanned a r => k a r
  | ScanError => ScanError
  | ScanFuel => ScanFuel
  end.

(** [IS_WHITESPACE]: space, tab, newline, carriage return. *)
Definition is_ws (c : ascii) : bool :=
  Ascii.eqb c " " || Ascii.eqb c "009" || Ascii.eqb c "010" || Ascii.eqb c "013".

Fixpoint skip_ws (l : list ascii) : list ascii :=
  match l with
  | c :: l' => if is_ws c then skip_ws l' else l
  | [] => []
  end.

(** The value of a hex digit, any case. *)
Definition hex_val (c : ascii) : option Z :=
  let n := ord c in
  if (48 <=? n) && (n <=? 57) then Some (n - 48)
  else if (97 <=? n) && (n <=? 102) then Some (n - 87)
  else if (65 <=? n) && (n <=? 70) then Some (n - 55)
  else None.

(** Four hex digits, [c = (c << 4) + digit] for each. *)
Definition hex4 (h1 h2 h3 h4 : ascii) : option Z :=
  match hex_val h1, hex_val h2, hex_val h3, hex_val h4 with
  | Some a, Some b, Some c, Some d =>
      Some (Z.shiftl (Z.shiftl (Z.shiftl a 4 + b) 4 + c) 4 + d)
  | _, _, _, _ => None
  end.

Definition is_high (c : Z) : bool := (0xD800 <=? c) && (c <=? 0xDBFF).
Definition is_low (c : Z) : bool := (0xDC00 <=? c) && (c <=? 0xDFFF).

(** [Py_UNICODE_JOIN_SURROGATES]. *)
Definition join_surrogates (hi lo : Z) : Z :=
  Z.lor (Z.shiftl (Z.land hi 0x3FF) 10) (Z.land lo 0x3FF) + 0x10000.

Definition prepend {A} (xs : list ascii) (r : option (list ascii * A)) : option (list ascii * A) :=
  match r with
  | Some (ys, rest) => Some (xs ++ ys, rest)
  | None => None
  end.

(** The one-character escapes. *)
Definition simple_escape (e : ascii) : option ascii :=
  if Ascii.eqb e dq_char then Some dq_char
  else if Ascii.eqb e "\" then Some "\"%char
  else if Ascii.eqb e "/" then Some "/"%char
  else if Ascii.eqb e "b" then Some "008"%char
  else if Ascii.eqb e "f" then Some "012"%char
  else if Ascii.eqb e "n" then Some "010"%char
  else if Ascii.eqb e "r" then Some "013"%char
  else if Ascii.eqb e "t" then Some "009"%char
  else None.

(** [scanstring_unicode], after the opening quote: the string's code
    points, encoded in UTF-8, and the text after the closing quote.  A
    [\uXXXX] high surrogate is joined with a following [\uXXXX] low
    surrogate; otherwise it is kept alone and the next escape is read on
    its own, and a lone low surrogate is kept too.  A lone surrogate
    is encoded as the three bytes its code point gives (the
    generalised UTF-8 of [surrogatepass]), so that distinct Python
    strings stay distinct byte strings.  CPython only looks for the
    second escape when a character follows it ([end + 6 < len]); when
    none does, the string is unterminated either way. *)
Fixpoint scanstring (l : list ascii) : option (list ascii * list ascii) :=
  match l with
  | [] => None
  | c :: l1 =>
      if Ascii.eqb c dq_char then Some ([], l1)
      else if Ascii.eqb c "\" then
        match l1 with
        | [] => None
        | e :: l2 =>
            if Ascii.eqb e "u" then
              match l2 with
              | h1 :: h2 :: h3 :: h4 :: l3 =>
                  match hex4 h1 h2 h3 h4 with
                  | None => None
                  | Some u =>
                      if is_high u then
                        match l3 with
                        | b :: v :: g1 :: g2 :: g3 :: g4 :: l4 =>
                            if Ascii.eqb b "\" && Ascii.eqb v "u" then
                              match hex4 g1 g2 g3 g4 with
                              | Some u2 =>
                                  if is_low u2
                                  then prepend (utf8_encode_cp (join_surrogates u u2)) (scanstring l4)
                                  else prepend (utf8_encode_cp u) (scanstring l3)
                              | None => None
                              end
                            else prepend (utf8_encode_cp u) (scanstring l3)
                        | _ => prepend (utf8_encode_cp u) (scanstring l3)
                        end
                      else prepend (utf8_encode_cp u) (scanstring l3)
                  end
              | _ => None
              end
            else
              match simple_escape e with
              | Some x => prepend [x] (scanstring l2)
              | None => None
              end
        end
      else if ord c <? 32 then None
      else prepend [c] (scanstring l1)
  end.

Definition is_digit (c : ascii) : bool := (48 <=? ord c) && (ord c <=? 57).

Fixpoint take_digits (l : list ascii) : list ascii * list ascii :=
  match l with
  | c :: l' => if is_digit c then let '(ds, r) := take_digits l' in (c :: ds, r) else ([], l)
  | [] => ([], [])
  end.

(** The value of a digit string. *)
Definition digits_val (ds : list ascii) : Z :=
  fold_left (fun acc d => acc * 10 + (ord d - 48)) ds 0.

(** A fraction: a point followed by a digit, and the digits. *)
Definition scan_frac (l : list ascii) : option (list ascii * list ascii) :=
  match l with
  | c :: d :: l' =>
      if Ascii.eqb c "." && is_digit d
      then let '(ds, r) := take_digits l' in Some (c :: d :: ds, r) else None
  | _ => None
  end.

(** The optional sign of an exponent. *)
Definition exp_sign (l : list ascii) : list ascii * list ascii :=
  match l with
  | s :: l' => if Ascii.eqb s "+" || Ascii.eqb s "-" then ([s], l') else ([], l)
  | [] => ([], [])
  end.

(** An exponent: [e] or [E], an optional sign, at least one digit;
    otherwise the scanner backtracks to the [e]. *)
Definition scan_exp (l : list ascii) : option (list ascii * list ascii) :=
  match l with
  | e :: l1 =>
      if Ascii.eqb e "e" || Ascii.eqb e "E" then
        let '(sg, l2) := exp_sign l1 in
        match take_digits l2 with
        | ([], _) => None
        | (ds, r) => Some (e :: sg ++ ds, r)
        end
      else None
  | [] => None
  end.

(** [_match_number_unicode], in its steps: the sign, the integer
    part ([0] alone, or a non-zero digit and digits), the optional
    fraction and exponent. *)
Definition number_sign (l : list ascii) : bool * list ascii :=
  match l with
  | c :: l' => if Ascii.eqb c "-" then (true, l') else (false, l)
  | [] => (false, [])
  end.

Definition int_part (l : list ascii) : option (list ascii * list ascii) :=
  match l with
  | c :: l2 =>
      if Ascii.eqb c "0" then Some ([c], l2)
      else if is_digit c then let '(ds, r) := take_digits l2 in Some (c :: ds, r)
      else None
  | [] => None
  end.

(** An optional part: nothing read when it is absent. *)
Definition opt_part (p : list ascii -> option (list ascii * list ascii)) (l : list ascii)
    : list ascii * list ascii :=
  match p l with Some (xs, r) => (xs, r) | None => ([], l) end.

Definition match_number (l : list ascii) : scan json :=
  let '(neg, l1) := number_sign l in
  match int_part l1 with
  | None => ScanError
  | Some (ip, r) =>
      let '(fr, r1) := opt_part scan_frac r in
      let '(ex, r2) := opt_part scan_exp r1 in
      match fr, ex with
      | [], [] => Scanned (JNum (if neg then - digits_val ip else digits_val ip)) r2
      | _, _ =>
          Scanned (JFloat (String.string_of_list_ascii
                             ((if neg then ["-"%char] else []) ++ ip ++ fr ++ ex))) r2
      end
  end.

(** [l] starts with the characters of [w]. *)
Fixpoint strip_prefix (w : list ascii) (l : list ascii) : option (list ascii) :=
  match w, l with
  | [], _ => Some l
  | c :: w', d :: l' => if Ascii.eqb c d then strip_prefix w' l' else None
  | _ :: _, [] => None
  end.

(** The named constants of [scan_once_unicode]. *)
Definition constants : list (string * json) :=
  [("null", JNull); ("true", JBool true); ("false", JBool false);
   ("NaN", JFloat "NaN"); ("Infinity", JFloat "Infinity"); ("-Infinity", JFloat "-Infinity")].

Fixpoint match_constant (cs : list (string * json)) (l : list ascii) : option (json * list ascii) :=
  match cs with
  | [] => None
  | (w, v) :: cs' =>
      match strip_prefix (String.list_ascii_of_string w) l with
      | Some r => Some (v, r)
      | None => match_constant cs' l
      end
  end.

(** [PyDict_SetItem]: a new key goes last, an existing key keeps its
    place and takes the new value. *)
Fixpoint dict_set (k : string) (v : json) (fs : list (string * json)) : list (string * json) :=
  match fs with
  | [] => [(k, v)]
  | (k', v') :: fs' => if String.eqb k k' then (k, v) :: fs' else (k', v') :: dict_set k v fs'
  end.

(** The [dict] [_parse_object_unicode] builds from the pairs it read. *)
Definition py_dict (fs : list (string * json)) : list (string * json) :=
  fold_left (fun d '(k, v) => dict_set k v d) fs [].

(** [scan_once_unicode] (a value at the head of the text),
    [_parse_array_unicode]'s loop (items after the [[] and its
    whitespace) and [_parse_object_unicode]'s loop (members after the
    [{] and its whitespace). *)
Fixpoint scan_once (fuel : nat) (l : list ascii) : scan json :=
  match fuel with
  | O => ScanFuel
  | S f =>
      match l with
      | [] => ScanError
      | c :: l1 =>
          if Ascii.eqb c dq_char then
            match scanstring l1 with
            | Some (s, r) => Scanned (JStr (String.string_of_list_ascii s)) r
            | None => ScanError
            end
          else if Ascii.eqb c "{" then
            match skip_ws l1 with
            | d :: r => if Ascii.eqb d "}" then Scanned (JObj []) r
                        else scan_bind (parse_object f (d :: r)) (fun fs r' => Scanned (JObj (py_dict fs)) r')
            | [] => ScanError
            end
          else if Ascii.eqb c "[" then
            match skip_ws l1 with
            | d :: r => if Ascii.eqb d "]" then Scanned (JArr []) r
                        else scan_bind (parse_array f (d :: r)) (fun xs r' => Scanned (JArr xs) r')
            | [] => ScanError
            end
          else
            match match_constant constants l with
            | Some (v, r) => Scanned v r
            | None => match_number l
            end
      end
  end
with parse_array (fuel : nat) (l : list ascii) : scan (list json) :=
  match fuel with
  | O => ScanFuel
  | S f =>
      scan_bind (scan_once f l) (fun v r =>
        match skip_ws r with
        | d :: r' =>
            if Ascii.eqb d "]" then Scanned [v] r'
            else if Ascii.eqb d "," then
              scan_bind (parse_array f (skip_ws r')) (fun vs r'' => Scanned (v :: vs) r'')
            else ScanError
        | [] => ScanError
        end)
  end
with parse_object (fuel : nat) (l : list ascii) : scan (list (string * json)) :=
  match fuel with
  | O => ScanFuel
  | S f =>
      match l with
      | c :: l1 =>
          if Ascii.eqb c dq_char then
            match scanstring l1 with
            | Some (k, r) =>
                match skip_ws r with
                | d :: r1 =>
                    if Ascii.eqb d ":" then
                      scan_bind (scan_once f (skip_ws r1)) (fun v r2 =>
                        match skip_ws r2 with
                        | e :: r3 =>
                            if Ascii.eqb e "}" then Scanned [(String.string_of_list_ascii k, v)] r3
                            else if Ascii.eqb e "," then
                              scan_bind (parse_object f (skip_ws r3)) (fun fs r4 =>
                                Scanned ((String.string_of_list_ascii k, v) :: fs) r4)
                            else ScanError
                        | [] => ScanError
                        end)
                    else ScanError
                | [] => ScanError
                end
            | None => ScanError
            end
          else ScanError
      | [] => ScanError
      end
  end.

(** [json.loads(s)]: [None] where Python raises [JSONDecodeError]. *)
Definition loads (s : string) : option json :=
  let l := skip_ws (String.list_ascii_of_string s) in
  match scan_once (2 * length l + 1) l with
  | Scanned v r => if bool_decide (skip_ws r = []) then Some v else None
  | _ => None
  end.

#[export] Instance py_json : JsonLib := {| json_loads := loads; json_dumps := dumps |}.

(** ** Lengths: every scanner consumes what it reads *)

Lemma skip_ws_length (l : list ascii) : (length (skip_ws l) <= length l)%nat.
Proof. induction l as [|c l IH]; simpl; [lia |]. destruct (is_ws c); simpl; lia. Qed.

Lemma scanstring_length (l : list ascii) (s r : list ascii) :
  scanstring l = Some (s, r) -> (length r < length l)%nat.
Proof.
  revert s r. induction l as [l IH] using (induction_ltof1 _ (@length _)).
  unfold ltof in IH. intros s r H. destruct l as [|c l1]; [done |]. simpl in H.
  assert (Hp : forall xs l', (length l' < S (length l1))%nat ->
            prepend xs (scanstring l') = Some (s, r) -> (length r < S (length l1))%nat).
  { intros xs l' Hl' E. unfold prepend in E. destruct (scanstring l') as [[ys r']|] eqn:E'; [| done].
    injection E as _ <-. pose proof (IH l' Hl' _ _ E'). lia. }
  simpl. repeat case_match; simplify_eq; try lia; eapply Hp; try eassumption; simpl; lia.
Qed.

Lemma take_digits_app (l ds r : list ascii) : take_digits l = (ds, r) -> l = ds ++ r.
Proof.
  revert ds r. induction l as [|c l IH]; simpl; intros ds r H; [by injection H as <- <- |].
  destruct (is_digit c); [| by injection H as <- <-].
  destruct (take_digits l) as [ds' r'] eqn:E. injection H as <- <-. simpl. f_equal. by apply IH.
Qed.

Lemma number_sign_app (l l1 : list ascii) (neg : bool) :
  number_sign l = (neg, l1) -> exists xs, l = xs ++ l1.
Proof.
  unfold number_sign. destruct l as [|c l']; [intros [= _ <-]; by exists [] |].
  destruct (Ascii.eqb c "-"); intros [= _ <-]; [by exists [c] | by exists []].
Qed.

Lemma int_part_app (l ip r : list ascii) :
  int_part l = Some (ip, r) -> l = ip ++ r /\ ip <> [].
Proof.
  unfold int_part. destruct l as [|c l2]; [done |].
  destruct (Ascii.eqb c "0"); [by intros [= <- <-] |].
  destruct (is_digit c); [| done]. destruct (take_digits l2) as [ds r'] eqn:E.
  intros [= <- <-]. apply take_digits_app in E as ->. done.
Qed.

Lemma scan_frac_app (l f r : list ascii) : scan_frac l = Some (f, r) -> l = f ++ r.
Proof.
  unfold scan_frac. destruct l as [|a [|b l']]; try done.
  destruct (Ascii.eqb a "." && is_digit b); [| done].
  destruct (take_digits l') as [ds r'] eqn:E. intros [= <- <-].
  apply take_digits_app in E as ->. done.
Qed.

Lemma scan_exp_app (l e r : list ascii) : scan_exp l = Some (e, r) -> l = e ++ r.
Proof.
  unfold scan_exp. destruct l as [|c l1]; [done |].
  destruct (Ascii.eqb c "e" || Ascii.eqb c "E"); [| done].
  destruct (exp_sign l1) as [sg l2] eqn:Es.
  assert (Hs : l1 = sg ++ l2).
  { unfold exp_sign in Es. destruct l1 as [|x l1']; [by injection Es as <- <- |].
    destruct (Ascii.eqb x "+" || Ascii.eqb x "-"); by injection Es as <- <-. }
  destruct (take_digits l2) as [[|d ds] r'] eqn:E; [done |].
  intros [= <- <-]. apply take_digits_app in E. subst. simpl. by rewrite <- app_assoc.
Qed.

Lemma opt_part_app (p : list ascii -> option (list ascii * list ascii)) (l xs r : list ascii) :
  (forall l xs r, p l = Some (xs, r) -> l = xs ++ r) ->
  opt_part p l = (xs, r) -> l = xs ++ r.
Proof.
  intros Hp. unfold opt_part. destruct (p l) as [[ys r']|] eqn:E; intros [= <- <-]; [by apply Hp | done].
Qed.

(** A number is read from a non-empty prefix of the text. *)
Lemma match_number_app (l r : list ascii) (v : json) :
  match_number l = Scanned v r -> exists xs, l = xs ++ r /\ xs <> [].
Proof.
  unfold match_number. destruct (number_sign l) as [neg l1] eqn:Es.
  apply number_sign_app in Es as [s ->].
  destruct (int_part l1) as [[ip r0]|] eqn:Ei; [| done].
  apply int_part_app in Ei as [-> Hip].
  destruct (opt_part scan_frac r0) as [fr r1] eqn:Ef. apply opt_part_app in Ef; [| apply scan_frac_app].
  destruct (opt_part scan_exp r1) as [ex r2] eqn:Ee. apply opt_part_app in Ee; [| apply scan_exp_app].
  intros H. assert (r = r2) as -> by (destruct fr, ex; by injection H as _ <-).
  subst. exists (s ++ ip ++ fr ++ ex). rewrite !app_assoc. split; [done |].
  destruct ip; [done |]. by destruct s.
Qed.

Lemma strip_prefix_app (w l r : list ascii) : strip_prefix w l = Some r -> l = w ++ r.
Proof.
  revert l. induction w as [|c w IH]; intros l; simpl; [by intros [= <-] |].
  destruct l as [|d l]; [done |]. destruct (Ascii.eqb c d) eqn:E; [| done].
  apply Ascii.eqb_eq in E as ->. intros H. f_equal. by apply IH.
Qed.

Lemma match_constant_app (cs : list (string * json)) (l r : list ascii) (v : json) :
  Forall (fun '(w, _) => w <> EmptyString) cs ->
  match_constant cs l = Some (v, r) -> exists xs, l = xs ++ r /\ xs <> [].
Proof.
  induction 1 as [|[w x] cs Hw _ IH]; simpl; [done |].
  destruct (strip_prefix _ l) as [r'|] eqn:E; [| done].
  intros [= _ <-]. apply strip_prefix_app in E. exists (String.list_ascii_of_string w).
  split; [done |]. by destruct w.
Qed.

(** A scan that does not run out of fuel and, when it reads something,
    leaves less than [l]. *)
Definition fuel_ok {A} (m : scan A) (l : list ascii) : Prop :=
  m <> ScanFuel /\ forall a r, m = Scanned a r -> (length r < length l)%nat.

Lemma fuel_ok_scanned {A} (a : A) (r l : list ascii) :
  (length r < length l)%nat -> fuel_ok (Scanned a r) l.
Proof. intros H. split; [done |]. by intros ? ? [= _ <-]. Qed.

Lemma fuel_ok_error {A} (l : list ascii) : fuel_ok (@ScanError A) l.
Proof. done. Qed.

Lemma fuel_ok_weaken {A} (m : scan A) (l l' : list ascii) :
  fuel_ok m l' -> (length l' <= length l)%nat -> fuel_ok m l.
Proof. intros [H1 H2] Hl. split; [done |]. intros a r E. specialize (H2 a r E). lia. Qed.

Lemma fuel_ok_bind {A B} (m : scan A) (k : A -> list ascii -> scan B) (l : list ascii) :
  fuel_ok m l -> (forall a r, m = Scanned a r -> fuel_ok (k a r) l) -> fuel_ok (scan_bind m k) l.
Proof.
  intros [H1 H2] Hk. destruct m as [a r| |]; simpl; [by apply Hk | done | done].
Qed.

#[local] Hint Resolve fuel_ok_error fuel_ok_scanned : core.

Lemma match_number_fuel (l : list ascii) : fuel_ok (match_number l) l.
Proof.
  split.
  - unfold match_number. repeat case_match; discriminate.
  - intros v r E. apply match_number_app in E as ([|x xs] & -> & Hxs); [done |].
    rewrite length_app. simpl. lia.
Qed.

Lemma constants_nonempty : Forall (fun '(w, _) => w <> EmptyString) constants.
Proof. repeat constructor; discriminate. Qed.

Lemma scan_value_head_fuel (l : list ascii) :
  fuel_ok (match match_constant constants l with
           | Some (v, r) => Scanned v r
           | None => match_number l
           end) l.
Proof.
  destruct (match_constant constants l) as [[v r]|] eqn:E; [| apply match_number_fuel].
  apply match_constant_app in E as ([|x xs] & -> & Hxs); [done | | apply constants_nonempty].
  apply fuel_ok_scanned. rewrite length_app. simpl. lia.
Qed.

(** A nested scan at a shorter text, then a result built from its rest. *)
Lemma fuel_ok_nested {A B} (m : scan A) (k : A -> list ascii -> B) (l l' : list ascii) :
  fuel_ok m l' -> (length l' <= length l)%nat ->
  fuel_ok (scan_bind m (fun a r => Scanned (k a r) r)) l.
Proof.
  intros Hm Hl. apply fuel_ok_bind; [by apply (fuel_ok_weaken _ _ l') |].
  intros a r E. apply fuel_ok_scanned. destruct Hm as [_ H]. specialize (H a r E). lia.
Qed.

Ltac len := simpl in *; lia.

Lemma scan_fuel_ok (n : nat) :
  (forall l, (2 * length l < n)%nat -> fuel_ok (scan_once n l) l) /\
  (forall l, (2 * length l + 1 < n)%nat -> fuel_ok (parse_array n l) l) /\
  (forall l, (2 * length l + 1 < n)%nat -> fuel_ok (parse_object n l) l).
Proof.
  induction n as [|f (IHv & IHa & IHo)]; [split; [|split]; intros; lia |].
  split; [|split].
  - intros [|c l1] Hl; [done |]. cbn [scan_once].
    destruct (Ascii.eqb c dq_char).
    { destruct (scanstring l1) as [[s r]|] eqn:E; [| done].
      apply fuel_ok_scanned. apply scanstring_length in E. len. }
    pose proof (skip_ws_length l1).
    destruct (Ascii.eqb c "{").
    { destruct (skip_ws l1) as [|d r] eqn:Ew; [done |].
      destruct (Ascii.eqb d "}"); [apply fuel_ok_scanned; len |].
      apply (fuel_ok_nested _ _ _ (d :: r)); [apply IHo |]; len. }
    destruct (Ascii.eqb c "[").
    { destruct (skip_ws l1) as [|d r] eqn:Ew; [done |].
      destruct (Ascii.eqb d "]"); [apply fuel_ok_scanned; len |].
      apply (fuel_ok_nested _ _ _ (d :: r)); [apply IHa |]; len. }
    apply scan_value_head_fuel.
  - intros l Hl. cbn [parse_array]. apply fuel_ok_bind; [apply IHv; lia |].
    intros v r E. destruct (IHv l ltac:(lia)) as [_ Hr]. specialize (Hr _ _ E).
    pose proof (skip_ws_length r). destruct (skip_ws r) as [|d r'] eqn:Ew; [done |].
    destruct (Ascii.eqb d "]"); [apply fuel_ok_scanned; len |].
    destruct (Ascii.eqb d ","); [| done].
    pose proof (skip_ws_length r').
    apply (fuel_ok_nested _ _ _ (skip_ws r')); [apply IHa |]; len.
  - intros [|c l1] Hl; [done |]. cbn [parse_object].
    destruct (Ascii.eqb c dq_char); [| done].
    destruct (scanstring l1) as [[k r]|] eqn:E; [| done]. apply scanstring_length in E.
    pose proof (skip_ws_length r). destruct (skip_ws r) as [|d r1] eqn:Ew; [done |].
    destruct (Ascii.eqb d ":"); [| done].
    pose proof (skip_ws_length r1).
    apply fuel_ok_bind; [apply (fuel_ok_weaken _ _ (skip_ws r1)); [apply IHv |]; len |].
    intros v r2 E2. destruct (IHv (skip_ws r1) ltac:(len)) as [_ Hr2]. specialize (Hr2 _ _ E2).
    pose proof (skip_ws_length r2). destruct (skip_ws r2) as [|e r3] eqn:Ew2; [done |].
    destruct (Ascii.eqb e "}"); [apply fuel_ok_scanned; len |].
    destruct (Ascii.eqb e ","); [| done].
    pose proof (skip_ws_length r3).
    apply (fuel_ok_nested _ _ _ (skip_ws r3)); [apply IHo |]; len.
Qed.

Lemma scan_bind_fuel_eq {A B} (m1 m2 : scan A) (k1 k2 : A -> list ascii -> scan B) :
  (m1 <> ScanFuel -> m2 = m1) ->
  (forall a r, m1 = Scanned a r -> k1 a r <> ScanFuel -> k2 a r = k1 a r) ->
  scan_bind m1 k1 <> ScanFuel -> scan_bind m2 k2 = scan_bind m1 k1.
Proof.
  intros Hm Hk H. destruct m1 as [a r| |]; [| | done]; rewrite Hm by done; simpl; [| done].
  by apply Hk.
Qed.

(** Once a scan completes, more fuel gives the same result. *)
Lemma scan_fuel_mono (n : nat) :
  (forall l m, (n <= m)%nat -> scan_once n l <> ScanFuel -> scan_once m l = scan_once n l) /\
  (forall l m, (n <= m)%nat -> parse_array n l <> ScanFuel -> parse_array m l = parse_array n l) /\
  (forall l m, (n <= m)%nat -> parse_object n l <> ScanFuel -> parse_object m l = parse_object n l).
Proof.
  induction n as [|f (IHv & IHa & IHo)]; [split; [|split]; by intros ? ? ? [] |].
  split; [|split]; intros l [|g] Hm H; try lia; assert (Hg : (f <= g)%nat) by lia.
  - destruct l as [|c l1]; [done |]. cbn [scan_once] in *.
    destruct (Ascii.eqb c dq_char); [done |].
    destruct (Ascii.eqb c "{").
    { destruct (skip_ws l1) as [|d r]; [done |]. destruct (Ascii.eqb d "}"); [done |].
      apply scan_bind_fuel_eq; [by apply IHo | done | done]. }
    destruct (Ascii.eqb c "["); [| done].
    destruct (skip_ws l1) as [|d r]; [done |]. destruct (Ascii.eqb d "]"); [done |].
    apply scan_bind_fuel_eq; [by apply IHa | done | done].
  - cbn [parse_array] in *. apply scan_bind_fuel_eq; [by apply IHv | | done].
    intros v r _ Hk. destruct (skip_ws r) as [|d r']; [done |].
    destruct (Ascii.eqb d "]"); [done |]. destruct (Ascii.eqb d ","); [| done].
    apply scan_bind_fuel_eq; [by apply IHa | done | done].
  - destruct l as [|c l1]; [done |]. cbn [parse_object] in *.
    destruct (Ascii.eqb c dq_char); [| done].
    destruct (scanstring l1) as [[k r]|]; [| done].
    destruct (skip_ws r) as [|d r1]; [done |]. destruct (Ascii.eqb d ":"); [| done].
    apply scan_bind_fuel_eq; [by apply IHv | | done].
    intros v r2 _ Hk. destruct (skip_ws r2) as [|e r3]; [done |].
    destruct (Ascii.eqb e "}"); [done |]. destruct (Ascii.eqb e ","); [| done].
    apply scan_bind_fuel_eq; [by apply IHo | done | done].
Qed.

(** [json.loads] is total: the fuel it gives the scanner (twice
    the length of the text plus one) is never exhausted, every value
    the scanner reads consumes part of the text, and any larger fuel
    gives the same result, so [loads] computes the scanner's unbounded
    semantics. *)
Theorem scan_once_enough_fuel (l : list ascii) (m : nat) :
  scan_once (2 * length l + 1) l <> ScanFuel /\
  (forall v r, scan_once (2 * length l + 1) l = Scanned v r -> (length r < length l)%nat) /\
  ((2 * length l + 1 <= m)%nat -> scan_once m l = scan_once (2 * length l + 1) l).
Proof.
  destruct (proj1 (scan_fuel_ok (2 * length l + 1)) l ltac:(lia)) as [Hf Hr].
  split; [done |]. split; [done |]. intros Hm.
  by apply (proj1 (scan_fuel_mono (2 * length l + 1))).
Qed.

(** ** The round trip [loads (dumps v) = Some v] *)

Lemma land_15 (x : Z) : Z.land x 0xf = x mod 16.
Proof. apply (Z.land_ones x 4). lia. Qed.
Lemma land_3ff (x : Z) : Z.land x 0x3FF = x mod 1024.
Proof. apply (Z.land_ones x 10). lia. Qed.
Lemma shr4 (x : Z) : Z.shiftr x 4 = x / 16.
Proof. by rewrite shiftr_div. Qed.
Lemma shr8 (x : Z) : Z.shiftr x 8 = x / 256.
Proof. by rewrite shiftr_div. Qed.
Lemma shr10 (x : Z) : Z.shiftr x 10 = x / 1024.
Proof. by rewrite shiftr_div. Qed.
Lemma shl4 (x : Z) : Z.shiftl x 4 = x * 16.
Proof. by rewrite shiftl_mul. Qed.
Lemma shl10 (x : Z) : Z.shiftl x 10 = x * 1024.
Proof. by rewrite shiftl_mul. Qed.

Create Rewrite HintDb json_rw.
#[export] Hint Rewrite land_15 land_3ff shr4 shr8 shr10 shr12 shl4 shl10 : json_rw.

Lemma hex_val_hexdigit (d : Z) : 0 <= d < 16 -> hex_val (hexdigit d) = Some d.
Proof.
  intros Hd. unfold hex_val, hexdigit.
  destruct (Z.ltb_spec d 10); rewrite ord_chr by lia; zcompare; do 2 f_equal; lia.
Qed.

Lemma hex4_u_hex4 (c : Z) :
  0 <= c < 0x10000 ->
  hex4 (hexdigit (Z.land (Z.shiftr c 12) 0xf)) (hexdigit (Z.land (Z.shiftr c 8) 0xf))
       (hexdigit (Z.land (Z.shiftr c 4) 0xf)) (hexdigit (Z.land c 0xf)) = Some c.
Proof.
  intros Hc. unfold hex4. autorewrite with json_rw.
  rewrite !hex_val_hexdigit by (apply Z.mod_pos_bound; lia).
  autorewrite with json_rw. f_equal. zlia.
Qed.

Lemma surrogates_split (c : Z) :
  0x10000 <= c <= 0x10FFFF ->
  is_high (high_surrogate c) = true /\ is_low (low_surrogate c) = true /\
  0 <= high_surrogate c < 0x10000 /\ 0 <= low_surrogate c < 0x10000 /\
  join_surrogates (high_surrogate c) (low_surrogate c) = c.
Proof.
  intros Hc. unfold is_high, is_low, high_surrogate, low_surrogate, join_surrogates.
  autorewrite with json_rw. change (0x10000 / 1024) with 64.
  rewrite (lor_low_add _ _ 10) by (pow_lia || (split; [apply Z.mod_pos_bound | apply Z.mod_pos_bound]; pow_lia)).
  split; [apply andb_true_iff; split; apply Z.leb_le; zlia |].
  split; [apply andb_true_iff; split; apply Z.leb_le; zlia |].
  split; [zlia |]. split; [zlia |]. change (2 ^ 10) with 1024. zlia.
Qed.

Lemma ascii_eqb_ord (a b : ascii) : Ascii.eqb a b = (ord a =? ord b).
Proof.
  destruct (Ascii.eqb_spec a b) as [->|Hne]; [by rewrite Z.eqb_refl |].
  symmetry. apply Z.eqb_neq. intros E. by apply Hne, ord_inj.
Qed.

Lemma ord_dq : ord dq_char = 34.
Proof. reflexivity. Qed.
Lemma ord_backslash : ord "\" = 92.
Proof. reflexivity. Qed.

(** A [\uXXXX] escape of a code point that is not a high surrogate (a
    lone low surrogate included) reads back as that code point. *)
Lemma scanstring_u_escape (c : Z) (l : list ascii) :
  0 <= c < 0x10000 -> is_high c = false ->
  scanstring ("\"%char :: u_hex4 c ++ l) = prepend (utf8_encode_cp c) (scanstring l).
Proof.
  intros Hc Hh. unfold u_hex4. cbn [app scanstring Ascii.eqb Bool.eqb andb].
  by rewrite hex4_u_hex4, Hh by lia.
Qed.

(** The string scanner reads back one escaped scalar value. *)
Lemma scanstring_escape_cp (c : Z) (l : list ascii) :
  valid_cp c = true ->
  scanstring (escape_cp c ++ l) = prepend (utf8_encode_cp c) (scanstring l).
Proof.
  unfold valid_cp, is_surrogate. intros Hv.
  apply andb_prop in Hv as [[Hlo Hhi]%andb_prop Hsur]. apply Z.leb_le in Hlo, Hhi.
  assert (Hns : ~ (0xD800 <= c <= 0xDFFF)).
  { intros [? ?]. apply negb_true_iff in Hsur. revert Hsur. zcompare. }
  unfold escape_cp. destruct (s_char c) eqn:Hs.
  { unfold s_char in Hs. apply andb_prop in Hs as [[[H1 H2]%andb_prop H3]%andb_prop H4].
    apply Z.leb_le in H1, H2. apply negb_true_iff, Z.eqb_neq in H3, H4.
    cbn [app scanstring]. rewrite !ascii_eqb_ord, ord_chr, ord_dq, ord_backslash by lia.
    unfold utf8_encode_cp. zcompare; reflexivity. }
  unfold ascii_escape_unichar.
  destruct (Z.eqb_spec c 92) as [->|]; [reflexivity |].
  destruct (Z.eqb_spec c 34) as [->|]; [reflexivity |].
  destruct (Z.eqb_spec c 8) as [->|]; [reflexivity |].
  destruct (Z.eqb_spec c 12) as [->|]; [reflexivity |].
  destruct (Z.eqb_spec c 10) as [->|]; [reflexivity |].
  destruct (Z.eqb_spec c 13) as [->|]; [reflexivity |].
  destruct (Z.eqb_spec c 9) as [->|]; [reflexivity |].
  destruct (Z.leb_spec 0x10000 c).
  - destruct (surrogates_split c) as (Hh & Hl & Rh & Rl & Hj); [lia |].
    unfold u_hex4. cbn [app scanstring Ascii.eqb Bool.eqb andb].
    rewrite (hex4_u_hex4 _ Rh), Hh. cbn [Ascii.eqb Bool.eqb andb].
    by rewrite (hex4_u_hex4 _ Rl), Hl, Hj.
  - apply scanstring_u_escape; [lia |]. unfold is_high. zcompare; reflexivity.
Qed.

Lemma scanstring_escape_all (cps : list Z) (rest : list ascii) :
  Forall (fun c => valid_cp c = true) cps ->
  scanstring (escape_all cps ++ dq_char :: rest) = Some (utf8_encode cps, rest).
Proof.
  induction 1 as [|c cps Hc _ IH]; [reflexivity |].
  cbn [escape_all utf8_encode]. rewrite <- app_assoc, scanstring_escape_cp, IH by done.
  reflexivity.
Qed.

(** A string that is the UTF-8 encoding of scalar values: every
    Python [str] without lone surrogates. *)
Definition str_ok (s : string) : bool :=
  match utf8_decode (String.list_ascii_of_string s) with Some _ => true | None => false end.

Lemma encode_basestring_scan (s : string) (rest : list ascii) :
  str_ok s = true ->
  exists body, encode_basestring_ascii s ++ rest = dq_char :: body /\
               scanstring body = Some (String.list_ascii_of_string s, rest).
Proof.
  unfold str_ok, encode_basestring_ascii. destruct (utf8_decode _) as [cps|] eqn:E; [| done].
  intros _. apply utf8_encode_decode in E as [Hv He].
  exists (escape_all cps ++ dq_char :: rest). split; [by rewrite <- app_comm_cons, <- app_assoc |].
  by rewrite scanstring_escape_all, He.
Qed.

(** ** Integers *)

Definition digit_step (acc : Z) (d : ascii) : Z := acc * 10 + (ord d - 48).

Lemma digits_val_snoc (ds : list ascii) (d : ascii) :
  digits_val (ds ++ [d]) = digit_step (digits_val ds) d.
Proof. unfold digits_val. by rewrite fold_left_app. Qed.

Lemma is_digit_chr (d : Z) : 0 <= d < 10 -> is_digit (chr (48 + d)) = true.
Proof. intros H. unfold is_digit. rewrite ord_chr by lia. zcompare; reflexivity. Qed.

Lemma decimal_one (n : Z) (acc : list ascii) :
  0 <= n < 10 ->
  exists d ds, chr (48 + n mod 10) :: acc = d :: ds ++ acc /\
    Forall (fun c => is_digit c = true) (d :: ds) /\
    digits_val (d :: ds) = n /\ (ord d = 48 -> n = 0 /\ ds = []).
Proof.
  intros Hn. exists (chr (48 + n mod 10)), []. split; [done |].
  rewrite Z.mod_small by lia. split; [constructor; [by apply is_digit_chr | done] |].
  unfold digits_val. cbn. rewrite ord_chr by lia. split; [lia |]. intros; split; [lia | done].
Qed.

Lemma decimal_S (f : nat) (n : Z) (acc : list ascii) :
  decimal (S f) n acc =
  if n <? 10 then chr (48 + n mod 10) :: acc else decimal f (n / 10) (chr (48 + n mod 10) :: acc).
Proof. reflexivity. Qed.

(** The digits [decimal] writes: a leading digit, which is [0] only
    for [0] itself, then the others; their value is [n]. *)
Lemma decimal_spec (f : nat) (n : Z) (acc : list ascii) :
  0 <= n < 10 ^ Z.of_nat (S f) ->
  exists d ds, decimal (S f) n acc = d :: ds ++ acc /\
    Forall (fun c => is_digit c = true) (d :: ds) /\
    digits_val (d :: ds) = n /\ (ord d = 48 -> n = 0 /\ ds = []).
Proof.
  revert n acc. induction f as [|f IH]; intros n acc Hn.
  - cbn [decimal]. rewrite Z.pow_1_r in Hn. destruct (Z.ltb_spec n 10); [| lia].
    apply decimal_one; lia.
  - rewrite decimal_S. destruct (Z.ltb_spec n 10); [apply decimal_one; lia |].
    destruct (IH (n / 10) (chr (48 + n mod 10) :: acc)) as (d & ds & E & Hd & Hv & H0).
    { split; [zlia |]. rewrite Nat2Z.inj_succ, Z.pow_succ_r in Hn by lia. zlia. }
    exists d, (ds ++ [chr (48 + n mod 10)]). rewrite E, <- app_assoc. split; [done |].
    split; [rewrite app_comm_cons; apply Forall_app_2; [done | constructor; [apply is_digit_chr; zlia | done]] |].
    rewrite app_comm_cons, digits_val_snoc, Hv. unfold digit_step. rewrite ord_chr by zlia.
    split; [zlia |]. intros Hd0. destruct (H0 Hd0). zlia.
Qed.

(** What may follow a number without extending it. *)
Definition num_stop (r : list ascii) : bool :=
  match r with
  | c :: _ => negb (is_digit c || Ascii.eqb c "." || Ascii.eqb c "e" || Ascii.eqb c "E")
  | [] => true
  end.

Lemma take_digits_stop (ds rest : list ascii) :
  Forall (fun c => is_digit c = true) ds -> num_stop rest = true ->
  take_digits (ds ++ rest) = (ds, rest).
Proof.
  intros Hds Hr. induction Hds as [|d ds Hd _ IH]; simpl.
  - destruct rest as [|c r]; [done |]. simpl in *.
    destruct (is_digit c); [done | reflexivity].
  - by rewrite Hd, IH.
Qed.

Lemma scan_frac_stop (r : list ascii) : num_stop r = true -> scan_frac r = None.
Proof.
  destruct r as [|c [|d r]]; simpl; try done.
  destruct (Ascii.eqb c "."); [by rewrite orb_true_r | done].
Qed.

Lemma scan_exp_stop (r : list ascii) : num_stop r = true -> scan_exp r = None.
Proof.
  destruct r as [|c r]; simpl; [done |].
  destruct (Ascii.eqb c "e"), (Ascii.eqb c "E"); rewrite ?orb_true_r; done.
Qed.

Lemma bits_enough (m : Z) : 0 <= m -> 0 <= m < 10 ^ Z.of_nat (S (Z.to_nat (Z.log2 m))).
Proof.
  intros Hm. rewrite Nat2Z.inj_succ, Z2Nat.id by apply Z.log2_nonneg. split; [done |].
  destruct (Z.eq_dec m 0) as [->|Hm0]; [by apply Z.pow_pos_nonneg; [| pose proof (Z.log2_nonneg 0)]; lia |].
  destruct (Z.log2_spec m) as [_ H]; [lia |].
  eapply Z.lt_le_trans; [exact H |]. apply Z.pow_le_mono_l. lia.
Qed.

Lemma is_digit_range (c : ascii) : is_digit c = true -> 48 <= ord c <= 57.
Proof. unfold is_digit. intros [?%Z.leb_le ?%Z.leb_le]%andb_prop. lia. Qed.

(** The digits of [int_repr]: a leading digit, [0] only for [0]. *)
Lemma int_part_digits (d : ascii) (ds rest : list ascii) :
  Forall (fun c => is_digit c = true) (d :: ds) -> (ord d = 48 -> ds = []) ->
  num_stop rest = true ->
  int_part (d :: ds ++ rest) = Some (d :: ds, rest).
Proof.
  intros Hds H0 Hr. inversion Hds as [|? ? Hd Hds']; subst. unfold int_part.
  rewrite ascii_eqb_ord. change (ord "0") with 48.
  destruct (Z.eqb_spec (ord d) 48) as [E|]; [by rewrite (H0 E) |].
  by rewrite Hd, take_digits_stop.
Qed.

Lemma match_number_digits (neg : bool) (d : ascii) (ds rest : list ascii) :
  Forall (fun c => is_digit c = true) (d :: ds) -> (ord d = 48 -> ds = []) ->
  num_stop rest = true ->
  match_number ((if neg then ["-"%char] else []) ++ d :: ds ++ rest) =
  Scanned (JNum (if neg then - digits_val (d :: ds) else digits_val (d :: ds))) rest.
Proof.
  intros Hds H0 Hr. unfold match_number.
  assert (Hsign : number_sign ((if neg then ["-"%char] else []) ++ d :: ds ++ rest) =
                  (neg, d :: ds ++ rest)).
  { destruct neg; [reflexivity |]. inversion Hds as [|? ? Hd Hds']; subst. simpl.
    apply is_digit_range in Hd. rewrite ascii_eqb_ord. change (ord "-") with 45.
    by destruct (Z.eqb_spec (ord d) 45); [lia |]. }
  rewrite Hsign, int_part_digits by done.
  unfold opt_part. by rewrite scan_frac_stop, scan_exp_stop.
Qed.

Lemma match_number_int_repr (n : Z) (rest : list ascii) :
  num_stop rest = true -> match_number (int_repr n ++ rest) = Scanned (JNum n) rest.
Proof.
  intros Hr. unfold int_repr. destruct (Z.ltb_spec n 0).
  - destruct (decimal_spec (Z.to_nat (Z.log2 (- n))) (- n) []) as (d & ds & E & Hd & Hv & H0);
      [apply bits_enough; lia |].
    rewrite E, app_nil_r.
    pose proof (match_number_digits true d ds rest Hd ltac:(intros; by apply H0) Hr) as M.
    cbv beta iota in M. cbn [app] in *. by rewrite M, Hv, Z.opp_involutive.
  - destruct (decimal_spec (Z.to_nat (Z.log2 n)) n []) as (d & ds & E & Hd & Hv & H0);
      [by apply bits_enough |].
    rewrite E, app_nil_r.
    pose proof (match_number_digits false d ds rest Hd ltac:(intros; by apply H0) Hr) as M.
    cbv beta iota in M. cbn [app] in *. by rewrite M, Hv.
Qed.

(** ** Values [dumps] prints faithfully

    A value that a Python program can hold and [dumps] prints as
    Python does: no float (printed here as its literal), strings that
    are UTF-8 encodings of scalar values, objects with distinct keys
    (a [dict]). *)
Fixpoint json_ok (v : json) : bool :=
  match v with
  | JNull | JBool _ | JNum _ => true
  | JFloat _ => false
  | JStr s => str_ok s
  | JArr xs => forallb json_ok xs
  | JObj fs =>
      forallb (fun '(k, x) => str_ok k && json_ok x) fs && bool_decide (NoDup (map fst fs))
  end.

Lemma dict_set_fresh (k : string) (v : json) (acc : list (string * json)) :
  k ∉ map fst acc -> dict_set k v acc = acc ++ [(k, v)].
Proof.
  induction acc as [|[k' v'] acc IH]; intros Hk; [done |]. simpl in *.
  destruct (String.eqb_spec k k') as [->|]; [by destruct Hk; left |].
  rewrite IH; [done |]. intros H. apply Hk. by right.
Qed.

(** A [dict] built from distinct keys keeps them in order. *)
Lemma py_dict_nodup (fs : list (string * json)) : NoDup (map fst fs) -> py_dict fs = fs.
Proof.
  unfold py_dict. change fs with ([] ++ fs) at 1 3. generalize (@nil (string * json)) as acc.
  induction fs as [|[k v] fs IH]; intros acc Hnd; simpl; [by rewrite app_nil_r |].
  rewrite dict_set_fresh.
  - rewrite IH; [by rewrite <- app_assoc |]. by rewrite <- app_assoc.
  - rewrite map_app in Hnd. apply NoDup_app in Hnd as (_ & Hdis & _).
    intros Hk. apply (Hdis k Hk). simpl. left.
Qed.

Lemma int_repr_head (z : Z) :
  exists c t, int_repr z = c :: t /\
    (is_digit c = true \/ (c = "-"%char /\ exists d t', t = d :: t' /\ is_digit d = true)).
Proof.
  unfold int_repr. destruct (Z.ltb_spec z 0).
  - destruct (decimal_spec (Z.to_nat (Z.log2 (- z))) (- z) []) as (d & ds & -> & Hd & _);
      [apply bits_enough; lia |].
    inversion Hd; subst. eexists _, _. split; [reflexivity |]. right. split; [done |]. by eexists _, _.
  - destruct (decimal_spec (Z.to_nat (Z.log2 z)) z []) as (d & ds & -> & Hd & _);
      [by apply bits_enough |].
    inversion Hd; subst. eexists _, _. split; [reflexivity |]. by left.
Qed.


(** A digit is none of the named constants' letters. *)
Lemma eqb_nondigit (x c : ascii) : is_digit x = false -> is_digit c = true -> Ascii.eqb x c = false.
Proof. intros Hx Hc. destruct (Ascii.eqb_spec x c) as [->|]; [congruence | done]. Qed.

Lemma match_constant_digit (c : ascii) (l : list ascii) :
  is_digit c = true -> match_constant constants (c :: l) = None.
Proof.
  intros Hc. cbn [match_constant constants strip_prefix String.list_ascii_of_string].
  rewrite !(eqb_nondigit _ c) by (reflexivity || done). reflexivity.
Qed.

Lemma match_constant_minus (d : ascii) (l : list ascii) :
  is_digit d = true -> match_constant constants ("-"%char :: d :: l) = None.
Proof.
  intros Hd. cbn [match_constant constants strip_prefix String.list_ascii_of_string].
  rewrite (eqb_nondigit "I" d) by (reflexivity || done). reflexivity.
Qed.

Lemma skip_ws_nonws (c : ascii) (t : list ascii) : is_ws c = false -> skip_ws (c :: t) = c :: t.
Proof. intros H. simpl. by rewrite H. Qed.


Lemma eqb_digit_l (c x : ascii) : is_digit c = true -> is_digit x = false -> Ascii.eqb c x = false.
Proof. intros Hc Hx. destruct (Ascii.eqb_spec c x) as [->|]; [congruence | done]. Qed.

(** A number is dispatched to [match_number]. *)
Lemma scan_once_int (f : nat) (z : Z) (rest : list ascii) :
  scan_once (S f) (int_repr z ++ rest) = match_number (int_repr z ++ rest).
Proof.
  destruct (int_repr_head z) as (c & t & E & [Hc | (-> & d & t' & -> & Hd)]); rewrite E.
  - cbn [app scan_once]. rewrite !(eqb_digit_l c) by (reflexivity || done).
    by rewrite match_constant_digit.
  - cbn [app scan_once]. by rewrite match_constant_minus.
Qed.

Lemma dumps_head (v : json) :
  json_ok v = true ->
  exists c t, dumps_l v = c :: t /\ is_ws c = false /\
              Ascii.eqb c "]" = false /\ Ascii.eqb c "}" = false.
Proof.
  intros Hv. destruct v as [|[]|z|lit|s|xs|fs]; try done;
    try (eexists _, _; split; [reflexivity | done]).
  destruct (int_repr_head z) as (c & t & E & Hc). exists c, t. split; [done |].
  destruct Hc as [Hc | (-> & _)]; [| done].
  rewrite !(eqb_digit_l c) by (reflexivity || done).
  unfold is_ws. rewrite !(eqb_digit_l c) by (reflexivity || done). done.
Qed.

(** [v] is read back from its printing, whatever follows it, with
    enough fuel. *)
Definition reads_back (v : json) : Prop :=
  forall rest n, num_stop rest = true -> (2 * length (dumps_l v ++ rest) < n)%nat ->
  scan_once n (dumps_l v ++ rest) = Scanned v rest.

Lemma join_items_cons (a : list ascii) (items : list (list ascii)) :
  join_items (a :: items) =
  a ++ match items with [] => [] | _ => [","%char; " "%char] ++ join_items items end.
Proof. destruct items; simpl; [by rewrite app_nil_r | done]. Qed.

(** The items of a non-empty array or object start with a value or a
    quoted key, never with whitespace. *)
Lemma skip_ws_join (items : list (list ascii)) (R : list ascii) (c : ascii) (t : list ascii) :
  is_ws c = false -> head items = Some (c :: t) ->
  skip_ws (join_items items ++ R) = join_items items ++ R.
Proof.
  intros Hc Hh. destruct items as [|a items]; [done |]. injection Hh as ->.
  rewrite join_items_cons, <- app_assoc. cbn [app]. by apply skip_ws_nonws.
Qed.

Ltac lens := rewrite ?length_app in *; simpl in *; rewrite ?length_app in *; simpl in *; lia.

Lemma parse_array_items (xs : list json) (rest : list ascii) (n : nat) :
  xs <> [] -> Forall reads_back xs -> Forall (fun x => json_ok x = true) xs ->
  (2 * length (join_items (map dumps_l xs) ++ "]"%char :: rest) + 1 < n)%nat ->
  parse_array n (join_items (map dumps_l xs) ++ "]"%char :: rest) = Scanned xs rest.
Proof.
  revert n. induction xs as [|x xs IH]; intros n Hne Hr Hok Hn; [done |].
  inversion Hr as [|? ? Hx Hr']; inversion Hok as [|? ? Hxok Hok']; subst.
  destruct n as [|f]; [lia |]. cbn [parse_array map].
  rewrite join_items_cons in *. destruct xs as [|y ys].
  - rewrite app_nil_r in *. rewrite Hx by (reflexivity || lens). reflexivity.
  - rewrite <- app_assoc in *. rewrite Hx by (reflexivity || lens). cbn [scan_bind app].
    cbn [skip_ws is_ws Ascii.eqb Bool.eqb orb andb].
    destruct (dumps_head y) as (c & t & Ey & Hc & _); [by inversion Hok' |].
    cbn [map]. cbn [app skip_ws is_ws Ascii.eqb Bool.eqb orb andb].
    rewrite (skip_ws_join _ _ c t) by (done || (simpl; by rewrite Ey)).
    rewrite IH by (done || lens). reflexivity.
Qed.

Lemma skip_ws_dumps (x : json) (R : list ascii) :
  json_ok x = true -> skip_ws (dumps_l x ++ R) = dumps_l x ++ R.
Proof.
  intros Hx. destruct (dumps_head x Hx) as (c & t & E & Hc & _). rewrite E. by apply skip_ws_nonws.
Qed.

(** One member of an object, as [dumps] prints it. *)
Definition dump_member (kv : string * json) : list ascii :=
  let '(k, x) := kv in encode_basestring_ascii k ++ [":"%char; " "%char] ++ dumps_l x.

Lemma dumps_l_obj (fs : list (string * json)) :
  dumps_l (JObj fs) = "{"%char :: join_items (map dump_member fs) ++ ["}"%char].
Proof. reflexivity. Qed.

Lemma dumps_l_arr (xs : list json) :
  dumps_l (JArr xs) = "["%char :: join_items (map dumps_l xs) ++ ["]"%char].
Proof. reflexivity. Qed.

(** One member [key: value] is read back, with what follows it. *)
Lemma parse_member_step (f : nat) (k : string) (x : json) (R : list ascii) :
  str_ok k = true -> json_ok x = true -> reads_back x -> num_stop R = true ->
  (2 * length (dumps_l x ++ R) < f)%nat ->
  parse_object (S f) (dump_member (k, x) ++ R) =
  match skip_ws R with
  | e :: r3 =>
      if Ascii.eqb e "}" then Scanned [(k, x)] r3
      else if Ascii.eqb e "," then
        scan_bind (parse_object f (skip_ws r3)) (fun fs r4 => Scanned ((k, x) :: fs) r4)
      else ScanError
  | [] => ScanError
  end.
Proof.
  intros Hk Hxok Hx HR Hf. unfold dump_member. rewrite <- !app_assoc.
  destruct (encode_basestring_scan k ([":"%char; " "%char] ++ dumps_l x ++ R)) as (body & Eb & Hs);
    [done |].
  rewrite Eb. cbn [parse_object]. rewrite Hs. cbn [app skip_ws is_ws Ascii.eqb Bool.eqb orb andb].
  rewrite skip_ws_dumps, Hx by done. cbn [scan_bind].
  by rewrite String.string_of_list_ascii_of_string.
Qed.

Lemma dump_member_head (kv : string * json) : exists t, dump_member kv = dq_char :: t.
Proof. destruct kv as [k x]. by eexists. Qed.

Lemma parse_object_items (fs : list (string * json)) (rest : list ascii) (n : nat) :
  fs <> [] -> Forall (fun kv => reads_back kv.2) fs ->
  Forall (fun kv => str_ok kv.1 = true /\ json_ok kv.2 = true) fs ->
  (2 * length (join_items (map dump_member fs) ++ "}"%char :: rest) + 1 < n)%nat ->
  parse_object n (join_items (map dump_member fs) ++ "}"%char :: rest) = Scanned fs rest.
Proof.
  revert n. induction fs as [|[k x] fs IH]; intros n Hne Hr Hok Hn; [done |].
  inversion Hr as [|? ? Hx Hr']; inversion Hok as [|? ? [Hk Hxok] Hok']; subst.
  destruct n as [|f]; [lia |].
  destruct fs as [|kv2 fs].
  - cbn [map join_items] in *.
    rewrite (parse_member_step f k x ("}"%char :: rest)) by (done || (cbn [dump_member] in Hn; lens)).
    reflexivity.
  - change (join_items (map dump_member ((k, x) :: kv2 :: fs))) with
      (dump_member (k, x) ++ [","%char; " "%char] ++ join_items (map dump_member (kv2 :: fs))) in *.
    remember (join_items (map dump_member (kv2 :: fs))) as J eqn:EJ.
    rewrite <- !app_assoc in *.
    rewrite (parse_member_step f k x ([","%char; " "%char] ++ J ++ "}"%char :: rest))
      by (done || (cbn [dump_member] in Hn; lens)).
    cbn [app skip_ws is_ws Ascii.eqb Bool.eqb orb andb].
    destruct (dump_member_head kv2) as [t Et]. subst J.
    rewrite (skip_ws_join _ _ dq_char t) by (done || (simpl; by rewrite Et)).
    rewrite IH by (done || (cbn [dump_member] in Hn; lens)). reflexivity.
Qed.

Lemma forallb_Forall {A} (p : A -> bool) (l : list A) :
  forallb p l = true <-> Forall (fun x => p x = true) l.
Proof. rewrite forallb_forall, List.Forall_forall. done. Qed.

Lemma json_ok_arr (xs : list json) :
  json_ok (JArr xs) = true -> Forall (fun x => json_ok x = true) xs.
Proof. apply forallb_Forall. Qed.

Lemma json_ok_obj (fs : list (string * json)) :
  json_ok (JObj fs) = true ->
  Forall (fun kv => str_ok kv.1 = true /\ json_ok kv.2 = true) fs /\ NoDup (map fst fs).
Proof.
  cbn [json_ok]. intros [Hf Hn]%andb_prop. apply bool_decide_eq_true in Hn. split; [| done].
  apply forallb_Forall in Hf. eapply Forall_impl; [exact Hf |].
  intros [k x]. simpl. by intros [? ?]%andb_prop.
Qed.

Lemma Forall_mp {A} (P Q : A -> Prop) (l : list A) :
  Forall (fun x => P x -> Q x) l -> Forall P l -> Forall Q l.
Proof. induction 1; inversion 1; constructor; auto. Qed.

(** Every faithfully printed value is read back from its printing. *)
Lemma dumps_reads_back (v : json) : json_ok v = true -> reads_back v.
Proof.
  induction v as [| b | z | lit | s | xs IH | fs IH] using json_nested_ind;
    intros Hok rest n Hr Hn; (destruct n as [|f]; [lia |]).
  - reflexivity.
  - destruct b; reflexivity.
  - cbn [dumps_l]. rewrite scan_once_int. by apply match_number_int_repr.
  - done.
  - cbn [dumps_l]. destruct (encode_basestring_scan s rest Hok) as (body & Eb & Hs).
    rewrite Eb. cbn [scan_once Ascii.eqb Bool.eqb andb]. rewrite Hs.
    by rewrite String.string_of_list_ascii_of_string.
  - apply json_ok_arr in Hok. rewrite dumps_l_arr in *. cbn [app]. rewrite <- app_assoc.
    cbn [app scan_once Ascii.eqb Bool.eqb andb orb].
    destruct xs as [|x xs']; [reflexivity |].
    destruct (dumps_head x) as (c & t & Ex & Hws & Hb & _); [by inversion Hok |].
    rewrite (skip_ws_join _ _ c t) by (done || (simpl; by rewrite Ex)).
    assert (E : exists T, join_items (map dumps_l (x :: xs')) ++ "]"%char :: rest = c :: T).
    { cbn [map]. rewrite join_items_cons, Ex. by eexists. }
    destruct E as [T E]. rewrite E, Hb, <- E.
    rewrite parse_array_items; [done | done | | done | lens].
    exact (Forall_mp _ _ _ IH Hok).
  - apply json_ok_obj in Hok as [Hok Hnd]. rewrite dumps_l_obj in *. cbn [app]. rewrite <- app_assoc.
    cbn [app scan_once Ascii.eqb Bool.eqb andb orb].
    destruct fs as [|kv fs']; [reflexivity |].
    destruct (dump_member_head kv) as [t Et].
    rewrite (skip_ws_join _ _ dq_char t) by (done || (simpl; by rewrite Et)).
    assert (E : exists T, join_items (map dump_member (kv :: fs')) ++ "}"%char :: rest = dq_char :: T).
    { cbn [map]. rewrite join_items_cons, Et. by eexists. }
    destruct E as [T E]. rewrite E. cbn [Ascii.eqb Bool.eqb andb dq_char]. rewrite <- E.
    rewrite parse_object_items; [| done | | done | lens].
    + cbn [scan_bind]. by rewrite py_dict_nodup.
    + apply (Forall_mp (fun kv => str_ok kv.1 = true /\ json_ok kv.2 = true)); [| done].
      eapply Forall_impl; [exact IH |]. intros kv' H [_ H2]. by apply H.
Qed.

Lemma loads_of_dumps (v : json) : json_ok v = true -> loads (dumps v) = Some v.
Proof.
  intros Hok. unfold loads, dumps. rewrite String.list_ascii_of_string_of_list_ascii.
  rewrite <- (app_nil_r (dumps_l v)), skip_ws_dumps by done.
  rewrite (dumps_reads_back v Hok [] _) by (reflexivity || lia).
  by rewrite bool_decide_true.
Qed.

(** Round trip of Python's [json] module: for every value a Python
    program can hold that [dumps] prints as CPython does (strings that
    are UTF-8 text, objects with distinct keys, no float), [json.loads]
    reads back exactly the value [json.dumps] printed, escapes and
    surrogate pairs included, and [json.dumps] is injective on such
    values. *)
Theorem loads_dumps (v w : json) :
  json_ok v = true ->
  loads (dumps v) = Some v /\ (json_ok w = true -> dumps w = dumps v -> w = v).
Proof.
  intros Hv. split; [by apply loads_of_dumps |]. intros Hw E.
  enough (Some w = Some v) by congruence.
  by rewrite <- (loads_of_dumps v Hv), <- E, loads_of_dumps.
Qed.

(** ** The first and last characters of a printing *)

(** A printing starts and ends with a printable ASCII character. *)
Lemma dumps_first (v : json) :
  json_ok v = true -> exists c t, dumps_l v = c :: t /\ 33 <= ord c < 128.
Proof.
  intros Hv. destruct v as [|[]|z|lit|s|xs|fs]; try done;
    try (eexists _, _; split; [reflexivity | vm_compute; split; congruence]).
  destruct (int_repr_head z) as (c & t & E & Hc). exists c, t. split; [done |].
  destruct Hc as [Hc%is_digit_range | (-> & _)]; [lia | vm_compute; split; congruence].
Qed.

Lemma int_repr_last (z : Z) : exists t d, int_repr z = t ++ [d] /\ 33 <= ord d < 128.
Proof.
  assert (H : forall f n, 0 <= n < 10 ^ Z.of_nat (S f) ->
            exists t d, decimal (S f) n [] = t ++ [d] /\ 33 <= ord d < 128).
  { intros f n Hn. destruct (decimal_spec f n [] Hn) as (d0 & ds & -> & Hd & _).
    rewrite app_nil_r. destruct (exists_last (l := d0 :: ds)) as (t & d & E); [done |].
    exists t, d. split; [done |]. rewrite E in Hd. apply Forall_app in Hd as [_ Hd].
    inversion Hd as [|? ? Hdd]. apply is_digit_range in Hdd. lia. }
  unfold int_repr. destruct (Z.ltb_spec z 0).
  - destruct (H _ (- z) (bits_enough (- z) ltac:(lia))) as (t & d & -> & Hd).
    by exists ("-"%char :: t), d.
  - exact (H _ z (bits_enough z ltac:(lia))).
Qed.

Lemma dumps_last (v : json) :
  json_ok v = true -> exists t d, dumps_l v = t ++ [d] /\ 33 <= ord d < 128.
Proof.
  intros Hv. destruct v as [|[]|z|lit|s|xs|fs]; try done.
  - exists (String.list_ascii_of_string "nul"), "l"%char. split; [done | vm_compute; split; congruence].
  - exists (String.list_ascii_of_string "tru"), "e"%char. split; [done | vm_compute; split; congruence].
  - exists (String.list_ascii_of_string "fals"), "e"%char. split; [done | vm_compute; split; congruence].
  - apply int_repr_last.
  - unfold dumps_l, encode_basestring_ascii. eexists _, dq_char.
    split; [by rewrite app_comm_cons | vm_compute; split; congruence].
  - rewrite dumps_l_arr. eexists _, "]"%char.
    split; [by rewrite app_comm_cons | vm_compute; split; congruence].
  - rewrite dumps_l_obj. eexists _, "}"%char.
    split; [by rewrite app_comm_cons | vm_compute; split; congruence].
Qed.

Lemma scan_once_enough_fuel_witness :
  scan_once (2 * length (String.list_ascii_of_string "[1, {}]") + 1)
            (String.list_ascii_of_string "[1, {}]") <> ScanFuel /\
  scan_once 100 (String.list_ascii_of_string "[1, {}]") =
  scan_once (2 * length (String.list_ascii_of_string "[1, {}]") + 1)
            (String.list_ascii_of_string "[1, {}]").
Proof.
  destruct (scan_once_enough_fuel (String.list_ascii_of_string "[1, {}]") 100) as (H1 & _ & H3).
  split; [exact H1 |]. apply H3. vm_compute. lia.
Defined.

(** Lone surrogates, as CPython keeps them: a high surrogate followed
    by a character, and two high surrogates. *)
Example loads_lone_high :
  loads (dq +:+ "\ud800x" +:+ dq) =
    Some (JStr (String.string_of_list_ascii (utf8_encode_cp 0xD800 ++ ["x"%char]))).
Proof. vm_compute. reflexivity. Qed.

Example loads_two_highs :
  loads (dq +:+ "\ud800\ud800" +:+ dq) =
    Some (JStr (String.string_of_list_ascii (utf8_encode_cp 0xD800 ++ utf8_encode_cp 0xD800))).
Proof. vm_compute. reflexivity. Qed.
