(* ===== verification/JsonTypes.v ===== *)
(** * The values [json.loads] returns are Python values

    [_parse_object_unicode] (CPython's [_json.c]) stores the members it
    reads in a [dict] with [PyDict_SetItem] ([PyJson.dict_set],
    [PyJson.py_dict]): a key read twice keeps its first place and takes
    the last value.  So whatever the text, every object [json.loads]
    returns, at every depth, has pairwise distinct keys: it is a
    [dict], which the script then queries with [.get] and [[...]]
    ([Json.py_get], [Json.py_getitem]) as a map.  [py_value] is that
    typing predicate; [loads_py_value] shows that [loads] only returns
    values satisfying it. *)

From S2P Require Import Prelude Json PyJson.

(** A Python value: every object has pairwise distinct keys. *)
Fixpoint py_value (v : json) : bool :=
  match v with
  | JArr xs => forallb py_value xs
  | JObj fs => bool_decide (NoDup (map fst fs)) && forallb (fun kv => py_value kv.2) fs
  | _ => true
  end.

(** ** [PyDict_SetItem] keeps the keys distinct *)

Lemma dict_set_keys (k x : string) (v : json) (fs : list (string * json)) :
  x ∈ map fst (dict_set k v fs) -> x = k \/ x ∈ map fst fs.
Proof.
  induction fs as [|[k' v'] fs IH]; simpl; rewrite ?elem_of_cons.
  - rewrite elem_of_nil. tauto.
  - destruct (String.eqb_spec k k') as [->|]; simpl; rewrite !elem_of_cons; tauto.
Qed.

Lemma dict_set_nodup (k : string) (v : json) (fs : list (string * json)) :
  NoDup (map fst fs) -> NoDup (map fst (dict_set k v fs)).
Proof.
  induction fs as [|[k' v'] fs IH]; simpl; intros Hnd; [apply NoDup_singleton |].
  apply NoDup_cons in Hnd as [Hk' Hnd].
  destruct (String.eqb_spec k k') as [->|Hne]; simpl; constructor; [done | done | | by apply IH].
  intros [-> | ?]%dict_set_keys; [done | contradiction].
Qed.

Lemma dict_set_Forall (P : string * json -> Prop) (k : string) (v : json) fs :
  Forall P fs -> P (k, v) -> Forall P (dict_set k v fs).
Proof.
  induction fs as [|[k' v'] fs IH]; simpl; intros Hf Hp; [by constructor |].
  apply Forall_cons in Hf as [? ?].
  destruct (String.eqb k k'); constructor; auto.
Qed.

(** The [dict] built from the pairs read has distinct keys and only
    values read. *)
Lemma py_dict_wf (P : string * json -> Prop) (fs : list (string * json)) :
  Forall P fs -> NoDup (map fst (py_dict fs)) /\ Forall P (py_dict fs).
Proof.
  unfold py_dict. assert (H0 : NoDup (map fst (@nil (string * json))) /\ Forall P [])
    by (split; constructor).
  revert H0. generalize (@nil (string * json)) as acc.
  induction fs as [|[k v] fs IH]; intros acc [Hnd Hacc] Hf; [done |].
  apply Forall_cons in Hf as [Hkv Hf]. simpl. apply IH; [| done].
  split; [by apply dict_set_nodup | by apply dict_set_Forall].
Qed.

(** ** Every value the scanner reads is a Python value *)

Lemma scan_bind_Scanned {A B} (m : scan A) (k : A -> list ascii -> scan B) b r :
  scan_bind m k = Scanned b r -> exists a r', m = Scanned a r' /\ k a r' = Scanned b r.
Proof. destruct m as [a r'| |]; [by exists a, r' | done | done]. Qed.

Lemma match_constant_py_value (l r : list ascii) (v : json) :
  match_constant constants l = Some (v, r) -> py_value v = true.
Proof.
  cbv [constants]. cbn [match_constant].
  repeat (case_match; [by intros [= <- _] |]). done.
Qed.

Lemma match_number_py_value (l r : list ascii) (v : json) :
  match_number l = Scanned v r -> py_value v = true.
Proof. unfold match_number. repeat case_match; by intros [= <- _]. Qed.

(** Destructs a [scan_bind] that succeeded in hypothesis [H]: the
    first scan read [a], leaving [r] ([Ha]). *)
Ltac scanned_inv H a r Ha :=
  apply scan_bind_Scanned in H as (a & r & Ha & H); cbv beta in H.

(** An object built by [_parse_object_unicode] from members whose
    values are Python values is one. *)
Lemma py_dict_py_value (fs : list (string * json)) :
  Forall (fun kv => py_value kv.2 = true) fs -> py_value (JObj (py_dict fs)) = true.
Proof.
  intros Hf. destruct (py_dict_wf _ fs Hf) as [Hnd Hd]. cbn [py_value].
  apply andb_true_intro. split; [by apply bool_decide_eq_true | by apply forallb_Forall].
Qed.

(** The scanner's three loops, by induction on the fuel. *)
Lemma scan_py_value (n : nat) :
  (forall l v r, scan_once n l = Scanned v r -> py_value v = true) /\
  (forall l xs r, parse_array n l = Scanned xs r -> Forall (fun x => py_value x = true) xs) /\
  (forall l fs r, parse_object n l = Scanned fs r -> Forall (fun kv => py_value kv.2 = true) fs).
Proof.
  induction n as [|f (IHv & IHa & IHo)]; [done |]. split; [|split].
  - intros [|c l1] v r H; [done |]. cbn [scan_once] in H.
    destruct (Ascii.eqb c dq_char).
    { destruct (scanstring l1) as [[s r']|]; [by injection H as <- _ | done]. }
    destruct (Ascii.eqb c "{").
    { destruct (skip_ws l1) as [|d r']; [done |].
      destruct (Ascii.eqb d "}"); [by injection H as <- _ |].
      scanned_inv H fs r1 Hfs. injection H as <- _. by eapply py_dict_py_value, IHo. }
    destruct (Ascii.eqb c "[").
    { destruct (skip_ws l1) as [|d r']; [done |].
      destruct (Ascii.eqb d "]"); [by injection H as <- _ |].
      scanned_inv H xs r1 Hxs. injection H as <- _. by eapply forallb_Forall, IHa. }
    destruct (match_constant constants (c :: l1)) as [[v' r']|] eqn:Ec.
    + injection H as <- _. by eapply match_constant_py_value.
    + by eapply match_number_py_value.
  - intros l xs r H. cbn [parse_array] in H. scanned_inv H v r1 Hv.
    destruct (skip_ws r1) as [|d r']; [done |].
    destruct (Ascii.eqb d "]"); [injection H as <- _; constructor; [by eapply IHv | constructor] |].
    destruct (Ascii.eqb d ","); [| done].
    scanned_inv H vs r2 Hvs. injection H as <- _. constructor; [by eapply IHv | by eapply IHa].
  - intros [|c l1] fs r H; [done |]. cbn [parse_object] in H.
    destruct (Ascii.eqb c dq_char); [| done].
    destruct (scanstring l1) as [[k r0]|]; [| done].
    destruct (skip_ws r0) as [|d r1]; [done |]. destruct (Ascii.eqb d ":"); [| done].
    scanned_inv H v r2 Hv. destruct (skip_ws r2) as [|e r3]; [done |].
    destruct (Ascii.eqb e "}"); [injection H as <- _; constructor; [by eapply IHv | constructor] |].
    destruct (Ascii.eqb e ","); [| done].
    scanned_inv H fs' r4 Hfs. injection H as <- _. constructor; [by eapply IHv | by eapply IHo].
Qed.

(** Every value [json.loads] returns is a Python value: whatever
    the text, each object it returns, at every depth, has pairwise
    distinct keys (a key repeated in the text is stored once, in its
    first place, with its last value), so the script's [.get] and
    [[...]] on the decoded answer query a [dict]. *)
Theorem loads_py_value (s : string) (v : json) :
  loads s = Some v -> py_value v = true.
Proof.
  unfold loads. destruct (scan_once _ _) as [v' r| |] eqn:E; [| done | done].
  case_bool_decide; [| done]. intros [= <-]. by eapply (proj1 (scan_py_value _)).
Qed.

(** A matchmaker answer naming two persons under one key. *)
Definition dup_key_answer : string :=
  "{" +:+ dq +:+ "name" +:+ dq +:+ ": " +:+ dq +:+ "Alice Chen" +:+ dq +:+ ", " +:+
  dq +:+ "name" +:+ dq +:+ ": " +:+ dq +:+ "Bob Smith" +:+ dq +:+ "}".

Lemma loads_py_value_witness :
  loads dup_key_answer = Some (JObj [("name", JStr "Bob Smith")]) /\
  py_value (JObj [("name", JStr "Bob Smith")]) = true.
Proof.
  assert (H : loads dup_key_answer = Some (JObj [("name", JStr "Bob Smith")]))
    by (vm_compute; reflexivity).
  split; [exact H | exact (loads_py_value _ _ H)].
Defined.
