(* ===== verification/Roster.v ===== *)
(** * The persona roster (PersonaDirectory)

    [developers] is the literal list of twelve persona dicts of
    src/app.py (lines 10-23), here a list of [persona] records with the
    dict's fields.  [find_persona] is the generator lookup
    [next((p for p in developers if p["name"] == name), None)] (line 75;
    line 156 is the same search without the default).  [persona_json] is
    the dict that [json.dumps(developers)] serialises (line 61), keys in
    the literal's order.

    The spec's directory contract ("all", "findByName", unique names) is
    the class [PersonaDirectory]; the roster is an instance of it.  The
    clients ([Roleplay], [Session]) use the roster through the lemmas
    of the class. *)

From S2P Require Import Prelude Json PyJson.

Record persona : Type := {
  p_id : Z;
  p_name : string;
  p_role : string;
  p_stack : string;
  p_bio : string;
  p_avatar : string;
  p_style : string
}.

#[export] Instance persona_eq_dec : EqDecision persona.
Proof. solve_decision. Defined.

Definition developers : list persona := [
  {| p_id := 1; p_name := "Alice Chen"; p_role := "Frontend Architect";
     p_stack := "React, TypeScript, Tailwind";
     p_bio := "Obsessed with pixel-perfect UI. I hate backend logic. If it doesn't look good, it doesn't work.";
     p_avatar := "🎨"; p_style := "Visual & Creative" |};
  {| p_id := 2; p_name := "Bob Smith"; p_role := "Backend Specialist";
     p_stack := "Python, Django, PostgreSQL";
     p_bio := "I optimize queries for fun. Frontend CSS scares me. I build robust APIs that never crash.";
     p_avatar := "⚙️"; p_style := "Logical & Blunt" |};
  {| p_id := 3; p_name := "Charlie Kim"; p_role := "Fullstack Founder";
     p_stack := "Node.js, MongoDB, AWS";
     p_bio := "Shipping MVPs in 48 hours. I value speed over code quality. Let's just launch it.";
     p_avatar := "🚀"; p_style := "Energetic & Fast" |};
  {| p_id := 4; p_name := "Dana White"; p_role := "AI Engineer";
     p_stack := "PyTorch, HuggingFace, LangChain";
     p_bio := "Fine-tuning LLMs and building RAG pipelines. I speak in vectors and embeddings.";
     p_avatar := "🧠"; p_style := "Academic & Complex" |};
  {| p_id := 5; p_name := "Evan Wright"; p_role := "DevOps Engineer";
     p_stack := "Docker, Kubernetes, Terraform";
     p_bio := "If you deploy manually, we can't be friends. I automate everything.";
     p_avatar := "🐳"; p_style := "Strict & Organized" |};
  {| p_id := 6; p_name := "Fiona Gallagher"; p_role := "Mobile Dev";
     p_stack := "Flutter, Dart, Firebase";
     p_bio := "Building cross-platform apps. I care about touch interactions and 60fps performance.";
     p_avatar := "📱"; p_style := "User-Focused" |};
  {| p_id := 7; p_name := "Greg House"; p_role := "Cybersecurity";
     p_stack := "Kali Linux, Penetration Testing";
     p_bio := "I break things to make them stronger. Your API keys are probably leaked already.";
     p_avatar := "🔒"; p_style := "Paranoid & Careful" |};
  {| p_id := 8; p_name := "Hannah Lee"; p_role := "Game Developer";
     p_stack := "Unity, C#, Shader Graph";
     p_bio := "Making indie games. I know 3D math and physics engines. Gamers are the toughest users.";
     p_avatar := "🎮"; p_style := "Playful & Technical" |};
  {| p_id := 9; p_name := "Ian Malcolm"; p_role := "Data Scientist";
     p_stack := "R, Pandas, Tableau";
     p_bio := "Data tells a story. I clean messy datasets and find hidden trends.";
     p_avatar := "📊"; p_style := "Analytical" |};
  {| p_id := 10; p_name := "Jack Sparrow"; p_role := "Blockchain Dev";
     p_stack := "Solidity, Rust, Web3.js";
     p_bio := "Building decentralized apps. Code is law. WAGMI.";
     p_avatar := "⛓️"; p_style := "Crypto-Native" |};
  {| p_id := 11; p_name := "Karen Page"; p_role := "Project Manager";
     p_stack := "Jira, Agile, Scrum";
     p_bio := "I keep developers on track. No, we cannot add that feature in this sprint.";
     p_avatar := "📅"; p_style := "Organized & Pushy" |};
  {| p_id := 12; p_name := "Leo Messi"; p_role := "Junior Dev";
     p_stack := "HTML, CSS, JavaScript";
     p_bio := "Just graduated bootcamp! Eager to learn everything. Looking for a mentor.";
     p_avatar := "🎓"; p_style := "Curious & Humble" |}
].

(** [next((p for p in ps if p["name"] == name), None)]: the first
    persona of [ps] with that name. *)
Fixpoint find_persona (name : string) (ps : list persona) : option persona :=
  match ps with
  | [] => None
  | p :: ps' => if String.eqb (p_name p) name then Some p else find_persona name ps'
  end.

(** The dict of one persona, as [json.dumps] sees it. *)
Definition persona_json (p : persona) : json :=
  JObj [("id", JNum (p_id p)); ("name", JStr (p_name p)); ("role", JStr (p_role p));
        ("stack", JStr (p_stack p)); ("bio", JStr (p_bio p));
        ("avatar", JStr (p_avatar p)); ("style", JStr (p_style p))].

Definition developers_json : json := JArr (map persona_json developers).

(** ** The directory contract *)

(** What the roster promises its clients: names are unique, and the
    lookup by name finds exactly the member with that name. *)
Class PersonaDirectory (all : list persona) (find : string -> option persona) : Prop := {
  dir_names_unique : NoDup (map p_name all);
  dir_find_sound : forall n p, find n = Some p -> p ∈ all /\ p_name p = n;
  dir_find_complete : forall p, p ∈ all -> find (p_name p) = Some p
}.

(** ** Lemmas on [find_persona] *)

Lemma find_persona_sound (n : string) (ps : list persona) (p : persona) :
  find_persona n ps = Some p -> p ∈ ps /\ p_name p = n.
Proof.
  induction ps as [|q ps IH]; simpl; [done |].
  destruct (String.eqb_spec (p_name q) n) as [<-|_].
  - intros [= ->]. split; [left | done].
  - intros H. destruct (IH H). split; [by right | done].
Qed.

Lemma find_persona_none (n : string) (ps : list persona) :
  find_persona n ps = None -> forall p, p ∈ ps -> p_name p <> n.
Proof.
  induction ps as [|q ps IH]; simpl; [intros _ p Hp; by apply elem_of_nil in Hp |].
  destruct (String.eqb_spec (p_name q) n); [done |].
  intros H p Hp. apply elem_of_cons in Hp as [->|Hp]; [done | by apply IH].
Qed.

Lemma find_persona_complete (ps : list persona) (p : persona) :
  NoDup (map p_name ps) -> p ∈ ps -> find_persona (p_name p) ps = Some p.
Proof.
  induction ps as [|q ps IH]; simpl; intros Hnd Hp; [by apply elem_of_nil in Hp |].
  apply NoDup_cons in Hnd as [Hq Hnd].
  apply elem_of_cons in Hp as [->|Hp]; [by rewrite String.eqb_refl |].
  destruct (String.eqb_spec (p_name q) (p_name p)) as [E|_]; [|by apply IH].
  exfalso. apply Hq. rewrite E. apply list_elem_of_In, in_map, list_elem_of_In, Hp.
Qed.

Lemma developers_names_unique : NoDup (map p_name developers).
Proof. apply (bool_decide_unpack _). by vm_compute. Qed.

(** The ids are unique too: the browse buttons' keys [btn_<id>] are
    distinct widget keys. *)
Lemma developers_ids_unique : NoDup (map p_id developers).
Proof. apply (bool_decide_unpack _). by vm_compute. Qed.

#[export] Instance roster_directory :
  PersonaDirectory developers (fun n => find_persona n developers).
Proof.
  split.
  - exact developers_names_unique.
  - intros n p. apply find_persona_sound.
  - intros p. apply find_persona_complete, developers_names_unique.
Qed.

(** ** Clients' view of a directory *)

Section DirectoryFacts.
Context (all : list persona) (find : string -> option persona).
Context `{!PersonaDirectory all find}.

Lemma dir_find_iff (n : string) (p : persona) :
  find n = Some p <-> p ∈ all /\ p_name p = n.
Proof.
  split; [apply dir_find_sound |]. intros [Hp <-]. by apply dir_find_complete.
Qed.

Lemma dir_find_none (n : string) :
  find n = None <-> forall p, p ∈ all -> p_name p <> n.
Proof.
  split.
  - intros Hn p Hp <-. by rewrite dir_find_complete in Hn.
  - intros H. destruct (find n) as [p|] eqn:E; [|done].
    destruct (dir_find_sound _ _ E) as [Hp <-]. by destruct (H p Hp).
Qed.
End DirectoryFacts.

(** C20: The roster meets the directory contract of the spec: display
    names are unique, and [find_persona] on a name returns a persona
    exactly when it is the roster member with that name. *)
Theorem roster_contract :
  NoDup (map p_name developers) /\
  forall n p, find_persona n developers = Some p <-> p ∈ developers /\ p_name p = n.
Proof.
  split; [apply dir_names_unique |].
  intros n p. apply (dir_find_iff developers (fun n => find_persona n developers)).
Qed.

(** The roster as the prompt serialises it is read back by
    [json.loads]: the round trip at the script's own data. *)
Lemma loads_dumps_witness :
  json_ok developers_json = true /\ loads (dumps developers_json) = Some developers_json.
Proof.
  assert (H : json_ok developers_json = true) by (vm_compute; reflexivity).
  split; [exact H |]. exact (proj1 (loads_dumps developers_json developers_json H)).
Defined.
