(* ===== verification/GenAI.v ===== *)
(** * The hosted text-generation model

    The script talks to Google's generative-AI SDK in two ways:
    - at configuration time, the sidebar lists the available models and
      picks one (src/app.py, lines 35-47): [Discovery.select_model];
    - at run time, [genai.GenerativeModel(selected_model)
      .generate_content(prompt)] sends a prompt and returns a response
      whose [.text] is read (lines 67-68 and 102-103).  Either step may
      raise; both call sites catch every exception.

    A computation that may call the model is a term of the free monad
    [gen]: it returns a value ([GRet]) or issues [Generate model prompt]
    and continues with the model's answer ([GenText t]: [.text] is [t];
    [GenFail]: the call or the [.text] access raised).  The model is an
    oracle: [gen_exec] relates a computation to every trace of calls and
    result it can produce, whatever the answers; [gen_run] executes it
    against an oracle function, for the concrete scenarios. *)

From S2P Require Import Prelude.

Inductive gen_result : Type :=
| GenText (text : string)
| GenFail.

Inductive gen (A : Type) : Type :=
| GRet (a : A)
| Generate (model prompt : string) (k : gen_result -> gen A).
Arguments GRet {A} a.
Arguments Generate {A} model prompt k.

Fixpoint gen_bind {A B} (m : gen A) (f : A -> gen B) : gen B :=
  match m with
  | GRet a => f a
  | Generate md p k => Generate md p (fun r => gen_bind (k r) f)
  end.

Declare Scope gen_scope.
Delimit Scope gen_scope with gen.
Notation "x <- m ;; k" := (gen_bind m (fun x => k))
  (at level 100, m at next level, right associativity) : gen_scope.

(** [model.generate_content(prompt)] followed by [.text]. *)
Definition generate_content (model prompt : string) : gen gen_result :=
  Generate model prompt GRet.

(** One call to the model, as it appears in a trace. *)
Record gen_call : Type := {
  call_model : string;
  call_prompt : string;
  call_result : gen_result
}.

(** All the executions of a computation, for every answer of the model. *)
Inductive gen_exec {A} : gen A -> list gen_call -> A -> Prop :=
| gen_exec_ret a : gen_exec (GRet a) [] a
| gen_exec_call md p k r t a :
    gen_exec (k r) t a ->
    gen_exec (Generate md p k)
      ({| call_model := md; call_prompt := p; call_result := r |} :: t) a.

(** Executing a computation against an oracle. *)
Fixpoint gen_run {A} (oracle : string -> string -> gen_result) (m : gen A)
    : A * list gen_call :=
  match m with
  | GRet a => (a, [])
  | Generate md p k =>
      let r := oracle md p in
      let '(a, t) := gen_run oracle (k r) in
      (a, {| call_model := md; call_prompt := p; call_result := r |} :: t)
  end.

(** ** Lemmas on the monad *)

Lemma gen_run_exec {A} oracle (m : gen A) :
  gen_exec m (snd (gen_run oracle m)) (fst (gen_run oracle m)).
Proof.
  induction m as [a|md p k IH]; simpl; [constructor |].
  specialize (IH (oracle md p)). destruct (gen_run oracle (k (oracle md p))).
  by constructor.
Qed.

(** Running a bind: the continuation runs on the value of the first
    computation. *)
Lemma gen_run_bind_fst {A B} oracle (m : gen A) (f : A -> gen B) :
  fst (gen_run oracle (gen_bind m f)) = fst (gen_run oracle (f (fst (gen_run oracle m)))).
Proof.
  induction m as [a|md p k IH]; [done |]. cbn [gen_bind gen_run].
  specialize (IH (oracle md p)).
  destruct (gen_run oracle (gen_bind (k (oracle md p)) f)) eqn:E1,
           (gen_run oracle (k (oracle md p))) eqn:E2. exact IH.
Qed.

Lemma gen_exec_bind {A B} (m : gen A) (f : A -> gen B) t b :
  gen_exec (gen_bind m f) t b <->
  exists a t1 t2, t = t1 ++ t2 /\ gen_exec m t1 a /\ gen_exec (f a) t2 b.
Proof.
  split.
  - revert t. induction m as [a|md p k IH]; simpl; intros t H.
    + exists a, [], t. split; [done |]. split; [constructor | done].
    + invc H. match goal with E : gen_exec (gen_bind (k ?r) f) _ _ |- _ =>
        destruct (IH r _ E) as (a & t1 & t2 & -> & H1 & H2) end.
      exists a, ({| call_model := md; call_prompt := p; call_result := r |} :: t1), t2.
      split; [done |]. split; [by constructor | done].
  - intros (a & t1 & t2 & -> & H1 & H2). revert H2.
    induction H1; intros H2; simpl; [done |]. constructor. by apply IHgen_exec.
Qed.

Lemma gen_exec_ret_inv {A} (a a' : A) t : gen_exec (GRet a) t a' -> t = [] /\ a' = a.
Proof. intros H. by invc H. Qed.

Lemma gen_exec_generate md p t r :
  gen_exec (generate_content md p) t r <->
  t = [{| call_model := md; call_prompt := p; call_result := r |}].
Proof.
  split.
  - intros H. invc H. match goal with E : gen_exec (GRet _) _ _ |- _ => invc E end. done.
  - intros ->. repeat constructor.
Qed.

(** An execution of the monadic map of a pure function. *)
Lemma gen_exec_map {A B} (m : gen A) (f : A -> B) t b :
  gen_exec (x <- m ;; GRet (f x))%gen t b <->
  exists a, gen_exec m t a /\ b = f a.
Proof.
  rewrite gen_exec_bind. split.
  - intros (a & t1 & t2 & -> & H1 & H2). apply gen_exec_ret_inv in H2 as [-> ->].
    exists a. by rewrite app_nil_r.
  - intros (a & H & ->). exists a, t, []. rewrite app_nil_r.
    split; [done |]. split; [done | constructor].
Qed.

(** ** Model discovery (sidebar) *)

Module Discovery.

(** An entry of [genai.list_models()]. *)
Record model_info : Type := {
  m_name : string;
  m_methods : list string
}.

(** What the sidebar shows: nothing, [st.success] or [st.error]. *)
Inductive sidebar_status : Type :=
| StatusNone
| StatusOnline (model : string)
| StatusKeyError.

Definition default_model : string := "gemini-1.5-flash".
Definition preferred_model : string := "models/gemini-1.5-flash".

(** [[m.name for m in listing if 'generateContent' in
    m.supported_generation_methods]]. *)
Definition usable_models (listing : list model_info) : list string :=
  map m_name (filter (fun m => bool_decide ("generateContent" ∈ m_methods m)) listing).

(** Lines 35-47.  [listing] is [None] when [genai.configure] or
    [genai.list_models] raised. *)
Definition select_model (api_key : string) (listing : option (list model_info))
    : string * sidebar_status :=
  if py_truthy api_key then
    match listing with
    | None => (default_model, StatusKeyError)
    | Some ms =>
        match usable_models ms with
        | [] => (default_model, StatusNone)
        | m0 :: _ =>
            let sel := if bool_decide (preferred_model ∈ usable_models ms)
                       then preferred_model else m0 in
            (sel, StatusOnline sel)
        end
    end
  else (default_model, StatusNone).

(** C21: With a key and a listing that has a model supporting
    [generateContent], the sidebar selects one of those models and
    reports it online: the preferred [models/gemini-1.5-flash] exactly
    when it is listed, the first usable model otherwise. *)
Theorem select_model_listed (key : string) (ms : list model_info) :
  py_truthy key = true -> usable_models ms <> [] ->
  let sel := fst (select_model key (Some ms)) in
  sel ∈ usable_models ms /\
  (preferred_model ∈ usable_models ms -> sel = preferred_model) /\
  (preferred_model ∉ usable_models ms -> Some sel = head (usable_models ms)) /\
  snd (select_model key (Some ms)) = StatusOnline sel.
Proof.
  intros Hk Hne. unfold select_model. rewrite Hk.
  destruct (usable_models ms) as [|m0 rest] eqn:E; [done |]. simpl.
  case_bool_decide as Hp.
  - split; [done |]. split; [done |]. split; [done | done].
  - split; [by left |]. split; [done |]. split; [done | done].
Qed.

(** C22: The fallbacks: without a key, or when no listed model supports
    [generateContent], the default name [gemini-1.5-flash] is used and
    nothing is reported (the spec asks for a configuration error); only
    an exception from the SDK shows the key error. *)
Theorem select_model_fallback (key : string) (listing : option (list model_info)) :
  (py_truthy key = false \/ exists ms, listing = Some ms /\ usable_models ms = []) ->
  select_model key listing = (default_model, StatusNone).
Proof.
  intros [Hk | (ms & -> & E)]; unfold select_model.
  - by rewrite Hk.
  - destruct (py_truthy key); [by rewrite E | done].
Qed.
End Discovery.

Lemma gen_exec_ret_iff {A} (a a' : A) t : gen_exec (GRet a) t a' <-> t = [] /\ a' = a.
Proof. split; [apply gen_exec_ret_inv | intros [-> ->]; constructor]. Qed.

Module DiscoveryWitnesses.
Import Discovery.

Definition sample_listing : list model_info :=
  [{| m_name := "models/embedding-001"; m_methods := ["embedContent"] |};
   {| m_name := "models/gemini-pro"; m_methods := ["generateContent"] |}].

Lemma select_model_listed_witness :
  py_truthy "key" = true /\ usable_models sample_listing <> [] /\
  fst (select_model "key" (Some sample_listing)) ∈ usable_models sample_listing.
Proof.
  assert (Hk : py_truthy "key" = true) by reflexivity.
  assert (Hne : usable_models sample_listing <> []) by (vm_compute; discriminate).
  split; [exact Hk |]. split; [exact Hne |].
  exact (proj1 (select_model_listed "key" sample_listing Hk Hne)).
Defined.

Lemma select_model_fallback_witness :
  select_model "key" (Some [{| m_name := "models/embedding-001"; m_methods := ["embedContent"] |}]) = (default_model, StatusNone).
Proof.
  apply select_model_fallback. right. exists [{| m_name := "models/embedding-001"; m_methods := ["embedContent"] |}]. split; [reflexivity |].
  vm_compute. reflexivity.
Defined.
End DiscoveryWitnesses.

(** A run against an oracle is an execution. *)
Lemma gen_exec_of_run {A} oracle (m : gen A) (x : A) t :
  gen_run oracle m = (x, t) -> gen_exec m t x.
Proof. intros E. pose proof (gen_run_exec oracle m) as H. by rewrite E in H. Qed.
