(* ===== verification/Roleplay.v ===== *)
(** * RoleplayResponder: [chat_with_persona]

    [chat_with_persona(user_msg, persona_name, file_context=None)]
    (src/app.py, lines 73-105) looks the persona up by name in the roster
    (returning the in-band string ["Error: User left."] when it is not
    there, before any call to the model), builds the role-play prompt,
    adds a file instruction when [file_context] is truthy, and returns
    the model's text, or ["..."] when the call raised.

    [roleplay_prompt] is the triple-quoted f-string of lines 85-100,
    line by line; [chat_with_persona] is a [gen] computation whose model
    name is the sidebar's [selected_model]. *)

From S2P Require Import Prelude Roster GenAI.

Open Scope gen_scope.

(** Lines 81-83. *)
Definition file_instruction (file_context : option string) : string :=
  match file_context with
  | Some fc =>
      if py_truthy fc
      then "USER JUST SENT A FILE: " +:+ fc +:+
           ". React to receiving this file based on your personality (e.g. if image, comment on design; if code, comment on logic)."
      else ""
  | None => ""
  end.

(** Lines 85-100: every line of the f-string, indentation included
    (line 96 ends with a space), joined by newlines. *)
Definition roleplay_prompt (p : persona) (user_msg fi : string) : string :=
  String.concat nl [
    "";
    "    ROLEPLAY INSTRUCTION:";
    "    You are " +:+ p_name p +:+ ".";
    "    Role: " +:+ p_role p;
    "    Bio: " +:+ p_bio p;
    "    Personality: " +:+ p_style p;
    "    Tech Stack: " +:+ p_stack p;
    "    ";
    "    Current Chat Context: User said " +:+ dq +:+ user_msg +:+ dq;
    "    " +:+ fi;
    "    ";
    "    Reply as " +:+ p_name p +:+ ". ";
    "    - Keep it short (under 40 words).";
    "    - Be helpful but stay in character.";
    "    - If you are " +:+ dq +:+ "Blunt" +:+ dq +:+ ", be blunt. If " +:+
      dq +:+ "Humble" +:+ dq +:+ ", be humble.";
    "    "].

Definition user_left : string := "Error: User left.".
Definition filler_reply : string := "...".

(** Lines 101-105: [response.text], or ["..."] when the call raised. *)
Definition reply_of (r : gen_result) : string :=
  match r with GenText t => t | GenFail => filler_reply end.

(** Lines 73-105; [model] is [selected_model]. *)
Definition chat_with_persona (model user_msg persona_name : string)
    (file_context : option string) : gen string :=
  match find_persona persona_name developers with
  | None => GRet user_left
  | Some persona =>
      r <- generate_content model
             (roleplay_prompt persona user_msg (file_instruction file_context)) ;;
      GRet (reply_of r)
  end.

(** ** Properties *)

(** C12: A name that no roster member has is answered with the in-band
    string ["Error: User left."], and the model is never called. *)
Theorem chat_unknown_persona_no_call (md msg n : string) (fc : option string)
    (t : list gen_call) (r : string) :
  (forall p, p ∈ developers -> p_name p <> n) ->
  gen_exec (chat_with_persona md msg n fc) t r -> t = [] /\ r = user_left.
Proof.
  intros Hn H. unfold chat_with_persona in H.
  pose proof (proj2 (dir_find_none developers _ n) Hn) as E. cbv beta in E.
  rewrite E in H. by apply gen_exec_ret_inv in H.
Qed.

(** A persona found by name is asked with one call. *)
Lemma chat_with_persona_found (md msg n : string) (p : persona)
    (fc : option string) (t : list gen_call) (r : string) :
  find_persona n developers = Some p ->
  gen_exec (chat_with_persona md msg n fc) t r <->
  exists a, t = [{| call_model := md;
                    call_prompt := roleplay_prompt p msg (file_instruction fc);
                    call_result := a |}] /\ r = reply_of a.
Proof.
  intros E. unfold chat_with_persona. rewrite E, gen_exec_map.
  setoid_rewrite gen_exec_generate. naive_solver.
Qed.

(** C13: For a roster persona, every execution makes exactly one call to
    the selected model, with the role-play prompt built from that
    persona's record, and replies with the model's text, or ["..."]
    when the call failed. *)
Theorem chat_roster_persona_exec (md msg : string) (p : persona)
    (fc : option string) (t : list gen_call) (r : string) :
  p ∈ developers ->
  gen_exec (chat_with_persona md msg (p_name p) fc) t r <->
  exists a, t = [{| call_model := md;
                    call_prompt := roleplay_prompt p msg (file_instruction fc);
                    call_result := a |}] /\ r = reply_of a.
Proof.
  intros Hp. apply chat_with_persona_found.
  exact (dir_find_complete (find := fun n => find_persona n developers) p Hp).
Qed.

(** The file instruction is present exactly when [file_context] is
    truthy. *)
Lemma file_instruction_empty (fc : option string) :
  file_instruction fc = "" <-> py_truthy_opt fc = false.
Proof. destruct fc as [[|c f]|]; simpl; done. Qed.

(** C14: The role-play prompt quotes the user's message verbatim, names
    the persona and its personality style, and, when a file name is
    given, announces the file by its name. *)
Theorem roleplay_prompt_mentions (p : persona) (msg : string) (fc : option string) :
  let prompt := roleplay_prompt p msg (file_instruction fc) in
  (dq +:+ msg +:+ dq) in_str prompt /\
  ("You are " +:+ p_name p +:+ ".") in_str prompt /\
  ("Personality: " +:+ p_style p) in_str prompt /\
  (forall f, fc = Some f -> py_truthy f = true ->
     ("USER JUST SENT A FILE: " +:+ f) in_str prompt).
Proof.
  intros prompt. unfold prompt, roleplay_prompt.
  split; [|split; [|split]]; [solve_infix_lines.. |].
  intros f -> Hf. unfold file_instruction. rewrite Hf. solve_infix_lines.
Qed.

(** ** Witnesses *)

Definition bob : persona := nth 1 developers (nth 0 developers {| p_id := 0; p_name := ""; p_role := ""; p_stack := ""; p_bio := ""; p_avatar := ""; p_style := "" |}).

Lemma chat_unknown_persona_no_call_witness :
  (forall p, p ∈ developers -> p_name p <> "Nobody") /\
  gen_exec (chat_with_persona "m" "hi" "Nobody" None) [] user_left /\
  ([] : list gen_call) = [] /\ user_left = user_left.
Proof.
  assert (Hn : forall p, p ∈ developers -> p_name p <> "Nobody").
  { apply Forall_forall, (bool_decide_unpack _). vm_compute. reflexivity. }
  assert (Hx : gen_exec (chat_with_persona "m" "hi" "Nobody" None) [] user_left).
  { vm_compute. constructor. }
  split; [exact Hn |]. split; [exact Hx |].
  exact (chat_unknown_persona_no_call "m" "hi" "Nobody" None [] user_left Hn Hx).
Defined.

Lemma chat_roster_persona_exec_witness :
  bob ∈ developers /\
  gen_exec (chat_with_persona "m" "hi" (p_name bob) None)
    [{| call_model := "m"; call_prompt := roleplay_prompt bob "hi" (file_instruction None);
        call_result := GenText "Hey" |}] "Hey".
Proof.
  assert (Hb : bob ∈ developers) by (apply list_elem_of_In; vm_compute; tauto).
  split; [exact Hb |].
  apply (chat_roster_persona_exec "m" "hi" bob None _ _ Hb). by exists (GenText "Hey").
Defined.
