(* ===== verification/Matchmaker.v ===== *)
(** * MatchSelector: [find_best_match]

    [find_best_match(user_bio)] (src/app.py, lines 56-71) sends the user's
    bio and [json.dumps(developers)] to the model, strips the markdown
    code fence from the answer ([clean_response], line 68), and returns
    [json.loads] of the rest; any exception (the call, [.text], or a
    decoding error) gives the sentinel dict
    [{"name": "Error", "reason": "AI busy."}].  The decoded value is
    returned as it is: nothing checks that it is a dict, that it has a
    ["name"], or that the name is a roster member.

    The caller (the matchmaker tab, [Session]) searches the roster with
    [next(d for d in developers if d["name"] == match_result["name"])]
    (line 156): [next_by_name]. *)

From S2P Require Import Prelude PyStr Utf8 Json PyJson Roster GenAI.

Open Scope gen_scope.

Definition fence_json : string := "```json".
Definition fence : string := "```".

(** Line 68: [.replace("```json", "").replace("```", "").strip()]. *)
Definition clean_response (text : string) : string :=
  py_strip (py_replace (py_replace text fence_json "") fence "").

(** Lines 58-65, line by line ([{{] and [}}] are literal braces). *)
Definition matchmaker_prompt (user_bio db : string) : string :=
  String.concat nl [
    "";
    "    Act as a CTO matchmaker.";
    "    User Bio: " +:+ dq +:+ user_bio +:+ dq;
    "    Community Database: " +:+ db;
    "    ";
    "    Task: Select the ONE best person from the database to work with this user.";
    "    Return JSON only: {" +:+ dq +:+ "name" +:+ dq +:+ ": " +:+ dq +:+
      "Name from DB" +:+ dq +:+ ", " +:+ dq +:+ "reason" +:+ dq +:+ ": " +:+
      dq +:+ "Why" +:+ dq +:+ "}";
    "    "].

(** Line 71. *)
Definition error_result : json :=
  JObj [("name", JStr "Error"); ("reason", JStr "AI busy.")].

Section WithJson.
Context `{!JsonLib}.

(** Lines 66-71: the value the [try] block returns. *)
Definition decode_answer (r : gen_result) : json :=
  match r with
  | GenFail => error_result
  | GenText t =>
      match json_loads (clean_response t) with
      | Some v => v
      | None => error_result
      end
  end.

(** Lines 56-71; [model] is [selected_model]. *)
Definition find_best_match (model user_bio : string) : gen json :=
  r <- generate_content model
         (matchmaker_prompt user_bio (json_dumps developers_json)) ;;
  GRet (decode_answer r).
End WithJson.

(** Line 156: [next(d for d in ds if d["name"] == match_result["name"])].
    The generator evaluates [match_result["name"]] once per candidate,
    so a missing key raises [KeyError] at the first candidate; an
    exhausted generator raises [StopIteration]. *)
Fixpoint next_by_name (match_result : json) (ds : list persona) : persona + py_exc :=
  match ds with
  | [] => inr StopIteration
  | d :: ds' =>
      match py_getitem match_result "name" with
      | inr e => inr e
      | inl v => if py_eq_str v (p_name d) then inl d else next_by_name match_result ds'
      end
  end.

(** ** Properties *)

Definition backtick : ascii := "`"%char.

Lemma replace_fence_json_hit (rest : string) :
  py_replace (fence_json +:+ rest) fence_json "" = py_replace rest fence_json "".
Proof.
  rewrite !py_replace_nonempty by done.
  by rewrite (replace_scan_hit fence_json "" rest).
Qed.

(** A backtick-free prefix passes both replacements unchanged. *)
Lemma py_replace_fresh_prefix (old body rest : string) :
  (exists old', old = String backtick old') ->
  char_free backtick body = true ->
  py_replace (body +:+ rest) old "" = body +:+ py_replace rest old "".
Proof.
  intros [old' ->] Hb. rewrite !py_replace_nonempty by done.
  by apply (replace_scan_app_fresh _ _ backtick old').
Qed.

(** No whitespace character has a backtick byte. *)
Lemma backtick_not_space :
  Forall (fun bs => char_free backtick (String.string_of_list_ascii bs) = true) space_seqs.
Proof. apply (bool_decide_unpack _). vm_compute. reflexivity. Qed.

Lemma all_space_nl : all_space nl.
Proof. exists [[nl_char]]. split; [repeat constructor; vm_compute; tauto | reflexivity]. Qed.

(** The fence stripping, for any whitespace around the body. *)
Lemma clean_fenced (w1 j w2 : string) :
  all_space w1 -> all_space w2 -> edges_not_space j ->
  char_free backtick j = true ->
  clean_response (fence_json +:+ w1 +:+ j +:+ w2 +:+ fence) = j.
Proof.
  intros H1 H2 Hj Hb. unfold clean_response.
  assert (Hbody : char_free backtick (w1 +:+ j +:+ w2) = true).
  { rewrite !char_free_app, Hb, (all_space_char_free backtick w1), (all_space_char_free backtick w2);
      try apply backtick_not_space; done. }
  rewrite replace_fence_json_hit.
  rewrite (string_app_assoc w1), (string_app_assoc (w1 +:+ j)).
  rewrite string_app_assoc in Hbody.
  rewrite (py_replace_fresh_prefix fence_json) by (done || by exists "``json").
  change (py_replace fence fence_json "") with fence.
  rewrite (py_replace_fresh_prefix fence) by (done || by exists "``").
  change (py_replace fence fence "") with "".
  rewrite string_app_nil_r, <- string_app_assoc.
  by apply py_strip_padded.
Qed.

(** C17: Round trip of the fence stripping: a JSON answer wrapped in a
    markdown fence [```json ... ```], with any run of whitespace
    characters between the fences and the body (ASCII or Unicode:
    newlines, U+00A0, U+3000, ...), is cleaned back to the body,
    provided the body has no backtick and neither starts with the first
    byte nor ends with the last byte of a whitespace character. *)
Theorem clean_response_fenced (w1 j w2 : string) :
  all_space w1 -> all_space w2 -> edges_not_space j ->
  char_free backtick j = true ->
  clean_response (fence_json +:+ w1 +:+ j +:+ w2 +:+ fence) = j.
Proof. apply clean_fenced. Qed.

Section WithJsonProofs.
Context `{!JsonLib}.

Lemma decode_answer_text (txt : string) (v : json) :
  json_loads (clean_response txt) = Some v -> decode_answer (GenText txt) = v.
Proof. intros E. simpl. by rewrite E. Qed.

Lemma decode_answer_undecodable (txt : string) :
  json_loads (clean_response txt) = None -> decode_answer (GenText txt) = error_result.
Proof. intros E. simpl. by rewrite E. Qed.

Lemma find_best_match_exec_decode (md bio : string) (t : list gen_call) (v : json) :
  gen_exec (find_best_match md bio) t v <->
  exists a,
    t = [{| call_model := md;
            call_prompt := matchmaker_prompt bio (json_dumps developers_json);
            call_result := a |}] /\ v = decode_answer a.
Proof. unfold find_best_match. rewrite gen_exec_map. by setoid_rewrite gen_exec_generate. Qed.

(** C15: Every execution of [find_best_match] makes exactly one call to
    the selected model with the matchmaker prompt (the bio quoted, the
    roster serialised by [json.dumps]); the result is the sentinel
    [error_result] when the call failed or the cleaned answer does not
    decode, and the decoded value otherwise. *)
Theorem find_best_match_exec (md bio : string) (t : list gen_call) (v : json) :
  gen_exec (find_best_match md bio) t v <->
  exists a,
    t = [{| call_model := md;
            call_prompt := matchmaker_prompt bio (json_dumps developers_json);
            call_result := a |}] /\
    (a = GenFail /\ v = error_result \/
     exists txt, a = GenText txt /\
       (json_loads (clean_response txt) = None /\ v = error_result \/
        json_loads (clean_response txt) = Some v)).
Proof.
  rewrite find_best_match_exec_decode. split.
  - intros (a & -> & ->). exists a. split; [done |].
    destruct a as [txt|]; [right; exists txt; split; [done |] | by left].
    simpl. destruct (json_loads (clean_response txt)); [right | left]; done.
  - intros (a & -> & [[-> ->] | (txt & -> & [[E ->] | E])]).
    + by exists GenFail.
    + exists (GenText txt). simpl. by rewrite E.
    + exists (GenText txt). simpl. by rewrite E.
Qed.

End WithJsonProofs.

(** ** The answer as Python's [json] module reads it *)

Lemma string_of_list_snoc (l : list ascii) (d : ascii) :
  String.string_of_list_ascii (l ++ [d]) = String.string_of_list_ascii l +:+ String d "".
Proof. induction l as [|c l IH]; [done |]. simpl. by rewrite IH, string_app_cons. Qed.

(** A printed value neither starts nor ends with whitespace. *)
Lemma dumps_edges (v : json) : json_ok v = true -> edges_not_space (dumps v).
Proof.
  intros Hv. destruct (dumps_first v Hv) as (c & t & E1 & Hc).
  destruct (dumps_last v Hv) as (t' & d & E2 & Hd).
  assert (Hs : String.string_of_list_ascii (dumps_l v) = String c (String.string_of_list_ascii t))
    by (by rewrite E1).
  assert (Hr : String.rev (String.string_of_list_ascii (dumps_l v)) =
               String d (String.rev (String.string_of_list_ascii t')))
    by (by rewrite E2, string_of_list_snoc, string_rev_app).
  unfold dumps, edges_not_space. rewrite Hs. split; [by apply space_edges_ascii |].
  rewrite <- Hs, Hr. by apply space_edges_ascii.
Qed.

(** C31: With Python's [json] module, when the model answers the
    [json.dumps] printing of a value inside a markdown fence
    ([```json], newline, the JSON, newline, [```]), [find_best_match]
    makes its one call and returns exactly that value, for every value
    a Python program can hold whose printing has no backtick. *)
Theorem find_best_match_roundtrip (md bio : string) (v : json) :
  json_ok v = true -> char_free backtick (dumps v) = true ->
  let answer := fence_json +:+ nl +:+ dumps v +:+ nl +:+ fence in
  @decode_answer py_json (GenText answer) = v /\
  gen_exec (@find_best_match py_json md bio)
    [{| call_model := md;
        call_prompt := matchmaker_prompt bio (dumps developers_json);
        call_result := GenText answer |}] v.
Proof.
  intros Hv Hb answer.
  assert (Hd : @decode_answer py_json (GenText answer) = v).
  { apply decode_answer_text. cbn [json_loads py_json].
    subst answer. rewrite clean_fenced by (done || exact all_space_nl || by apply dumps_edges).
    by apply loads_of_dumps. }
  split; [done |]. apply find_best_match_exec_decode. by exists (GenText answer).
Qed.

(** Every roster member's quoted name occurs in the roster as
    [json.dumps] prints it (names are ASCII, printed unescaped). *)
Lemma roster_names_in_dump :
  Forall (fun p => (dq +:+ p_name p +:+ dq) in_str dumps developers_json) developers.
Proof. apply (bool_decide_unpack _). vm_compute. reflexivity. Qed.

(** C33: The matchmaker prompt shows the model the user's bio in
    quotes and every roster member's name, quoted as in the serialised
    roster, whatever the bio: the model is given the names it must
    choose from. *)
Theorem matchmaker_prompt_lists_roster (bio : string) :
  ("User Bio: " +:+ dq +:+ bio +:+ dq) in_str matchmaker_prompt bio (dumps developers_json) /\
  forall p, p ∈ developers ->
    (dq +:+ p_name p +:+ dq) in_str matchmaker_prompt bio (dumps developers_json).
Proof.
  split; [unfold matchmaker_prompt; solve_infix_lines |].
  intros p Hp. eapply str_infix_trans.
  - exact (proj1 (Forall_forall _ _) roster_names_in_dump p Hp).
  - unfold matchmaker_prompt. solve_infix_lines.
Qed.

(** The caller's roster search: when [match_result] is a dict with a
    string ["name"], it finds the roster member with that name, and
    raises [StopIteration] when there is none (a name the model made up);
    a non-string name also exhausts the generator; a dict without
    ["name"] raises [KeyError "name"] at the first candidate. *)
Lemma next_by_name_spec (fields : list (string * json)) :
  next_by_name (JObj fields) developers =
  match obj_lookup "name" fields with
  | None => inr (KeyError "name")
  | Some (JStr n) =>
      match find_persona n developers with
      | Some d => inl d
      | None => inr StopIteration
      end
  | Some _ => inr StopIteration
  end.
Proof.
  destruct (obj_lookup "name" fields) as [v|] eqn:E.
  - assert (Hgo : forall ds, next_by_name (JObj fields) ds =
      match v with
      | JStr n => match find_persona n ds with Some d => inl d | None => inr StopIteration end
      | _ => inr StopIteration
      end).
    { induction ds as [|d ds IH]; [by destruct v |].
      cbn [next_by_name py_getitem find_persona]. rewrite E.
      destruct v as [| | | |n| |]; try exact IH. simpl.
      rewrite String.eqb_sym. by destruct (String.eqb (p_name d) n). }
    apply Hgo.
  - unfold developers. cbn [next_by_name py_getitem]. by rewrite E.
Qed.

(** ** Witnesses *)

(** A no-break space (U+00A0) after the body. *)
Definition nbsp : string := String.string_of_list_ascii (utf8_encode_cp 0xA0).

Lemma clean_response_fenced_witness :
  clean_response (fence_json +:+ nl +:+ "{}" +:+ nbsp +:+ nl +:+ fence) = "{}".
Proof.
  rewrite (string_app_assoc nbsp).
  apply clean_response_fenced; [| | split; reflexivity | reflexivity].
  - exact all_space_nl.
  - exists [utf8_encode_cp 0xA0; [nl_char]].
    split; [repeat constructor; vm_compute; tauto | reflexivity].
Defined.

(** An answer naming someone who is not in the roster. *)
Definition made_up_answer : string :=
  dumps (JObj [("name", JStr "Zed Unknown"); ("reason", JStr "Good fit")]).


Definition alice_pick : json := JObj [("name", JStr "Alice Chen"); ("reason", JStr "UI focus")].

Lemma matchmaker_prompt_lists_roster_witness :
  (dq +:+ p_name (nth 0 developers (Build_persona 0 "" "" "" "" "" "")) +:+ dq)
    in_str matchmaker_prompt "loves Go backends" (dumps developers_json).
Proof.
  apply (proj2 (matchmaker_prompt_lists_roster "loves Go backends")).
  apply (bool_decide_unpack _). vm_compute. reflexivity.
Defined.

Lemma find_best_match_roundtrip_witness :
  json_ok alice_pick = true /\ char_free backtick (dumps alice_pick) = true /\
  @decode_answer py_json (GenText (fence_json +:+ nl +:+ dumps alice_pick +:+ nl +:+ fence))
    = alice_pick.
Proof.
  assert (H1 : json_ok alice_pick = true) by (vm_compute; reflexivity).
  assert (H2 : char_free backtick (dumps alice_pick) = true) by (vm_compute; reflexivity).
  split; [exact H1 |]. split; [exact H2 |].
  exact (proj1 (find_best_match_roundtrip "m" "bio" alice_pick H1 H2)).
Defined.
