(* ===== verification/Session.v ===== *)
(** * SessionState and the script run

    Streamlit executes src/app.py from the top on every interaction; what
    survives between runs is [st.session_state] (lines 26-28): the
    message log [messages], the [user_profile] ([None] when logged out)
    and the [selected_match] ([None] when no chat is open).

    One run is [page cfg ev]: a computation in the [script] monad (state
    passing over [session], early exit by [st.rerun()] or by an uncaught
    Python exception, calls to the model through [gen]).  [cfg] is the
    sidebar's configuration (API key and model listing) and [ev] the
    widget event of the run.  [page] composes the handlers the way the
    script does: the sidebar's Clear Chat button, then either the login
    form or the dashboard (logout button, browse tab, matchmaker tab,
    chat tab).

    [step] relates a session to the sessions one run can leave, for every
    configuration, event and answer of the model; [reachable] is its
    closure from the initial session. *)

From S2P Require Import Prelude PyStr Json PyJson Roster GenAI Roleplay Matchmaker.
From Stdlib Require Strings.Byte.

(** ** Data *)

(** An [UploadedFile]: the script reads [.name] and [.type]; the payload
    is only rendered.  [uf_opens] is whether PIL's [Image.open], which
    [st.image] calls on the payload, recognises its format: a property
    of [uf_data] that this development does not compute (PIL is not
    modelled); an SVG or HEIC file, typed [image/...], is one it does
    not open. *)
Record uploaded_file : Type := {
  uf_name : string;
  uf_type : string;
  uf_data : list Byte.byte;
  uf_opens : bool
}.

Inductive role : Type := RoleUser | RoleAssistant.

(** A message dict: ["role"], ["content"], and for a shared file the
    keys ["file_data"], ["file_type"], ["file_name"] ([m_file]). *)
Record message : Type := {
  m_role : role;
  m_content : string;
  m_file : option uploaded_file
}.

(** [{"name": name, "bio": bio}] (line 117). *)
Record profile : Type := {
  u_name : string;
  u_bio : string
}.

Record session : Type := {
  messages : list message;
  user_profile : option profile;
  selected_match : option persona
}.

#[export] Instance byte_eq_dec : EqDecision Byte.byte := Byte.byte_eq_dec.
#[export] Instance role_eq_dec : EqDecision role.
Proof. solve_decision. Defined.
#[export] Instance uploaded_file_eq_dec : EqDecision uploaded_file.
Proof. solve_decision. Defined.
#[export] Instance message_eq_dec : EqDecision message.
Proof. solve_decision. Defined.

(** Lines 26-28. *)
Definition init_session : session :=
  {| messages := []; user_profile := None; selected_match := None |}.

Definition set_messages (ms : list message) (s : session) : session :=
  {| messages := ms; user_profile := user_profile s; selected_match := selected_match s |}.

Definition set_profile (u : option profile) (s : session) : session :=
  {| messages := messages s; user_profile := u; selected_match := selected_match s |}.

(** [selected_match = dev; messages = []] (lines 145-146 and 157-158). *)
Definition select (d : persona) (s : session) : session :=
  {| messages := []; user_profile := user_profile s; selected_match := Some d |}.

Definition append_msg (m : message) (s : session) : session :=
  set_messages (messages s ++ [m]) s.

(** Lines 207-213. *)
Definition file_message (f : uploaded_file) : message :=
  {| m_role := RoleUser; m_content := "Shared a file: " +:+ uf_name f; m_file := Some f |}.

(** Line 218. *)
Definition user_text (p : string) : message :=
  {| m_role := RoleUser; m_content := p; m_file := None |}.

(** Line 231. *)
Definition assistant_text (r : string) : message :=
  {| m_role := RoleAssistant; m_content := r; m_file := None |}.

(** ** Events and configuration *)

(** The widget event of one run.  [ClickMessage id] is the button with
    key [btn_<id>]; [ClickSendFile] carries the uploader's current value;
    [SubmitChat] the text [st.chat_input] returns. *)
Inductive event : Type :=
| NoEvent
| ClickClearChat
| SubmitJoin (name bio : string)
| ClickLogout
| ClickMessage (id : Z)
| ClickFindMatch
| ClickSendFile (upload : option uploaded_file)
| SubmitChat (prompt : string).

#[export] Instance event_eq_dec : EqDecision event.
Proof. solve_decision. Defined.

(** The sidebar's inputs: the API key field and the result of
    [genai.list_models()] ([None] when it raised). *)
Record config : Type := {
  cfg_api_key : string;
  cfg_listing : option (list Discovery.model_info)
}.

(** ** The script monad *)

(** Why a run stopped early: [st.rerun()] or an uncaught exception. *)
Inductive stop : Type :=
| Rerun
| Raised (e : py_exc).

Definition script (A : Type) : Type := session -> gen (session * (stop + A)).

Definition sret {A} (a : A) : script A := fun s => GRet (s, inr a).

Definition sbind {A B} (m : script A) (f : A -> script B) : script B :=
  fun s => gen_bind (m s) (fun '(s1, r) =>
    match r with
    | inl e => GRet (s1, inl e)
    | inr a => f a s1
    end).

Definition get_s : script session := fun s => GRet (s, inr s).
Definition modify_s (f : session -> session) : script unit := fun s => GRet (f s, inr tt).
Definition stop_run {A} (e : stop) : script A := fun s => GRet (s, inl e).
Definition lift_gen {A} (m : gen A) : script A :=
  fun s => gen_bind m (fun a => GRet (s, inr a)).

Declare Scope script_scope.
Delimit Scope script_scope with script.
Notation "x <- m ;; k" := (sbind m (fun x => k))
  (at level 100, m at next level, right associativity) : script_scope.
Notation "m ;; k" := (sbind m (fun _ => k))
  (at level 100, right associativity) : script_scope.
Open Scope script_scope.

(** ** The handlers *)

(** Lines 51-53: the Clear Chat button. *)
Definition sidebar_clear (ev : event) : script unit :=
  match ev with
  | ClickClearChat => modify_s (set_messages []) ;; stop_run Rerun
  | _ => sret tt
  end.

(** Lines 111-118: the login form; joining needs a non-empty API key. *)
Definition login_form (api_key : string) (ev : event) : script unit :=
  match ev with
  | SubmitJoin n b =>
      if py_truthy api_key
      then modify_s (set_profile (Some {| u_name := n; u_bio := b |})) ;; stop_run Rerun
      else sret tt
  | _ => sret tt
  end.

(** Lines 127-129: the logout button. *)
Definition logout_button (ev : event) : script unit :=
  match ev with
  | ClickLogout => modify_s (set_profile None) ;; stop_run Rerun
  | _ => sret tt
  end.

(** Lines 137-147: one button per roster member. *)
Fixpoint browse_loop (ev : event) (ds : list persona) : script unit :=
  match ds with
  | [] => sret tt
  | dev :: ds' =>
      (if bool_decide (ev = ClickMessage (p_id dev)) then modify_s (select dev) else sret tt) ;;
      browse_loop ev ds'
  end.

(** Line 155: [match_result.get("name") != "Error"]. *)
Definition is_error_name (name : option json) : bool :=
  match name with
  | Some x => py_eq_str x "Error"
  | None => false
  end.

Definition raise_exc {A} (e : py_exc) : script A := stop_run (Raised e).

(** Lines 155-162: what the tab does with [find_best_match]'s result. *)
Definition handle_match_result (match_result : json) : script unit :=
  match py_get match_result "name" with
  | inr e => raise_exc e
  | inl name =>
      if is_error_name name then sret tt
      else
        match next_by_name match_result developers with
        | inr e => raise_exc e
        | inl full_profile =>
            modify_s (select full_profile) ;;
            match py_getitem match_result "reason" with
            | inr e => raise_exc e
            | inl _ => sret tt
            end
        end
  end.

Section WithJson.
Context `{!JsonLib}.

(** Lines 152-154: the matchmaker button. *)
Definition matchmaker_tab (model : string) (u : profile) (ev : event) : script unit :=
  match ev with
  | ClickFindMatch =>
      match_result <- lift_gen (find_best_match model (u_bio u)) ;;
      handle_match_result match_result
  | _ => sret tt
  end.
End WithJson.

(** Lines 221-222, evaluated after the user's message was appended:
    the file name of [messages[-2]] when it is a user message. *)
Definition file_context_of (ms : list message) : option string :=
  match py_index_neg ms 2 with
  | Some m =>
      match m_role m with
      | RoleUser => uf_name <$> m_file m
      | RoleAssistant => None
      end
  | None => None
  end.

(** Line 188: [st.image(msg["file_data"], ...)] for a file whose type
    contains ["image"]: Streamlit opens the payload with PIL, which
    raises when it cannot read the format. *)
Definition image_fails (f : uploaded_file) : bool :=
  str_infixb "image" (uf_type f) && negb (uf_opens f).

Definition msg_fails (m : message) : bool :=
  match m_file m with Some f => image_fails f | None => false end.

(** The history loop draws the log in order and stops at the first
    message whose image cannot be opened. *)
Definition history_breaks (ms : list message) : bool := existsb msg_fails ms.

(** Lines 174-192 as far as the run goes: the history loop raises or
    goes on. *)
Definition history_loop (ms : list message) : script unit :=
  if history_breaks ms then raise_exc UnidentifiedImageError else sret tt.

(** Lines 164-234: the chat tab: the history loop, then the two inputs. *)
Definition chat_tab (model : string) (ev : event) : script unit :=
  s <- get_s ;;
  match selected_match s with
  | None => sret tt
  | Some target =>
      history_loop (messages s) ;;
      (match ev with
       | ClickSendFile (Some f) => modify_s (append_msg (file_message f)) ;; stop_run Rerun
       | _ => sret tt
       end) ;;
      (match ev with
       | SubmitChat p =>
           if py_truthy p then
             modify_s (append_msg (user_text p)) ;;
             s1 <- get_s ;;
             reply <- lift_gen (chat_with_persona model p (p_name target)
                                  (file_context_of (messages s1))) ;;
             modify_s (append_msg (assistant_text reply))
           else sret tt
       | _ => sret tt
       end)
  end.

Section Page.
Context `{!JsonLib}.

(** The sidebar's [selected_model]. *)
Definition model_of (cfg : config) : string :=
  fst (Discovery.select_model (cfg_api_key cfg) (cfg_listing cfg)).

(** One run of the whole script (lines 26-234). *)
Definition page (cfg : config) (ev : event) : script unit :=
  sidebar_clear ev ;;
  s <- get_s ;;
  match user_profile s with
  | None => login_form (cfg_api_key cfg) ev
  | Some u =>
      logout_button ev ;;
      browse_loop ev developers ;;
      matchmaker_tab (model_of cfg) u ev ;;
      chat_tab (model_of cfg) ev
  end.

(** A run from [s] can leave the session [s'], for some configuration,
    event and answers of the model. *)
Inductive step (s s' : session) : Prop :=
| step_run cfg ev t r :
    gen_exec (page cfg ev s) t (s', r) -> step s s'.

Inductive reachable : session -> Prop :=
| reachable_init : reachable init_session
| reachable_step s s' : reachable s -> step s s' -> reachable s'.
End Page.

(** ** Executions of the script monad *)

(** The pure steps of the monad compute away; this tactic unfolds them. *)
Ltac script_norm :=
  cbn [sbind get_s modify_s sret stop_run raise_exc gen_bind] in *.

Lemma sbind_ret {A B} (a : A) (f : A -> script B) s : sbind (sret a) f s = f a s.
Proof. reflexivity. Qed.
Lemma sbind_get {B} (f : session -> script B) s : sbind get_s f s = f s s.
Proof. reflexivity. Qed.
Lemma sbind_modify {B} (g : session -> session) (f : unit -> script B) s :
  sbind (modify_s g) f s = f tt (g s).
Proof. reflexivity. Qed.
Lemma sbind_stop {A B} (e : stop) (f : A -> script B) s :
  sbind (stop_run e) f s = GRet (s, inl e).
Proof. reflexivity. Qed.
Lemma sbind_raise {A B} (e : py_exc) (f : A -> script B) s :
  sbind (raise_exc e) f s = GRet (s, inl (Raised e)).
Proof. reflexivity. Qed.

(** Binding a computation whose run is known. *)
Lemma sbind_det {A B} (m : script A) (f : A -> script B) s x :
  m s = GRet x ->
  sbind m f s = match x with (s1, inl e) => GRet (s1, inl e) | (s1, inr a) => f a s1 end.
Proof. intros H. unfold sbind. rewrite H. by destruct x as [? []]. Qed.

Create Rewrite HintDb script_rw.
#[export] Hint Rewrite @sbind_ret @sbind_get @sbind_modify @sbind_stop @sbind_raise
  : script_rw.

(** Normalise a run: apply the monad's computation rules, keeping the
    calls to the model ([lift_gen]) folded. *)
Ltac script_simp :=
  repeat progress (autorewrite with script_rw; cbv beta iota).

(** Continue a run after a computation whose result [H] gives. *)
Tactic Notation "sbind_with" uconstr(H) :=
  rewrite (sbind_det _ _ _ _ H); script_simp.

Lemma sexec_lift_bind {A B} (m : gen A) (f : A -> script B) s t s' r :
  gen_exec (sbind (lift_gen m) f s) t (s', r) <->
  exists a t1 t2, t = t1 ++ t2 /\ gen_exec m t1 a /\ gen_exec (f a s) t2 (s', r).
Proof.
  unfold sbind, lift_gen. rewrite gen_exec_bind. split.
  - intros ([s1 [e|a]] & t1 & t2 & -> & H1 & H2);
      apply gen_exec_bind in H1 as (a' & t1' & t1'' & -> & Hm & Hr);
      apply gen_exec_ret_iff in Hr as [-> [=]]; subst.
    exists a', t1', t2. by rewrite app_nil_r.
  - intros (a & t1 & t2 & -> & Hm & Hf). exists (s, inr a), t1, t2.
    split; [done |]. split; [| done].
    apply gen_exec_bind. exists a, t1, []. rewrite app_nil_r.
    split; [done |]. split; [done | constructor].
Qed.

(** The result of a pure (call-free) computation. *)
Lemma sexec_pure {A} (x : session * (stop + A)) (m : gen (session * (stop + A))) t s' r :
  m = GRet x -> gen_exec m t (s', r) <-> t = [] /\ (s', r) = x.
Proof. intros ->. apply gen_exec_ret_iff. Qed.

(** ** The browse tab *)

(** The effect of the browse tab: the roster member whose button was
    clicked becomes the selection and the log is emptied. *)
Fixpoint find_by_id (id : Z) (ds : list persona) : option persona :=
  match ds with
  | [] => None
  | d :: ds' => if bool_decide (p_id d = id) then Some d else find_by_id id ds'
  end.

Definition browse_effect (ev : event) (s : session) : session :=
  match ev with
  | ClickMessage id =>
      match find_by_id id developers with
      | Some d => select d s
      | None => s
      end
  | _ => s
  end.

Lemma browse_loop_none (ev : event) (ds : list persona) (s : session) :
  (forall d, d ∈ ds -> ev <> ClickMessage (p_id d)) ->
  browse_loop ev ds s = GRet (s, inr tt).
Proof.
  induction ds as [|d ds IH]; intros Hds; [done |]. simpl.
  rewrite bool_decide_false by (apply Hds; left). script_norm.
  apply IH. intros d' Hd'. apply Hds. by right.
Qed.

Lemma browse_loop_unique (ev : event) (ds : list persona) (s : session) :
  NoDup (map p_id ds) ->
  browse_loop ev ds s =
  GRet (match ev with
        | ClickMessage id =>
            match find_by_id id ds with Some d => select d s | None => s end
        | _ => s
        end, inr tt).
Proof.
  revert s. induction ds as [|d ds IH]; intros s Hnd; [by destruct ev |].
  apply NoDup_cons in Hnd as [Hd Hnd]. simpl.
  destruct (bool_decide (ev = ClickMessage (p_id d))) eqn:E; script_norm.
  - apply bool_decide_eq_true in E as ->. rewrite bool_decide_true by done.
    apply browse_loop_none. intros d' Hd' [= Hid]. apply Hd. rewrite Hid.
    apply list_elem_of_In, in_map, list_elem_of_In, Hd'.
  - rewrite IH by done. apply bool_decide_eq_false in E.
    destruct ev; try done. by rewrite bool_decide_false by congruence.
Qed.

Lemma browse_loop_developers (ev : event) (s : session) :
  browse_loop ev developers s = GRet (browse_effect ev s, inr tt).
Proof. rewrite browse_loop_unique by apply developers_ids_unique. by destruct ev. Qed.

Lemma find_by_id_in (id : Z) (ds : list persona) (d : persona) :
  find_by_id id ds = Some d -> d ∈ ds /\ p_id d = id.
Proof.
  induction ds as [|d' ds IH]; simpl; [done |].
  case_bool_decide as E.
  - intros [= <-]. split; [left | done].
  - intros H. destruct (IH H). split; [by right | done].
Qed.

(** ** The matchmaker tab *)

(** Lines 155-162 on a decoded dict: the sentinel name ["Error"] is
    ignored; a missing ["name"] raises [KeyError]; a name that is no
    roster member (or not a string) raises [StopIteration]; a roster name
    selects that persona and empties the log, after which a missing
    ["reason"] raises [KeyError]. *)
Lemma handle_match_result_obj (fields : list (string * json)) (s : session) :
  handle_match_result (JObj fields) s =
  GRet (match obj_lookup "name" fields with
        | None => (s, inl (Raised (KeyError "name")))
        | Some (JStr n) =>
            if String.eqb n "Error" then (s, inr tt)
            else match find_persona n developers with
                 | None => (s, inl (Raised StopIteration))
                 | Some d =>
                     (select d s,
                      match obj_lookup "reason" fields with
                      | Some _ => inr tt
                      | None => inl (Raised (KeyError "reason"))
                      end)
                 end
        | Some _ => (s, inl (Raised StopIteration))
        end).
Proof.
  unfold handle_match_result. cbn [py_get]. rewrite next_by_name_spec.
  destruct (obj_lookup "name" fields) as [v|] eqn:E; [| done].
  destruct v as [| | | |n| |]; cbn [is_error_name py_eq_str]; try done.
  destruct (String.eqb n "Error"); [done |].
  destruct (find_persona n developers); [| done].
  script_simp. cbn [py_getitem]. by destruct (obj_lookup "reason" fields).
Qed.

(** Any value that is not a dict makes [.get] raise [AttributeError]. *)
Lemma handle_match_result_not_obj (v : json) (s : session) :
  (forall fields, v <> JObj fields) ->
  handle_match_result v s = GRet (s, inl (Raised AttributeError)).
Proof. intros H. destruct v; try done. by destruct (H fields). Qed.

(** ** The chat tab *)

(** How the history loop ends the chat tab of [s] when nothing else
    happens in it. *)
Definition history_result (s : session) : stop + unit :=
  match selected_match s with
  | Some _ => if history_breaks (messages s) then inl (Raised UnidentifiedImageError) else inr tt
  | None => inr tt
  end.

Lemma history_result_select (d : persona) (s : session) : history_result (select d s) = inr tt.
Proof. reflexivity. Qed.

Lemma history_result_clear (s : session) : history_result (set_messages [] s) = inr tt.
Proof. unfold history_result. cbn. by destruct (selected_match s). Qed.

Lemma chat_tab_no_selection (md : string) (ev : event) (s : session) :
  selected_match s = None -> chat_tab md ev s = GRet (s, inr tt).
Proof. intros H. unfold chat_tab. script_simp. by rewrite H. Qed.

(** A log with an image PIL cannot open: the chat tab raises in its
    history loop, before any input is handled. *)
Lemma chat_tab_broken (md : string) (ev : event) (s : session) (target : persona) :
  selected_match s = Some target -> history_breaks (messages s) = true ->
  chat_tab md ev s = GRet (s, inl (Raised UnidentifiedImageError)).
Proof. intros H Hb. unfold chat_tab, history_loop. script_simp. rewrite H, Hb. done. Qed.

(** Sending a file appends one message and reruns; no call is made. *)
Lemma chat_tab_send_file (md : string) (f : uploaded_file) (s : session) (target : persona) :
  selected_match s = Some target -> history_breaks (messages s) = false ->
  chat_tab md (ClickSendFile (Some f)) s = GRet (append_msg (file_message f) s, inl Rerun).
Proof. intros H Hb. unfold chat_tab, history_loop. script_simp. by rewrite H, Hb. Qed.

(** Sending a non-empty text appends the user's message, asks the
    persona for a reply with the file context read from the log, and
    appends the reply. *)
Lemma chat_tab_send_text (md p : string) (s : session) (target : persona) t s' r :
  selected_match s = Some target -> history_breaks (messages s) = false -> py_truthy p = true ->
  gen_exec (chat_tab md (SubmitChat p) s) t (s', r) <->
  exists reply,
    gen_exec (chat_with_persona md p (p_name target)
                (file_context_of (messages s ++ [user_text p]))) t reply /\
    s' = append_msg (assistant_text reply) (append_msg (user_text p) s) /\ r = inr tt.
Proof.
  intros Hsel Hb Hp. unfold chat_tab, history_loop. script_simp. rewrite Hsel, Hb. script_simp.
  rewrite Hp. script_simp. rewrite sexec_lift_bind. script_simp. split.
  - intros (reply & t1 & t2 & -> & H1 & H2). apply gen_exec_ret_iff in H2 as [-> [= -> ->]].
    exists reply. by rewrite app_nil_r.
  - intros (reply & H & -> & ->). exists reply, t, []. rewrite app_nil_r.
    split; [done |]. split; [done | constructor].
Qed.

(** Every other event leaves the chat tab to its history loop. *)
Lemma chat_tab_other (md : string) (ev : event) (s : session) :
  (forall f, ev <> ClickSendFile (Some f)) -> (forall p, ev <> SubmitChat p) ->
  chat_tab md ev s = GRet (s, history_result s).
Proof.
  intros H1 H2. unfold chat_tab, history_loop, history_result. script_simp.
  destruct (selected_match s); [| done]. destruct (history_breaks (messages s)); [done |].
  script_simp. destruct ev as [| | | | | |[f|]|q]; script_simp; try done.
  - by destruct (H1 f).
  - by destruct (H2 q).
Qed.

Lemma chat_tab_empty_text (md p : string) (s : session) :
  py_truthy p = false -> chat_tab md (SubmitChat p) s = GRet (s, history_result s).
Proof.
  intros Hp. unfold chat_tab, history_loop, history_result. script_simp.
  destruct (selected_match s); [| done]. destruct (history_breaks (messages s)); [done |].
  script_simp. by rewrite Hp.
Qed.

(** How a run ends when the matchmaker tab ended as [r1] and the chat
    tab only runs its history loop on [s1]. *)
Definition after_matchmaker (s1 : session) (r1 : stop + unit) : stop + unit :=
  match r1 with inl e => inl e | inr _ => history_result s1 end.

(** A continuation that leaves the state and ends as [g] says. *)
Lemma sexec_bind_end {A} (m : script A) (f : A -> script unit) (g : session -> stop + unit)
    s t s' r :
  (forall a s1, f a s1 = GRet (s1, g s1)) ->
  gen_exec (sbind m f s) t (s', r) <->
  exists r0, gen_exec (m s) t (s', r0) /\
             r = match r0 with inl e => inl e | inr _ => g s' end.
Proof.
  intros Hf. unfold sbind. rewrite gen_exec_bind. split.
  - intros ([s1 r0] & t1 & t2 & -> & H1 & H2). destruct r0 as [e|a].
    + apply gen_exec_ret_iff in H2 as [-> [= -> ->]]. exists (inl e). by rewrite app_nil_r.
    + rewrite Hf in H2. apply gen_exec_ret_iff in H2 as [-> [= -> ->]].
      exists (inr a). by rewrite app_nil_r.
  - intros (r0 & H & ->). exists (s', r0), t, []. rewrite app_nil_r.
    split; [done |]. split; [done |]. destruct r0; [constructor | rewrite Hf; constructor].
Qed.

(** The handling of a decoded answer is a pure computation. *)
Lemma handle_match_result_pure (v : json) (s : session) :
  exists x, handle_match_result v s = GRet x.
Proof.
  destruct v as [| | | | | |fields]; try (eexists; by apply handle_match_result_not_obj).
  eexists. apply handle_match_result_obj.
Qed.

(** ** One run of the page, event by event *)

Section PageRuns.
Context `{!JsonLib}.

Lemma page_clear (cfg : config) (s : session) :
  page cfg ClickClearChat s = GRet (set_messages [] s, inl Rerun).
Proof. reflexivity. Qed.

Lemma page_logged_out (cfg : config) (ev : event) (s : session) :
  user_profile s = None -> ev <> ClickClearChat ->
  page cfg ev s = login_form (cfg_api_key cfg) ev s.
Proof.
  intros Hu Hev. unfold page, sidebar_clear.
  destruct ev; try done; script_simp; by rewrite Hu.
Qed.

(** The dashboard for an event other than Clear Chat. *)
Lemma page_logged_in (cfg : config) (ev : event) (s : session) (u : profile) :
  user_profile s = Some u -> ev <> ClickClearChat ->
  page cfg ev s =
  sbind (logout_button ev) (fun _ =>
    browse_loop ev developers ;;
    matchmaker_tab (model_of cfg) u ev ;;
    chat_tab (model_of cfg) ev) s.
Proof.
  intros Hu Hev. unfold page, sidebar_clear.
  destruct ev; try done; script_simp; by rewrite Hu.
Qed.

Lemma page_logout (cfg : config) (s : session) (u : profile) :
  user_profile s = Some u -> page cfg ClickLogout s = GRet (set_profile None s, inl Rerun).
Proof. intros Hu. by rewrite (page_logged_in _ _ _ u). Qed.

Lemma page_message (cfg : config) (id : Z) (s : session) (u : profile) :
  user_profile s = Some u ->
  page cfg (ClickMessage id) s =
  GRet (browse_effect (ClickMessage id) s, history_result (browse_effect (ClickMessage id) s)).
Proof.
  intros Hu. rewrite (page_logged_in _ _ _ u) by done. unfold logout_button. script_simp.
  sbind_with (browse_loop_developers _ _).
  apply chat_tab_other; done.
Qed.

(** The events the dashboard ignores: only the chat tab's history loop
    runs. *)
Lemma page_inert (cfg : config) (ev : event) (s : session) (u : profile) :
  user_profile s = Some u ->
  ev = NoEvent \/ (exists n b, ev = SubmitJoin n b) ->
  page cfg ev s = GRet (s, history_result s).
Proof.
  intros Hu Hev. rewrite (page_logged_in _ _ _ u) by (destruct Hev as [->|(?&?&->)]; done).
  destruct Hev as [->|(n & b & ->)]; unfold logout_button; script_simp;
    sbind_with (browse_loop_developers _ _); apply chat_tab_other; done.
Qed.

Lemma page_send_file (cfg : config) (f : option uploaded_file) (s : session) (u : profile) :
  user_profile s = Some u ->
  page cfg (ClickSendFile f) s =
  match f, selected_match s with
  | Some f, Some _ =>
      if history_breaks (messages s) then GRet (s, inl (Raised UnidentifiedImageError))
      else GRet (append_msg (file_message f) s, inl Rerun)
  | _, _ => GRet (s, history_result s)
  end.
Proof.
  intros Hu. rewrite (page_logged_in _ _ _ u) by done. unfold logout_button. script_simp.
  sbind_with (browse_loop_developers _ _). cbn [browse_effect].
  destruct (selected_match s) as [target|] eqn:Hsel;
    [| destruct f; (transitivity (GRet (A:=session * (stop + unit)) (s, inr tt));
                    [by apply chat_tab_no_selection | unfold history_result; by rewrite Hsel])].
  destruct f as [f|]; [| by apply chat_tab_other].
  destruct (history_breaks (messages s)) eqn:Hb;
    [by apply (chat_tab_broken _ _ _ target) | by apply (chat_tab_send_file _ _ _ target)].
Qed.

Lemma page_send_text (cfg : config) (p : string) (s : session) (u : profile) t s' r :
  user_profile s = Some u ->
  gen_exec (page cfg (SubmitChat p) s) t (s', r) <->
  gen_exec (chat_tab (model_of cfg) (SubmitChat p) s) t (s', r).
Proof.
  intros Hu. rewrite (page_logged_in _ _ _ u) by done. unfold logout_button. script_simp.
  by sbind_with (browse_loop_developers _ _).
Qed.


(** The matchmaker run: one call with the user's bio, then the
    handling of the decoded answer. *)
Lemma page_find_match (cfg : config) (s : session) (u : profile) t s' r :
  user_profile s = Some u ->
  gen_exec (page cfg ClickFindMatch s) t (s', r) <->
  exists a,
    t = [{| call_model := model_of cfg;
            call_prompt := matchmaker_prompt (u_bio u) (json_dumps developers_json);
            call_result := a |}] /\
    exists r1, handle_match_result (decode_answer a) s = GRet (s', r1) /\
      r = after_matchmaker s' r1.
Proof.
  intros Hu. rewrite (page_logged_in _ _ _ u) by done. unfold logout_button. script_simp.
  sbind_with (browse_loop_developers _ _). cbn [browse_effect].
  rewrite (sexec_bind_end _ _ history_result) by (intros; by apply chat_tab_other).
  unfold matchmaker_tab. cbv beta iota. setoid_rewrite sexec_lift_bind.
  setoid_rewrite find_best_match_exec_decode. split.
  - intros (r0 & (v & t1 & t2 & -> & (a & -> & ->) & H2) & ->).
    exists a. destruct (handle_match_result_pure (decode_answer a) s) as [[s1 r1] Hx].
    cbv beta in H2. rewrite Hx in H2. apply gen_exec_ret_iff in H2 as [-> [= -> ->]].
    split; [done |]. exists r1. split; [done |]. by destruct r1 as [|[]].
  - intros (a & -> & r1 & Hx & ->). exists r1. split; [| by destruct r1 as [|[]]].
    exists (decode_answer a),
      [{| call_model := model_of cfg;
          call_prompt := matchmaker_prompt (u_bio u) (json_dumps developers_json);
          call_result := a |}], [].
    rewrite app_nil_r.
    split; [done |]. split; [by exists a |]. rewrite Hx. constructor.
Qed.
End PageRuns.

(** ** What a run can do to the session *)

(** The effect of one run, whatever the event and the model's answers:
    nothing, Clear Chat, a login (when logged out) or a logout (when
    logged in), and, logged in: selecting a roster persona (browse or
    matchmaker), sharing a file or a chat turn with an open chat whose
    log the history loop draws without raising. *)
Inductive run_effect (s : session) : session -> Prop :=
| eff_none : run_effect s s
| eff_clear : run_effect s (set_messages [] s)
| eff_login u : user_profile s = None -> run_effect s (set_profile (Some u) s)
| eff_logout : user_profile s <> None -> run_effect s (set_profile None s)
| eff_select d :
    user_profile s <> None -> d ∈ developers -> run_effect s (select d s)
| eff_file f :
    user_profile s <> None -> selected_match s <> None -> history_breaks (messages s) = false ->
    run_effect s (append_msg (file_message f) s)
| eff_turn p reply :
    user_profile s <> None -> selected_match s <> None -> py_truthy p = true ->
    history_breaks (messages s) = false ->
    run_effect s (append_msg (assistant_text reply) (append_msg (user_text p) s)).

#[export] Hint Constructors run_effect : dc.

Lemma gret_effect {A} (s : session) (x : session * A) t s' (r : A) :
  gen_exec (GRet x) t (s', r) -> run_effect s (fst x) -> run_effect s s'.
Proof. intros H. apply gen_exec_ret_iff in H as [_ Hx]. by rewrite <- Hx. Qed.

Lemma browse_effect_run (ev : event) (s : session) :
  user_profile s <> None -> run_effect s (browse_effect ev s).
Proof.
  intros Hu. destruct ev; unfold browse_effect; try constructor.
  destruct (find_by_id id developers) as [d|] eqn:E; [| constructor].
  constructor; [done |]. by apply (find_by_id_in id).
Qed.

Lemma handle_match_result_effect (v : json) (s : session) x :
  user_profile s <> None -> handle_match_result v s = GRet x -> run_effect s (fst x).
Proof.
  intros Hu. destruct v as [| | | | | |fields]; try (rewrite handle_match_result_not_obj by done;
    intros [= <-]; constructor).
  rewrite handle_match_result_obj.
  destruct (obj_lookup "name" fields) as [[| | | |n| |]|]; try (intros [= <-]; constructor).
  destruct (String.eqb n "Error"); [intros [= <-]; constructor |].
  destruct (find_persona n developers) as [d|] eqn:E; intros [= <-]; [| constructor].
  constructor; [done |]. by apply (find_persona_sound n).
Qed.

Section Effects.
Context `{!JsonLib}.

Lemma page_run_effect (cfg : config) (ev : event) (s : session) t s' r :
  gen_exec (page cfg ev s) t (s', r) -> run_effect s s'.
Proof.
  intros Hr. destruct (decide (ev = ClickClearChat)) as [->|Hclr].
  { rewrite page_clear in Hr. by apply (gret_effect _ _ _ _ _ Hr); constructor. }
  destruct (user_profile s) as [u|] eqn:Hu.
  2:{ rewrite page_logged_out in Hr by done. unfold login_form in Hr.
      destruct ev; try (apply (gret_effect _ _ _ _ _ Hr); constructor).
      destruct (py_truthy (cfg_api_key cfg)); script_simp;
        apply (gret_effect _ _ _ _ _ Hr); by constructor. }
  assert (Hin : user_profile s <> None) by congruence.
  destruct ev as [| |n b| |id| |f|p]; try done.
  - rewrite (page_inert _ _ _ u) in Hr by eauto. apply (gret_effect _ _ _ _ _ Hr); constructor.
  - rewrite (page_inert _ _ _ u) in Hr by eauto. apply (gret_effect _ _ _ _ _ Hr); constructor.
  - rewrite (page_logout _ _ u) in Hr by done. apply (gret_effect _ _ _ _ _ Hr); by constructor.
  - rewrite (page_message _ _ _ u) in Hr by done.
    by apply (gret_effect _ _ _ _ _ Hr), browse_effect_run.
  - apply (page_find_match _ _ u) in Hr as (a & _ & r1 & Hx & _); [| done].
    by apply (handle_match_result_effect _ _ _ Hin Hx).
  - rewrite (page_send_file _ _ _ u) in Hr by done.
    destruct f as [f|], (selected_match s) eqn:Hsel; try destruct (history_breaks _) eqn:Hb;
      apply (gret_effect _ _ _ _ _ Hr); simpl; try constructor; congruence.
  - apply (page_send_text _ _ _ u) in Hr; [| done].
    destruct (selected_match s) as [target|] eqn:Hsel.
    + destruct (history_breaks (messages s)) eqn:Hb.
      { rewrite (chat_tab_broken _ _ _ target) in Hr by done.
        apply (gret_effect _ _ _ _ _ Hr); constructor. }
      destruct (py_truthy p) eqn:Hp.
      * apply (chat_tab_send_text _ _ _ target) in Hr as (reply & _ & -> & _); [| done..].
        constructor; congruence.
      * rewrite chat_tab_empty_text in Hr by done. apply (gret_effect _ _ _ _ _ Hr); constructor.
    + rewrite chat_tab_no_selection in Hr by done. apply (gret_effect _ _ _ _ _ Hr); constructor.
Qed.

Lemma step_run_effect (s s' : session) : step s s' -> run_effect s s'.
Proof. intros [cfg ev t r Hr]. by eapply page_run_effect. Qed.
End Effects.

(** ** Invariants of reachable sessions *)

(** The shape of the log: a sequence of shared files and of chat turns,
    each turn a non-empty user text followed by the assistant's reply. *)
Inductive log_wf : list message -> Prop :=
| log_wf_nil : log_wf []
| log_wf_file ms f : log_wf ms -> log_wf (ms ++ [file_message f])
| log_wf_turn ms p reply :
    py_truthy p = true -> log_wf ms -> log_wf (ms ++ [user_text p; assistant_text reply]).

(** The selection is a roster persona (or none), and the log is
    well formed. *)
Definition session_wf (s : session) : Prop :=
  (forall p, selected_match s = Some p -> p ∈ developers) /\ log_wf (messages s).

Lemma run_effect_wf (s s' : session) : session_wf s -> run_effect s s' -> session_wf s'.
Proof.
  intros [Hsel Hlog] Heff. destruct Heff as [| |u _| _|d _ Hd|f _ _ _|p reply _ _ Hp _];
    unfold session_wf; cbn [messages selected_match select set_messages
                             set_profile append_msg] in *.
  - done.
  - split; [done | constructor].
  - split; [done | done].
  - split; [done | done].
  - split; [by intros p [= <-] | constructor].
  - split; [done | by constructor].
  - split; [done |]. rewrite <- app_assoc. by constructor.
Qed.

Section Reachable.
Context `{!JsonLib}.

Lemma reachable_selection_in_roster (s : session) (p : persona) :
  reachable s -> selected_match s = Some p -> p ∈ developers.
Proof.
  intros Hr. revert p. induction Hr as [|s s' _ IH Hstep]; [done |].
  apply step_run_effect in Hstep.
  destruct Hstep as [| |u _| _|d _ Hd|f _ _ _|q reply _ _ _ _]; simpl; try done.
  by intros p [= <-].
Qed.

(** C1: Every reachable session is well formed: the selected persona is
    always a member of the roster (the browse buttons and the
    matchmaker only select roster dicts), and the message log is a
    sequence of shared files and of (user text, assistant reply) pairs,
    so no user text is ever left without its reply. *)
Theorem reachable_wf (s : session) : reachable s -> session_wf s.
Proof.
  induction 1 as [|s s' _ IH Hstep].
  - split; [done | constructor].
  - by apply (run_effect_wf s), step_run_effect.
Qed.

(** C2: In a reachable session the chat target is always found by
    [chat_with_persona]'s lookup, so sending a non-empty message makes
    exactly one call to the selected model, with the role-play prompt
    of the selected persona, and appends exactly two messages: the
    user's text and the model's reply, or ["..."] when the call
    failed; the in-band ["Error: User left."] is never produced.  The
    one exception is a log holding an image PIL cannot open: the
    history loop, drawn before the input is handled, then raises
    [UnidentifiedImageError], and the text is dropped without a call. *)
Theorem reachable_send_text (cfg : config) (s : session) (u : profile) (target : persona)
    (p : string) t s' r :
  reachable s -> user_profile s = Some u -> selected_match s = Some target ->
  py_truthy p = true ->
  gen_exec (page cfg (SubmitChat p) s) t (s', r) <->
  if history_breaks (messages s) then t = [] /\ s' = s /\ r = inl (Raised UnidentifiedImageError)
  else
    exists a,
      t = [{| call_model := model_of cfg;
              call_prompt := roleplay_prompt target p
                (file_instruction (file_context_of (messages s ++ [user_text p])));
              call_result := a |}] /\
      s' = append_msg (assistant_text (reply_of a)) (append_msg (user_text p) s) /\
      r = inr tt.
Proof.
  intros Hr Hu Hsel Hp. rewrite (page_send_text _ _ _ u) by done.
  destruct (history_breaks (messages s)) eqn:Hb.
  { rewrite (chat_tab_broken _ _ _ target), gen_exec_ret_iff by done. naive_solver. }
  rewrite (chat_tab_send_text _ _ _ target) by done.
  setoid_rewrite (chat_with_persona_found _ _ _ target).
  - naive_solver.
  - apply (dir_find_complete (find := fun n => find_persona n developers)).
    by apply (reachable_selection_in_roster s).
Qed.
End Reachable.

(** ** The handlers' behaviour *)

Lemma find_by_id_complete (ds : list persona) (d : persona) :
  NoDup (map p_id ds) -> d ∈ ds -> find_by_id (p_id d) ds = Some d.
Proof.
  induction ds as [|d' ds IH]; intros Hnd Hd; [by apply elem_of_nil in Hd |].
  simpl in Hnd. apply NoDup_cons in Hnd as [Hd' Hnd]. simpl.
  apply elem_of_cons in Hd as [->|Hd]; [by rewrite bool_decide_true |].
  case_bool_decide as E; [| by apply IH].
  exfalso. apply Hd'. rewrite E. apply list_elem_of_In, in_map, list_elem_of_In, Hd.
Qed.

Section Handlers.
Context `{!JsonLib}.

(** C6: Clicking a roster member's button on the browse tab selects
    that member and empties the message log, whatever its length, and
    keeps the profile; no call is made and the run completes. *)
Theorem browse_select (cfg : config) (s : session) (u : profile) (d : persona) t s' r :
  user_profile s = Some u -> d ∈ developers ->
  gen_exec (page cfg (ClickMessage (p_id d)) s) t (s', r) ->
  t = [] /\ r = inr tt /\ selected_match s' = Some d /\ messages s' = [] /\
  user_profile s' = user_profile s.
Proof.
  intros Hu Hd Hr. rewrite (page_message _ _ _ u) in Hr by done.
  assert (E : browse_effect (ClickMessage (p_id d)) s = select d s).
  { unfold browse_effect.
    by rewrite find_by_id_complete by (done || apply developers_ids_unique). }
  rewrite E in Hr. by apply gen_exec_ret_iff in Hr as [-> [= -> ->]].
Qed.

(** Clear Chat, in any state, empties the log and keeps the profile
    and the selection (then reruns); clearing twice leaves the same
    session as clearing once. *)
Theorem clear_chat_idempotent (cfg : config) (s : session) :
  page cfg ClickClearChat s = GRet (set_messages [] s, inl Rerun) /\
  page cfg ClickClearChat (set_messages [] s) = GRet (set_messages [] s, inl Rerun) /\
  user_profile (set_messages [] s) = user_profile s /\
  selected_match (set_messages [] s) = selected_match s.
Proof. by rewrite !page_clear. Qed.

(** C7: Logout clears the profile only: the selected persona and the
    whole message log survive it, so after the next login the old chat
    is shown again (the spec says logout discards the selection and the
    log). *)
Theorem logout_keeps_chat (cfg : config) (s : session) (u : profile) t s' r :
  user_profile s = Some u ->
  gen_exec (page cfg ClickLogout s) t (s', r) ->
  user_profile s' = None /\ selected_match s' = selected_match s /\
  messages s' = messages s /\ r = inl Rerun.
Proof.
  intros Hu Hr. rewrite (page_logout _ _ u) in Hr by done.
  by apply gen_exec_ret_iff in Hr as [-> [= -> ->]].
Qed.

(** C9: Joining needs a non-empty API key: a logged-out session submits
    the form and becomes logged in with that name and bio (log and
    selection untouched), or nothing happens when the key is empty. *)
Theorem join_requires_key (cfg : config) (s : session) (n b : string) t s' r :
  user_profile s = None ->
  gen_exec (page cfg (SubmitJoin n b) s) t (s', r) ->
  t = [] /\
  (py_truthy (cfg_api_key cfg) = true /\
     s' = set_profile (Some {| u_name := n; u_bio := b |}) s /\ r = inl Rerun \/
   py_truthy (cfg_api_key cfg) = false /\ s' = s /\ r = inr tt).
Proof.
  intros Hu Hr. rewrite page_logged_out in Hr by done. unfold login_form in Hr.
  destruct (py_truthy (cfg_api_key cfg)); script_simp;
    apply gen_exec_ret_iff in Hr as [-> [= -> ->]]; (split; [done |]); [left | right]; done.
Qed.

(** C10: Sharing a file with an open chat appends exactly one message,
    the user's file message, and reruns without calling the model; if
    the log already holds an image PIL cannot open, the history loop
    (drawn first) raises [UnidentifiedImageError] and nothing is
    appended; without an open chat nothing happens. *)
Theorem send_file_one_message (cfg : config) (s : session) (u : profile)
    (f : uploaded_file) t s' r :
  user_profile s = Some u ->
  gen_exec (page cfg (ClickSendFile (Some f)) s) t (s', r) ->
  t = [] /\
  (selected_match s <> None /\ history_breaks (messages s) = false /\
     messages s' = messages s ++ [file_message f] /\ r = inl Rerun \/
   selected_match s <> None /\ history_breaks (messages s) = true /\
     s' = s /\ r = inl (Raised UnidentifiedImageError) \/
   selected_match s = None /\ s' = s).
Proof.
  intros Hu Hr. rewrite (page_send_file _ _ _ u) in Hr by done.
  destruct (selected_match s) eqn:Hsel; [destruct (history_breaks (messages s)) eqn:Hb |];
    apply gen_exec_ret_iff in Hr as [-> [= -> ->]]; (split; [done |]); naive_solver.
Qed.
End Handlers.

(** ** The file context of a reply *)

(** C11: The reply to a text is given a file context exactly when the
    message just before the text is a file the user shared, and the
    context is that file's name (lines 221-222, on a well-formed log). *)
Theorem file_context_pending (ms : list message) (p n : string) :
  log_wf ms ->
  file_context_of (ms ++ [user_text p]) = Some n <->
  exists ms0 f, ms = ms0 ++ [file_message f] /\ uf_name f = n.
Proof.
  intros Hwf. unfold file_context_of. rewrite py_index_neg_snoc_2.
  destruct Hwf as [|ms f _|ms q reply _ _].
  - split; [done |]. intros (ms0 & f & E & _). by destruct ms0.
  - rewrite last_snoc. split.
    + cbn. intros [= <-]. by exists ms, f.
    + intros (ms0 & f' & E & <-). apply app_inj_tail in E as [_ Hf].
      unfold file_message in Hf. injection Hf. intros; subst. done.
  - replace (ms ++ [user_text q; assistant_text reply])
      with ((ms ++ [user_text q]) ++ [assistant_text reply]) by (by rewrite <- app_assoc).
    rewrite last_snoc. split; [done |].
    intros (ms0 & f & E & _). apply app_inj_tail in E as [_ E]. discriminate.
Qed.

(** ** The matchmaker run *)

Section MatchRuns.
Context `{!JsonLib}.

(** The one call of a matchmaker run, answered [a]. *)
Definition match_call (cfg : config) (u : profile) (a : gen_result) : gen_call :=
  {| call_model := model_of cfg;
     call_prompt := matchmaker_prompt (u_bio u) (json_dumps developers_json);
     call_result := a |}.

Lemma page_find_match_answer (cfg : config) (s : session) (u : profile) a s' r :
  user_profile s = Some u ->
  gen_exec (page cfg ClickFindMatch s) [match_call cfg u a] (s', r) <->
  exists r1, handle_match_result (decode_answer a) s = GRet (s', r1) /\ r = after_matchmaker s' r1.
Proof.
  intros Hu. rewrite (page_find_match _ _ u) by done. split.
  - intros (a' & [= ->] & Hx). done.
  - intros Hx. by exists a.
Qed.

(** The end of a matchmaker run whose handling computed [x]. *)
Lemma find_match_end (x : session * (stop + unit)) s' r :
  (exists r1, GRet x = GRet (s', r1) /\ r = after_matchmaker s' r1) <->
  s' = x.1 /\ r = after_matchmaker x.1 x.2.
Proof. destruct x. split; [intros (r1 & [= -> ->] & ->) | intros [-> ->]; eexists]; done. Qed.

(** C3: When the model answers a dict whose ["name"] is a string that
    is neither ["Error"] nor a roster name, the run raises an uncaught
    [StopIteration] from [next(...)] and the session is unchanged: the
    made-up name is not reported as a failed match. *)
Theorem find_match_hallucinated (cfg : config) (s : session) (u : profile)
    (txt n : string) (fields : list (string * json)) s' r :
  user_profile s = Some u ->
  json_loads (clean_response txt) = Some (JObj fields) ->
  obj_lookup "name" fields = Some (JStr n) -> n <> "Error" ->
  (forall p, p ∈ developers -> p_name p <> n) ->
  gen_exec (page cfg ClickFindMatch s) [match_call cfg u (GenText txt)] (s', r) <->
  s' = s /\ r = inl (Raised StopIteration).
Proof.
  intros Hu Hj Hn Hne Hnot. rewrite (page_find_match_answer _ _ u) by done.
  rewrite (decode_answer_text _ _ Hj), handle_match_result_obj, Hn.
  rewrite (proj2 (String.eqb_neq _ _) Hne).
  pose proof (proj2 (dir_find_none developers _ n) Hnot) as E. cbv beta in E.
  rewrite E, find_match_end. done.
Qed.

(** C4: When the model names a roster persona, the run selects it and
    empties the log; if the answer has no ["reason"], [KeyError] is
    raised only after that, so the failed run has already changed the
    session. *)
Theorem find_match_selects (cfg : config) (s : session) (u : profile)
    (txt : string) (fields : list (string * json)) (d : persona) s' r :
  user_profile s = Some u -> d ∈ developers ->
  json_loads (clean_response txt) = Some (JObj fields) ->
  obj_lookup "name" fields = Some (JStr (p_name d)) ->
  gen_exec (page cfg ClickFindMatch s) [match_call cfg u (GenText txt)] (s', r) <->
  s' = select d s /\
  r = match obj_lookup "reason" fields with
      | Some _ => inr tt
      | None => inl (Raised (KeyError "reason"))
      end.
Proof.
  intros Hu Hd Hj Hn. rewrite (page_find_match_answer _ _ u) by done.
  rewrite (decode_answer_text _ _ Hj), handle_match_result_obj, Hn.
  assert (Hne : String.eqb (p_name d) "Error" = false).
  { apply String.eqb_neq. intros E. pose proof (dir_find_complete
      (find := fun n => find_persona n developers) d Hd) as F.
    cbv beta in F. rewrite E in F. by vm_compute in F. }
  rewrite Hne.
  pose proof (dir_find_complete (find := fun n => find_persona n developers) d Hd) as F.
  cbv beta in F. rewrite F, find_match_end. cbn [fst snd].
  by destruct (obj_lookup "reason" fields).
Qed.

(** C5: When the call fails, or the cleaned answer is not JSON (after
    the fences and every leading and trailing whitespace character,
    ASCII or Unicode, are stripped as Python does), the sentinel
    ["Error"] is returned and the matchmaker leaves the session
    unchanged and reports nothing: a failed match is silent.  The run
    then ends as the chat tab's history loop does: normally, or with
    [UnidentifiedImageError] when the open chat's log holds an image
    PIL cannot open. *)
Theorem find_match_failure_silent (cfg : config) (s : session) (u : profile)
    (a : gen_result) s' r :
  user_profile s = Some u ->
  (a = GenFail \/ exists txt, a = GenText txt /\ json_loads (clean_response txt) = None) ->
  gen_exec (page cfg ClickFindMatch s) [match_call cfg u a] (s', r) <->
  s' = s /\ r = history_result s.
Proof.
  intros Hu Ha. rewrite (page_find_match_answer _ _ u) by done.
  assert (E : decode_answer a = error_result).
  { destruct Ha as [-> | (txt & -> & Hj)]; [done |]. by apply decode_answer_undecodable. }
  rewrite E. unfold error_result. rewrite handle_match_result_obj, find_match_end. done.
Qed.
(** C18: The matchmaker on an answer that decodes to a JSON value that is
    not an object (a list, a string, a number, a boolean, null):
    [match_result.get("name")] raises [AttributeError], uncaught, and
    the session is unchanged. *)
Theorem find_match_non_dict (cfg : config) (s : session) (u : profile) (a : gen_result) s' r :
  user_profile s = Some u ->
  (forall fields, decode_answer a <> JObj fields) ->
  gen_exec (page cfg ClickFindMatch s) [match_call cfg u a] (s', r) <->
  s' = s /\ r = inl (Raised AttributeError).
Proof.
  intros Hu Hv. rewrite (page_find_match_answer _ _ u) by done.
  by rewrite handle_match_result_not_obj, find_match_end.
Qed.
End MatchRuns.

Section ClearRuns.
Context `{!JsonLib}.

(** C30: Clear Chat drops the context of a shared file: whatever the log
    held (in particular a file shared just before), after the Clear Chat
    run the next non-empty text is answered with exactly one call whose
    role-play prompt carries no file instruction, and the log becomes
    that text and its reply.  The spec's Clear Chat clears the message
    sequence and says nothing of a pending attachment. *)
Theorem clear_drops_file_context (cfg : config) (s : session) (u : profile) (target : persona)
    (p : string) t0 s1 r0 t s' r :
  user_profile s = Some u -> selected_match s = Some target -> target ∈ developers ->
  py_truthy p = true ->
  gen_exec (page cfg ClickClearChat s) t0 (s1, r0) ->
  gen_exec (page cfg (SubmitChat p) s1) t (s', r) ->
  exists a,
    t = [{| call_model := model_of cfg;
            call_prompt := roleplay_prompt target p (file_instruction None);
            call_result := a |}] /\
    messages s' = [user_text p; assistant_text (reply_of a)] /\ r = inr tt.
Proof.
  intros Hu Hsel Hd Hp H0 Hr. rewrite page_clear in H0.
  apply gen_exec_ret_iff in H0 as [_ [= -> _]].
  apply (page_send_text _ _ _ u) in Hr; [| exact Hu].
  apply (chat_tab_send_text _ _ _ target) in Hr as (reply & Hc & -> & ->);
    [| exact Hsel | reflexivity | exact Hp].
  apply (chat_with_persona_found _ _ _ target) in Hc as (a & -> & ->);
    [| by apply find_persona_complete; [apply developers_names_unique |]].
  by exists a.
Qed.
End ClearRuns.

Lemma reachable_run `{!JsonLib} oracle (cfg : config) (ev : event) (s s' : session) :
  reachable s -> fst (fst (gen_run oracle (page cfg ev s))) = s' -> reachable s'.
Proof.
  intros Hr <-. pose proof (gen_run_exec oracle (page cfg ev s)) as E.
  destruct (gen_run oracle (page cfg ev s)) as [[s1 r1] t1]. simpl in *.
  eapply reachable_step; [exact Hr | exact (step_run _ _ cfg ev t1 r1 E)].
Qed.

(** ** Witnesses *)

Module Witnesses.
Definition cfg0 : config := {| cfg_api_key := "key"; cfg_listing := None |}.
Definition sam : profile := {| u_name := "Sam"; u_bio := "loves Go backends" |}.
Definition s_joined : session := set_profile (Some sam) init_session.
Definition s_bob : session := select bob s_joined.
Definition answer_hey (_ _ : string) : gen_result := GenText "Hey".
Definition shot : uploaded_file :=
  {| uf_name := "shot.png"; uf_type := "image/png"; uf_data := []; uf_opens := true |}.

Lemma reachable_s_joined : @reachable py_json s_joined.
Proof.
  apply (reachable_run answer_hey cfg0 (SubmitJoin "Sam" "loves Go backends") init_session);
    [constructor | vm_compute; reflexivity].
Qed.

Lemma reachable_s_bob : @reachable py_json s_bob.
Proof.
  apply (reachable_run answer_hey cfg0 (ClickMessage 2) s_joined);
    [apply reachable_s_joined | vm_compute; reflexivity].
Qed.

Lemma bob_in_roster : bob ∈ developers.
Proof. apply list_elem_of_In. vm_compute. tauto. Qed.

Lemma reachable_wf_witness : @reachable py_json s_bob /\ session_wf s_bob.
Proof. split; [exact reachable_s_bob | exact (reachable_wf s_bob reachable_s_bob)]. Defined.

Lemma reachable_send_text_witness :
  @reachable py_json s_bob /\ user_profile s_bob = Some sam /\
  selected_match s_bob = Some bob /\ py_truthy "hi" = true /\
  gen_exec (@page py_json cfg0 (SubmitChat "hi") s_bob)
    [{| call_model := model_of cfg0;
        call_prompt := roleplay_prompt bob "hi"
          (file_instruction (file_context_of (messages s_bob ++ [user_text "hi"])));
        call_result := GenText "Hey" |}]
    (append_msg (assistant_text "Hey") (append_msg (user_text "hi") s_bob), inr tt).
Proof.
  assert (Hu : user_profile s_bob = Some sam) by reflexivity.
  assert (Hs : selected_match s_bob = Some bob) by reflexivity.
  assert (Hp : py_truthy "hi" = true) by reflexivity.
  split; [exact reachable_s_bob |]. split; [exact Hu |]. split; [exact Hs |].
  split; [exact Hp |].
  apply (reachable_send_text cfg0 s_bob sam bob "hi" _ _ _ reachable_s_bob Hu Hs Hp).
  assert (Hb : history_breaks (messages s_bob) = false) by reflexivity. rewrite Hb.
  by exists (GenText "Hey").
Defined.

Lemma browse_select_witness :
  user_profile s_joined = Some sam /\ bob ∈ developers /\
  selected_match (select bob s_joined) = Some bob.
Proof.
  assert (Hu : user_profile s_joined = Some sam) by reflexivity.
  assert (Hx : gen_exec (@page py_json cfg0 (ClickMessage (p_id bob)) s_joined) []
                 (select bob s_joined, inr tt))
    by (apply (gen_exec_of_run answer_hey); vm_compute; reflexivity).
  split; [exact Hu |]. split; [exact bob_in_roster |].
  exact (proj1 (proj2 (proj2 (browse_select cfg0 s_joined sam bob _ _ _ Hu bob_in_roster Hx)))).
Defined.

Lemma logout_keeps_chat_witness :
  user_profile s_bob = Some sam /\ selected_match (set_profile None s_bob) = Some bob.
Proof.
  assert (Hu : user_profile s_bob = Some sam) by reflexivity.
  assert (Hx : gen_exec (@page py_json cfg0 ClickLogout s_bob) []
                 (set_profile None s_bob, inl Rerun))
    by (apply (gen_exec_of_run answer_hey); vm_compute; reflexivity).
  split; [exact Hu |].
  rewrite (proj1 (proj2 (logout_keeps_chat cfg0 s_bob sam _ _ _ Hu Hx))). reflexivity.
Defined.

Lemma join_requires_key_witness :
  user_profile init_session = None /\
  gen_exec (@page py_json cfg0 (SubmitJoin "Sam" "loves Go backends") init_session) []
    (s_joined, inl Rerun) /\ py_truthy (cfg_api_key cfg0) = true.
Proof.
  assert (Hu : user_profile init_session = None) by reflexivity.
  assert (Hx : gen_exec (@page py_json cfg0 (SubmitJoin "Sam" "loves Go backends") init_session)
                 [] (s_joined, inl Rerun))
    by (apply (gen_exec_of_run answer_hey); vm_compute; reflexivity).
  split; [exact Hu |]. split; [exact Hx |].
  destruct (join_requires_key cfg0 init_session _ _ _ _ _ Hu Hx) as [_ [[Hk _] | [Hk _]]];
    [exact Hk | discriminate].
Defined.

Lemma send_file_one_message_witness :
  user_profile s_bob = Some sam /\
  messages (append_msg (file_message shot) s_bob) = messages s_bob ++ [file_message shot].
Proof.
  assert (Hu : user_profile s_bob = Some sam) by reflexivity.
  assert (Hx : gen_exec (@page py_json cfg0 (ClickSendFile (Some shot)) s_bob) []
                 (append_msg (file_message shot) s_bob, inl Rerun))
    by (apply (gen_exec_of_run answer_hey); vm_compute; reflexivity).
  split; [exact Hu |].
  destruct (send_file_one_message cfg0 s_bob sam shot _ _ _ Hu Hx)
    as [_ [(_ & _ & E & _) | [(_ & Hb & _) | [E _]]]]; [exact E | discriminate | discriminate].
Defined.

(** Sam shares a screenshot with Bob, clears the chat and says "hi". *)
Definition s_shot : session := append_msg (file_message shot) s_bob.
Definition run_after_clear := gen_run answer_hey (@page py_json cfg0 (SubmitChat "hi") (set_messages [] s_shot)).

Lemma clear_drops_file_context_witness :
  @gen_exec _ (@page py_json cfg0 ClickClearChat s_shot) [] (set_messages [] s_shot, inl Rerun) /\
  @gen_exec _ (@page py_json cfg0 (SubmitChat "hi") (set_messages [] s_shot))
    (snd run_after_clear) (fst (fst run_after_clear), snd (fst run_after_clear)) /\
  exists a,
    snd run_after_clear = [{| call_model := model_of cfg0;
                              call_prompt := roleplay_prompt bob "hi" (file_instruction None);
                              call_result := a |}].
Proof.
  assert (H0 : @gen_exec _ (@page py_json cfg0 ClickClearChat s_shot) []
                 (set_messages [] s_shot, inl Rerun))
    by (apply (gen_exec_of_run answer_hey); vm_compute; reflexivity).
  assert (H1 : @gen_exec _ (@page py_json cfg0 (SubmitChat "hi") (set_messages [] s_shot))
                 (snd run_after_clear) (fst (fst run_after_clear), snd (fst run_after_clear)))
    by (apply (gen_exec_of_run answer_hey); vm_compute; reflexivity).
  split; [exact H0 |]. split; [exact H1 |].
  destruct (@clear_drops_file_context py_json cfg0 s_shot sam bob "hi" _ _ _ _ _ _
              eq_refl eq_refl bob_in_roster eq_refl H0 H1) as (a & Ht & _).
  by exists a.
Defined.

Lemma file_context_pending_witness :
  log_wf [file_message shot] /\
  file_context_of ([file_message shot] ++ [user_text "what do you think?"]) = Some "shot.png".
Proof.
  assert (Hw : log_wf [file_message shot]) by exact (log_wf_file [] shot log_wf_nil).
  split; [exact Hw |].
  apply (file_context_pending _ "what do you think?" "shot.png" Hw).
  exists [], shot. split; reflexivity.
Defined.
End Witnesses.

Module MatchWitnesses.
Import Witnesses.

Definition alice : persona :=
  nth 0 developers {| p_id := 0; p_name := ""; p_role := ""; p_stack := "";
                      p_bio := ""; p_avatar := ""; p_style := "" |}.
Definition alice_answer : string :=
  dumps (JObj [("name", JStr "Alice Chen"); ("reason", JStr "UI focus")]).

Lemma find_match_hallucinated_witness :
  user_profile s_joined = Some sam /\
  gen_exec (@page py_json cfg0 ClickFindMatch s_joined)
    [@match_call py_json cfg0 sam (GenText made_up_answer)]
    (s_joined, inl (Raised StopIteration)).
Proof.
  assert (Hu : user_profile s_joined = Some sam) by reflexivity.
  assert (Hj : @json_loads py_json (clean_response made_up_answer) =
    Some (JObj [("name", JStr "Zed Unknown"); ("reason", JStr "Good fit")]))
    by (vm_compute; reflexivity).
  assert (Hn : obj_lookup "name" [("name", JStr "Zed Unknown"); ("reason", JStr "Good fit")]
               = Some (JStr "Zed Unknown")) by reflexivity.
  assert (Hne : "Zed Unknown" <> "Error") by discriminate.
  assert (Hnot : forall p, p ∈ developers -> p_name p <> "Zed Unknown").
  { apply Forall_forall, (bool_decide_unpack _). vm_compute. reflexivity. }
  split; [exact Hu |].
  apply (@find_match_hallucinated py_json cfg0 s_joined sam made_up_answer _ _ _ _
           Hu Hj Hn Hne Hnot).
  split; reflexivity.
Defined.

Lemma find_match_selects_witness :
  alice ∈ developers /\
  gen_exec (@page py_json cfg0 ClickFindMatch s_joined)
    [@match_call py_json cfg0 sam (GenText alice_answer)]
    (select alice s_joined, inr tt).
Proof.
  assert (Hu : user_profile s_joined = Some sam) by reflexivity.
  assert (Ha : alice ∈ developers) by (apply list_elem_of_In; vm_compute; tauto).
  assert (Hj : @json_loads py_json (clean_response alice_answer) =
    Some (JObj [("name", JStr "Alice Chen"); ("reason", JStr "UI focus")]))
    by (vm_compute; reflexivity).
  assert (Hn : obj_lookup "name" [("name", JStr "Alice Chen"); ("reason", JStr "UI focus")]
               = Some (JStr (p_name alice))) by reflexivity.
  split; [exact Ha |].
  apply (@find_match_selects py_json cfg0 s_joined sam alice_answer _ alice _ _ Hu Ha Hj Hn).
  split; reflexivity.
Defined.

Lemma find_match_failure_silent_witness :
  user_profile s_bob = Some sam /\
  gen_exec (@page py_json cfg0 ClickFindMatch s_bob)
    [@match_call py_json cfg0 sam GenFail] (s_bob, inr tt).
Proof.
  assert (Hu : user_profile s_bob = Some sam) by reflexivity.
  split; [exact Hu |].
  apply (@find_match_failure_silent py_json cfg0 s_bob sam GenFail _ _ Hu (or_introl eq_refl)).
  split; reflexivity.
Defined.
(** The model answers a JSON list. *)
Definition list_answer : string := "[1, 2]".

Lemma find_match_non_dict_witness :
  user_profile s_joined = Some sam /\
  (forall fields, @decode_answer py_json (GenText list_answer) <> JObj fields) /\
  gen_exec (@page py_json cfg0 ClickFindMatch s_joined)
    [@match_call py_json cfg0 sam (GenText list_answer)]
    (s_joined, inl (Raised AttributeError)).
Proof.
  assert (Hu : user_profile s_joined = Some sam) by reflexivity.
  assert (Hv : forall fields, @decode_answer py_json (GenText list_answer) <> JObj fields)
    by (intros fields E; vm_compute in E; discriminate).
  split; [exact Hu |]. split; [exact Hv |].
  apply (@find_match_non_dict py_json cfg0 s_joined sam _ _ _ Hu Hv). split; reflexivity.
Defined.
End MatchWitnesses.
