(* ===== verification/SpecMachine.v ===== *)
(** * The spec's session machine and the script against it

    Section 4.4 of the spec describes SessionState as a machine:
    creating a profile logs in; selecting a persona (browse or
    matchmaker) clears the log; a text appends the user's message and
    one reply; an attachment appends one message; logout returns to
    [LoggedOut], "discarding UserProfile, selection, and Message
    sequence"; clear chat empties the log.  [spec_step] is that machine
    on the [session] record (the spec's [LoggedOut] state is the initial
    session).

    [step_refines_spec]: every run of the script is a step of the
    machine, except a logout, which keeps the selection and the log.
    [logout_not_spec_step]: that exception happens in a reachable
    session. *)

From S2P Require Import Prelude PyStr Json PyJson Roster GenAI Roleplay Matchmaker Session.

Inductive spec_step : session -> session -> Prop :=
| spec_stay s : spec_step s s
| spec_create s u : user_profile s = None -> spec_step s (set_profile (Some u) s)
| spec_select s d :
    user_profile s <> None -> d ∈ developers -> spec_step s (select d s)
| spec_text s p reply :
    user_profile s <> None -> selected_match s <> None -> py_truthy p = true ->
    spec_step s (append_msg (assistant_text reply) (append_msg (user_text p) s))
| spec_attach s f :
    user_profile s <> None -> selected_match s <> None ->
    spec_step s (append_msg (file_message f) s)
| spec_logout s : user_profile s <> None -> spec_step s init_session
| spec_clear s : spec_step s (set_messages [] s).

Section Refinement.
Context `{!JsonLib}.

(** C26: Every run of the script is a transition of the spec's session
    machine (login, persona selection with a cleared log, a text with
    exactly one reply, a single attachment message, clear chat, or no
    change), with one exception: logging out, which only clears the
    profile where the machine also discards the selection and the log. *)
Theorem step_refines_spec (s s' : session) :
  step s s' ->
  spec_step s s' \/ (user_profile s <> None /\ s' = set_profile None s).
Proof.
  intros Hstep. apply step_run_effect in Hstep.
  destruct Hstep as [| |u Hu|Hu|d Hu Hd|f Hu Hs|p reply Hu Hs Hp].
  - left. constructor.
  - left. constructor.
  - left. by constructor.
  - by right.
  - left. by constructor.
  - left. by constructor.
  - left. by constructor.
Qed.

(** A session is not a spec logout away when it keeps its selection. *)
Lemma logout_kept_selection (s : session) (d : persona) :
  user_profile s <> None -> selected_match s = Some d ->
  ~ spec_step s (set_profile None s).
Proof.
  intros Hu Hsel Hspec. remember (set_profile None s) as s' eqn:E.
  assert (Hp' : user_profile s' = None) by (by subst).
  assert (Hs' : selected_match s' = Some d) by (by subst).
  destruct Hspec as [s0|s0 u Hu0|s0 d' Hu0 _|s0 p r Hu0 _ _|s0 f Hu0 _|s0 Hu0|s0];
    simplify_eq; simpl in *; congruence.
Qed.
End Refinement.

Section Logout.
Context `{!JsonLib}.

(** C27: Logging out is not a transition of the spec's machine: from
    every session in which a logged-in user has a chat open, the
    logout run (whatever the configuration) leaves a session that keeps
    the selected persona and the whole log, and no transition of the
    spec's machine leads there (the spec's logout returns to the
    initial session, discarding the selection and the log). *)
Theorem logout_not_spec_step (cfg : config) (s : session) (d : persona) t s' r :
  user_profile s <> None -> selected_match s = Some d ->
  gen_exec (page cfg ClickLogout s) t (s', r) ->
  selected_match s' = Some d /\ messages s' = messages s /\ ~ spec_step s s'.
Proof.
  intros Hu Hsel Hr. destruct (user_profile s) as [u|] eqn:Hu'; [| done].
  rewrite (page_logout _ _ u) in Hr by done.
  apply gen_exec_ret_iff in Hr as [_ [= -> _]].
  split; [done |]. split; [done |]. by apply (logout_kept_selection s d); [rewrite Hu' |].
Qed.
End Logout.

Module Witnesses.

Definition cfg0 : config := {| cfg_api_key := "key"; cfg_listing := None |}.

Definition joined : session :=
  fst (fst (gen_run (fun _ _ => GenFail) (@page py_json cfg0 (SubmitJoin "Sam" "Go") init_session))).

Lemma step_refines_spec_witness :
  @step py_json joined (select (nth 1 developers (Build_persona 0 "" "" "" "" "" "")) joined) /\
  (spec_step joined (select (nth 1 developers (Build_persona 0 "" "" "" "" "" "")) joined) \/
   (user_profile joined <> None /\
    select (nth 1 developers (Build_persona 0 "" "" "" "" "" "")) joined = set_profile None joined)).
Proof.
  assert (H : @step py_json joined (select (nth 1 developers (Build_persona 0 "" "" "" "" "" "")) joined)).
  { apply (step_run _ _ cfg0 (ClickMessage 2) [] (inr tt)).
    apply (gen_exec_of_run (fun _ _ => GenFail)). vm_compute. reflexivity. }
  split; [exact H |]. exact (@step_refines_spec py_json _ _ H).
Defined.
Lemma logout_not_spec_step_witness :
  user_profile Session.Witnesses.s_bob <> None /\
  selected_match Session.Witnesses.s_bob = Some bob /\
  ~ spec_step Session.Witnesses.s_bob (set_profile None Session.Witnesses.s_bob).
Proof.
  assert (Hx : @gen_exec _ (@page py_json cfg0 ClickLogout Session.Witnesses.s_bob) []
                 (set_profile None Session.Witnesses.s_bob, inl Rerun))
    by (apply (gen_exec_of_run (fun _ _ => GenFail)); vm_compute; reflexivity).
  assert (Hu : user_profile Session.Witnesses.s_bob <> None)
    by (intros E; vm_compute in E; discriminate).
  split; [exact Hu |]. split; [reflexivity |].
  exact (proj2 (proj2 (@logout_not_spec_step py_json cfg0 _ bob _ _ _ Hu eq_refl Hx))).
Defined.
End Witnesses.
