(* ===== verification/Completeness.v ===== *)
(** * What one run can do, exactly, and which sessions are reachable

    [Session.step_run_effect] shows that every run of [page] has one of
    the effects of [run_effect].  This file proves the converse: every
    such effect is realised by one run, for some configuration, event
    and answer of the model, provided the selection is a roster persona
    (otherwise [chat_with_persona] answers ["Error: User left."] without
    calling the model, and the reply is not free).  Together:
    [step_iff_run_effect].

    With it, the reachable sessions are characterised exactly
    ([reachable_iff]): they are the well-formed sessions ([session_wf])
    whose log is empty while nothing is selected, and in which no
    message but the last holds an image PIL cannot open (once such an
    image is shared, every run that draws the chat raises before it
    handles a file or a text).  A reachable session is built by logging
    in, selecting, replaying its log file by file and turn by turn, and
    logging out when it has no profile.

    Liveness ([chat_always_reachable]): from every session, at most
    two runs (logging in, clicking a Message button) open a chat with
    any roster persona, and a chat turn is one more run whatever the
    model answers. *)

From S2P Require Import Prelude PyStr Json PyJson Roster GenAI Roleplay Matchmaker Session.
From stdpp Require Import relations.

(** The shape of the reachable sessions. *)
Definition reachable_shape (s : session) : Prop :=
  session_wf s /\ (selected_match s = None -> messages s = []) /\
  history_breaks (removelast (messages s)) = false.

(** A fixed configuration with an API key: every effect is realised
    with it. *)
Definition cfg_key : config := {| cfg_api_key := "key"; cfg_listing := None |}.

Section Realise.
Context `{!JsonLib}.

Lemma step_of_ret (cfg : config) (ev : event) (s s' : session) r :
  page cfg ev s = GRet (s', r) -> step s s'.
Proof. intros E. apply (step_run _ _ cfg ev [] r). rewrite E. constructor. Qed.

Lemma realise_none (s : session) : step s s.
Proof.
  destruct (user_profile s) as [u|] eqn:Hu.
  - apply (step_of_ret cfg_key NoEvent _ _ (history_result s)). by apply (page_inert _ _ _ u); [| left].
  - apply (step_of_ret cfg_key NoEvent _ _ (inr tt)). by rewrite page_logged_out.
Qed.

Lemma realise_login (s : session) (u : profile) :
  user_profile s = None -> step s (set_profile (Some u) s).
Proof.
  intros Hu. apply (step_of_ret cfg_key (SubmitJoin (u_name u) (u_bio u)) _ _ (inl Rerun)).
  rewrite page_logged_out by done. by destruct u.
Qed.

Lemma realise_select (s : session) (u : profile) (d : persona) :
  user_profile s = Some u -> d ∈ developers -> step s (select d s).
Proof.
  intros Hu Hd. apply (step_of_ret cfg_key (ClickMessage (p_id d)) _ _ (history_result (select d s))).
  rewrite (page_message _ _ _ u) by done. cbn [browse_effect].
  by rewrite find_by_id_complete by (done || apply developers_ids_unique).
Qed.

Lemma realise_file (s : session) (u : profile) (d : persona) (f : uploaded_file) :
  user_profile s = Some u -> selected_match s = Some d -> history_breaks (messages s) = false ->
  step s (append_msg (file_message f) s).
Proof.
  intros Hu Hd Hb. apply (step_of_ret cfg_key (ClickSendFile (Some f)) _ _ (inl Rerun)).
  rewrite (page_send_file _ _ _ u) by done. by rewrite Hd, Hb.
Qed.

(** A chat turn: the model answers the reply's text. *)
Lemma realise_turn (s : session) (u : profile) (d : persona) (p reply : string) :
  user_profile s = Some u -> selected_match s = Some d -> d ∈ developers ->
  py_truthy p = true -> history_breaks (messages s) = false ->
  step s (append_msg (assistant_text reply) (append_msg (user_text p) s)).
Proof.
  intros Hu Hsel Hd Hp Hb. eapply (step_run _ _ cfg_key (SubmitChat p) _ (inr tt)).
  apply (page_send_text _ _ _ u); [done |].
  apply (chat_tab_send_text _ _ _ d); [done.. |]. exists reply. split; [| done].
  apply (chat_with_persona_found _ _ _ d);
    [by apply find_persona_complete; [apply developers_names_unique |] |].
  eexists (GenText reply). split; reflexivity.
Qed.

Lemma run_effect_step (s s' : session) :
  (forall p, selected_match s = Some p -> p ∈ developers) ->
  run_effect s s' -> step s s'.
Proof.
  intros Hsel Heff.
  destruct Heff as [| |u Hu|Hu|d Hu Hd|f Hu Hs Hb|p reply Hu Hs Hp Hb].
  - apply realise_none.
  - apply (step_of_ret cfg_key ClickClearChat _ _ (inl Rerun)). apply page_clear.
  - by apply realise_login.
  - destruct (user_profile s) as [u|] eqn:E; [| done].
    apply (step_of_ret cfg_key ClickLogout _ _ (inl Rerun)). by apply (page_logout _ _ u).
  - destruct (user_profile s) as [u|] eqn:E; [| done]. by apply (realise_select _ u).
  - destruct (user_profile s) as [u|] eqn:E; [| done].
    destruct (selected_match s) as [d|] eqn:E'; [| done]. by apply (realise_file _ u d).
  - destruct (user_profile s) as [u|] eqn:E; [| done].
    destruct (selected_match s) as [d|] eqn:E'; [| done].
    apply (realise_turn _ u d); auto.
Qed.
End Realise.

Section Characterisation.
Context `{!JsonLib}.

(** C28: One run of the script is characterised exactly by
    [run_effect]: from a session whose selection is a roster persona, a
    run can leave the session [s'] if and only if [s'] is the same
    session, the session with its log cleared, a login (when logged
    out), a logout (when logged in), the selection of a roster persona
    with an emptied log, or, logged in with a chat open whose log the
    history loop draws without raising (no image PIL cannot open), one
    shared file or one chat turn (a non-empty text followed by any
    reply). *)
Theorem step_iff_run_effect (s s' : session) :
  (forall p, selected_match s = Some p -> p ∈ developers) ->
  step s s' <-> run_effect s s'.
Proof.
  intros Hsel. split; [apply step_run_effect | by apply run_effect_step].
Qed.

Lemma reachable_effect (s s' : session) :
  reachable s -> run_effect s s' -> reachable s'.
Proof.
  intros Hr Heff. apply (reachable_step s s' Hr), run_effect_step; [| done].
  intros p. by apply reachable_selection_in_roster.
Qed.

Lemma history_breaks_app (ms1 ms2 : list message) :
  history_breaks (ms1 ++ ms2) = history_breaks ms1 || history_breaks ms2.
Proof. apply existsb_app. Qed.

(** A log the history loop draws has no broken image before its last
    message, nor after one more message. *)
Lemma history_breaks_removelast (ms : list message) :
  history_breaks ms = false -> history_breaks (removelast ms) = false.
Proof.
  destruct ms as [|m ms] using rev_ind; [done |].
  rewrite removelast_last, history_breaks_app. by intros [-> _]%orb_false_iff.
Qed.

Lemma run_effect_shape (s s' : session) :
  reachable_shape s -> run_effect s s' -> reachable_shape s'.
Proof.
  intros (Hwf & Hnone & Hlast) Heff. split; [by apply (run_effect_wf s) |].
  destruct Heff as [| |u _|_|d _ _|f _ Hs Hb|p reply _ Hs _ Hb]; simpl; try done.
  - split; [done |]. by rewrite removelast_last.
  - split; [done |]. rewrite removelast_last, history_breaks_app, Hb. done.
Qed.

Lemma reachable_shape_sound (s : session) : reachable s -> reachable_shape s.
Proof.
  induction 1 as [|s s' _ IH Hstep].
  - split; [split; [done | constructor] | done].
  - by apply (run_effect_shape s), step_run_effect.
Qed.

(** Replaying a well-formed log in an open chat. *)
Lemma reachable_replay (u : profile) (d : persona) (ms : list message) :
  log_wf ms -> history_breaks (removelast ms) = false ->
  reachable {| messages := []; user_profile := Some u; selected_match := Some d |} ->
  reachable {| messages := ms; user_profile := Some u; selected_match := Some d |}.
Proof.
  intros Hlog Hlast Hr. induction Hlog as [|ms f _ IH|ms p reply Hp _ IH]; [done |..].
  - rewrite removelast_last in Hlast.
    refine (reachable_effect _ _ (IH (history_breaks_removelast _ Hlast)) (eff_file _ f _ _ _));
      done.
  - replace (ms ++ [user_text p; assistant_text reply])
      with ((ms ++ [user_text p]) ++ [assistant_text reply]) in * by by rewrite <- app_assoc.
    rewrite removelast_last, history_breaks_app in Hlast.
    apply orb_false_iff in Hlast as [Hb _].
    by refine (reachable_effect _ _ (IH (history_breaks_removelast _ Hb))
                 (eff_turn _ p reply _ _ Hp _)).
Qed.

Lemma reachable_shape_complete (s : session) : reachable_shape s -> reachable s.
Proof.
  destruct s as [ms pu sel]. intros [[Hsel Hlog] [Hnone Hlast]]; simpl in *.
  destruct sel as [d|].
  - set (u0 := match pu with Some u => u | None => {| u_name := ""; u_bio := "" |} end).
    assert (R : reachable {| messages := ms; user_profile := Some u0; selected_match := Some d |}).
    { apply reachable_replay; [done | done |].
      apply (reachable_effect (set_profile (Some u0) init_session)); [| by constructor; auto].
      apply (reachable_effect init_session); [constructor | by constructor]. }
    destruct pu as [u|]; [done |].
    by apply (reachable_effect _ _ R), eff_logout.
  - rewrite Hnone by done. destruct pu as [u|]; [| constructor].
    apply (reachable_effect init_session); [constructor | by constructor].
Qed.

(** C29: The reachable sessions are exactly the well-formed ones whose
    log is empty while no persona is selected and in which no message
    but the last holds an image PIL cannot open: every such session
    (with or without a profile, with any roster selection and any log
    of shared files and chat turns) is reached by some sequence of
    runs, and no other session is.  In particular nothing can be added
    after a shared image PIL cannot open. *)
Theorem reachable_iff (s : session) :
  reachable s <-> session_wf s /\ (selected_match s = None -> messages s = []) /\
                  history_breaks (removelast (messages s)) = false.
Proof. split; [apply reachable_shape_sound | apply reachable_shape_complete]. Qed.
End Characterisation.

Section Liveness.
Context `{!JsonLib}.

(** Selecting a roster persona when logged in: one run, after which a
    chat turn with any reply of the model is one more run. *)
Lemma select_then_turn (s : session) (u : profile) (d : persona) (p : string) :
  user_profile s = Some u -> d ∈ developers -> py_truthy p = true ->
  step s (select d s) /\
  forall reply,
    step (select d s) (append_msg (assistant_text reply) (append_msg (user_text p) (select d s))).
Proof.
  intros Hu Hd Hp. split; [by apply (realise_select _ u) |].
  intros reply. by apply (realise_turn _ u d).
Qed.

(** C24: The user can always get back to chatting with any roster
    persona: from every session, within at most two runs (logging in
    when logged out, then clicking the persona's Message button) the
    session is logged in with that persona selected and an empty log,
    and from there sending a non-empty text is one run whatever the
    model answers, with the text and the reply appended. *)
Theorem chat_always_reachable (s : session) (d : persona) (p : string) :
  d ∈ developers -> py_truthy p = true ->
  exists s1, bsteps step 2 s s1 /\ user_profile s1 <> None /\
    selected_match s1 = Some d /\ messages s1 = [] /\
    forall reply,
      step s1 (append_msg (assistant_text reply) (append_msg (user_text p) s1)).
Proof.
  intros Hd Hp. destruct (user_profile s) as [u|] eqn:Hu.
  - destruct (select_then_turn s u d p Hu Hd Hp) as [Hs Ht].
    exists (select d s). split; [by eapply bsteps_l; [exact Hs | constructor] |].
    by cbn [user_profile selected_match messages select]; rewrite Hu.
  - set (u := {| u_name := ""; u_bio := "" |}).
    destruct (select_then_turn (set_profile (Some u) s) u d p eq_refl Hd Hp) as [Hs Ht].
    exists (select d (set_profile (Some u) s)). split; [| done].
    eapply bsteps_l; [by apply realise_login |].
    eapply bsteps_l; [exact Hs | constructor].
Qed.
End Liveness.

Module Witnesses.

Definition bob_chat : session :=
  {| messages := []; user_profile := Some {| u_name := "Sam"; u_bio := "Go" |};
     selected_match := Some (nth 1 developers (Build_persona 0 "" "" "" "" "" "")) |}.

Lemma step_iff_run_effect_witness :
  (forall p, selected_match bob_chat = Some p -> p ∈ developers) /\
  @step py_json bob_chat
    (append_msg (assistant_text "Hey") (append_msg (user_text "hi") bob_chat)).
Proof.
  assert (H : forall p, selected_match bob_chat = Some p -> p ∈ developers).
  { intros p [= <-]. apply (bool_decide_unpack _). vm_compute. reflexivity. }
  split; [exact H |].
  apply (proj2 (@step_iff_run_effect py_json bob_chat _ H)).
  apply eff_turn; vm_compute; [discriminate | discriminate | reflexivity | reflexivity].
Defined.
Lemma chat_always_reachable_witness :
  bob ∈ developers /\ py_truthy "hi" = true /\
  exists s1, bsteps (@step py_json) 2 init_session s1 /\ user_profile s1 <> None /\
    selected_match s1 = Some bob /\ messages s1 = [] /\
    forall reply,
      @step py_json s1 (append_msg (assistant_text reply) (append_msg (user_text "hi") s1)).
Proof.
  split; [exact Session.Witnesses.bob_in_roster |]. split; [reflexivity |].
  exact (@chat_always_reachable py_json init_session bob "hi"
           Session.Witnesses.bob_in_roster eq_refl).
Defined.
End Witnesses.
