(* ===== verification/Resources.v ===== *)
(** * The resource model: calls to the hosted model per run

    Section 5 of the spec: each user action runs to completion before
    the next, with no overlapping requests to the text-generation
    capability.  In the script, one Streamlit run handles one event; the
    only calls are [find_best_match]'s (the matchmaker button) and
    [chat_with_persona]'s (a chat text).  [run_calls] shows that every
    run makes at most one call, and only for those two events, logged
    in, and for a text only when it is non-empty and a persona is
    selected; every other event (login, logout, browse, clear, file
    upload) is answered without the model. *)

From S2P Require Import Prelude PyStr Json PyJson Roster GenAI Roleplay Matchmaker Session.

Lemma chat_with_persona_calls (md msg n : string) (fc : option string) t r :
  gen_exec (chat_with_persona md msg n fc) t r -> (length t <= 1)%nat.
Proof.
  unfold chat_with_persona. destruct (find_persona n developers) as [p|].
  - rewrite gen_exec_map. intros (a & Ha & _). apply gen_exec_generate in Ha as ->. simpl. lia.
  - intros H. apply gen_exec_ret_inv in H as [-> _]. simpl. lia.
Qed.

Lemma login_form_ret (key : string) (ev : event) (s : session) :
  exists x, login_form key ev s = GRet x.
Proof. destruct ev; unfold login_form; try (by eexists); destruct (py_truthy key); by eexists. Qed.

(** A run that computes without the model makes no call. *)
Lemma gen_exec_ret_calls {A} (x y : A) t :
  gen_exec (GRet x) t y -> t = [].
Proof. intros H. by apply gen_exec_ret_inv in H as [-> _]. Qed.

Ltac no_calls H := apply gen_exec_ret_calls in H as ->; split; [simpl; lia | done].

Section Calls.
Context `{!JsonLib}.

(** C32: Every run of the script makes at most one call to the hosted
    model; a run that calls it is, logged in, either the matchmaker
    button or the submission of a non-empty chat text while a persona
    is selected.  Login, logout, browsing, Clear Chat and file sharing
    never call the model, nor does a text the history loop stops
    before. *)
Theorem run_calls (cfg : config) (ev : event) (s : session) t s' r :
  gen_exec (page cfg ev s) t (s', r) ->
  (length t <= 1)%nat /\
  (t <> [] -> user_profile s <> None /\
     (ev = ClickFindMatch \/
      exists p, ev = SubmitChat p /\ py_truthy p = true /\ selected_match s <> None)).
Proof.
  intros Hr. destruct (decide (ev = ClickClearChat)) as [->|Hclr].
  { rewrite page_clear in Hr. no_calls Hr. }
  destruct (user_profile s) as [u|] eqn:Hu.
  2:{ rewrite page_logged_out in Hr by done.
      destruct (login_form_ret (cfg_api_key cfg) ev s) as [x Hx]. rewrite Hx in Hr. no_calls Hr. }
  destruct ev as [| |n b| |id| |f|p]; try done.
  - rewrite (page_inert _ _ _ u) in Hr by eauto. no_calls Hr.
  - rewrite (page_inert _ _ _ u) in Hr by eauto. no_calls Hr.
  - rewrite (page_logout _ _ u) in Hr by done. no_calls Hr.
  - rewrite (page_message _ _ _ u) in Hr by done. no_calls Hr.
  - apply (page_find_match _ _ u) in Hr as (a & -> & _); [| done].
    split; [simpl; lia |]. intros _. split; [done | by left].
  - rewrite (page_send_file _ _ _ u) in Hr by done.
    destruct f, (selected_match s); try destruct (history_breaks _); no_calls Hr.
  - apply (page_send_text _ _ _ u) in Hr; [| done].
    destruct (selected_match s) as [target|] eqn:Hsel.
    + destruct (history_breaks (messages s)) eqn:Hb.
      { rewrite (chat_tab_broken _ _ _ target) in Hr by done. no_calls Hr. }
      destruct (py_truthy p) eqn:Hp.
      * apply (chat_tab_send_text _ _ _ target) in Hr as (reply & Hc & _); [| done..].
        split; [by apply chat_with_persona_calls in Hc |].
        intros _. split; [done |]. right. by exists p.
      * rewrite chat_tab_empty_text in Hr by done. no_calls Hr.
    + rewrite chat_tab_no_selection in Hr by done. no_calls Hr.
Qed.
End Calls.

Lemma run_calls_witness :
  @gen_exec _ (@page py_json {| cfg_api_key := "key"; cfg_listing := None |} ClickFindMatch
          {| messages := []; user_profile := Some {| u_name := "Sam"; u_bio := "Go" |};
             selected_match := None |})
    [{| call_model := "gemini-1.5-flash";
        call_prompt := matchmaker_prompt "Go" (dumps developers_json);
        call_result := GenFail |}]
    ({| messages := []; user_profile := Some {| u_name := "Sam"; u_bio := "Go" |};
        selected_match := None |}, inr tt) /\
  (length [{| call_model := "gemini-1.5-flash";
              call_prompt := matchmaker_prompt "Go" (dumps developers_json);
              call_result := GenFail |}] <= 1)%nat.
Proof.
  assert (H : @gen_exec _ (@page py_json {| cfg_api_key := "key"; cfg_listing := None |}
                ClickFindMatch
                {| messages := []; user_profile := Some {| u_name := "Sam"; u_bio := "Go" |};
                   selected_match := None |})
    [{| call_model := "gemini-1.5-flash";
        call_prompt := matchmaker_prompt "Go" (dumps developers_json);
        call_result := GenFail |}]
    ({| messages := []; user_profile := Some {| u_name := "Sam"; u_bio := "Go" |};
        selected_match := None |}, inr tt)).
  { apply (gen_exec_of_run (fun _ _ => GenFail)). vm_compute. reflexivity. }
  split; [exact H |]. exact (proj1 (run_calls _ _ _ _ _ _ H)).
Defined.
