(* ===== verification/Attachment.v ===== *)
(** * The pending attachment of the spec's design notes

    Section 9 of the spec proposes to replace the script's positional
    rule (lines 221-222: the file name of [messages[-2]] after the
    user's text was appended) by an explicit "pending attachment" field,
    set when an attachment is appended and consumed by the next text.
    [pstep] is the session machine of [run_effect] extended with that
    field: sharing a file sets it, a chat turn consumes it, and Clear
    Chat and persona selection (which empty the log) drop it; login and
    logout keep it, as they keep the log.

    [pending_refinement]: every reachable session of the script is the
    session of a [pstep] run from the initial session, and for it the
    script's positional context is exactly the name of the pending
    attachment, so the redesign does not change what the persona is
    told. *)

From S2P Require Import Prelude PyStr Json PyJson Roster GenAI Roleplay Matchmaker Session.

Inductive pstep : session * option uploaded_file -> session * option uploaded_file -> Prop :=
| pstep_none s pd : pstep (s, pd) (s, pd)
| pstep_clear s pd : pstep (s, pd) (set_messages [] s, None)
| pstep_login s pd u : user_profile s = None -> pstep (s, pd) (set_profile (Some u) s, pd)
| pstep_logout s pd : user_profile s <> None -> pstep (s, pd) (set_profile None s, pd)
| pstep_select s pd d :
    user_profile s <> None -> d ∈ developers -> pstep (s, pd) (select d s, None)
| pstep_attach s pd f :
    user_profile s <> None -> selected_match s <> None ->
    pstep (s, pd) (append_msg (file_message f) s, Some f)
| pstep_text s pd p reply :
    user_profile s <> None -> selected_match s <> None -> py_truthy p = true ->
    pstep (s, pd) (append_msg (assistant_text reply) (append_msg (user_text p) s), None).

Inductive preach : session * option uploaded_file -> Prop :=
| preach_init : preach (init_session, None)
| preach_step x y : preach x -> pstep x y -> preach y.

(** The attachment the log's last message carries, if it is the user's. *)
Definition last_attachment (ms : list message) : option uploaded_file :=
  match last ms with
  | Some m => match m_role m with RoleUser => m_file m | RoleAssistant => None end
  | None => None
  end.

Lemma file_context_last (ms : list message) (q : string) :
  file_context_of (ms ++ [user_text q]) = uf_name <$> last_attachment ms.
Proof.
  unfold file_context_of, last_attachment. rewrite py_index_neg_snoc_2.
  destruct (last ms) as [m|]; [| done]. by destruct (m_role m).
Qed.

Lemma last_attachment_snoc (ms : list message) (m : message) :
  last_attachment (ms ++ [m]) =
  match m_role m with RoleUser => m_file m | RoleAssistant => None end.
Proof. unfold last_attachment. by rewrite last_snoc. Qed.

(** The pending field is the log's last attachment. *)
Lemma preach_pending (s : session) (pd : option uploaded_file) :
  preach (s, pd) -> pd = last_attachment (messages s).
Proof.
  remember (s, pd) as x eqn:E. intros H. revert s pd E.
  induction H as [|x y _ IH Hs]; intros s' pd' E; [by injection E as <- <- |].
  destruct Hs as [s pd|s pd|s pd u _|s pd _|s pd d _ _|s pd f _ _|s pd p reply _ _ _];
    injection E as <- <-; cbn [messages set_messages set_profile select append_msg];
    try (by apply (IH s pd)); by rewrite ?last_attachment_snoc.
Qed.

(** Every run of the script is a step of the machine with the pending
    field. *)
Lemma step_pstep `{!JsonLib} (s s' : session) (pd : option uploaded_file) :
  step s s' -> exists pd', pstep (s, pd) (s', pd').
Proof.
  intros Hs. apply step_run_effect in Hs.
  destruct Hs as [| |u Hu|Hu|d Hu Hd|f Hu Hs _|p reply Hu Hs Hp _]; eexists; by constructor.
Qed.

(** C34: The script implements the spec's pending attachment: every
    reachable session is reached by the machine that keeps the pending
    attachment as an explicit field (set by sharing a file, consumed by
    a chat turn, dropped by Clear Chat and by persona selection), and
    the file context the script reads positionally for the next text
    is exactly the name of that pending attachment. *)
Theorem pending_refinement `{!JsonLib} (s : session) :
  reachable s ->
  exists pd, preach (s, pd) /\
    forall q, file_context_of (messages s ++ [user_text q]) = uf_name <$> pd.
Proof.
  intros Hr. assert (Hp : exists pd, preach (s, pd)).
  { induction Hr as [|s s' _ [pd IH] Hs]; [by exists None; constructor |].
    destruct (step_pstep s s' pd Hs) as [pd' Hps]. exists pd'. by apply (preach_step (s, pd)). }
  destruct Hp as [pd Hp]. exists pd. split; [done |].
  intros q. by rewrite file_context_last, (preach_pending s pd Hp).
Qed.

Module Witnesses.

Definition cfg0 : config := {| cfg_api_key := "key"; cfg_listing := None |}.
Definition run (ev : event) (s : session) : session :=
  fst (fst (gen_run (fun _ _ => GenFail) (@page py_json cfg0 ev s))).

Definition shot : uploaded_file := {| uf_name := "shot.png"; uf_type := "image/png"; uf_data := []; uf_opens := true |}.

Definition s_shared : session :=
  run (ClickSendFile (Some shot)) (run (ClickMessage 2) (run (SubmitJoin "Sam" "Go") init_session)).

Lemma reachable_s_shared : @reachable py_json s_shared.
Proof.
  unfold s_shared, run.
  do 3 (eapply reachable_run; [| reflexivity]). constructor.
Qed.

Lemma pending_refinement_witness :
  @reachable py_json s_shared /\
  exists pd, preach (s_shared, pd) /\
    forall q, file_context_of (messages s_shared ++ [user_text q]) = uf_name <$> pd.
Proof.
  split; [exact reachable_s_shared |].
  exact (@pending_refinement py_json s_shared reachable_s_shared).
Defined.
End Witnesses.
