(* ===== verification/Render.v ===== *)
(** * The chat tab's display

    What the chat tab draws (src/app.py lines 165-192 and 224-234): with
    no persona selected, an info banner (line 167); otherwise a title
    and a caption for the persona (lines 170-171), then the chat box.
    The chat box first draws the whole log, one [st.chat_message] bubble
    per message (lines 176-192): the message's text when it is
    non-empty, and for a shared file a widget chosen by the file's type
    ([st.image] when the type contains "image", [st.video] when it
    contains "video", a warning with the file name otherwise).  An
    image PIL cannot open ([Session.msg_fails]) raises inside
    [st.image]: the loop stops there, with the bubbles before it drawn
    ([render_partial]), and the rest of the tab is not drawn.  When the
    run submits a text, the chat box then draws the user's text and the
    persona's reply, the reply with the persona's avatar (lines
    224-234); these two bubbles are drawn live, after the log was
    drawn and before the next run redraws the log.

    [live_turn_redrawn]: the bubbles drawn live are the ones the next
    run redraws from the log, except for the reply's avatar: the history
    loop passes no avatar to [st.chat_message], so the persona's avatar
    is shown once and then replaced by the default one. *)

From S2P Require Import Prelude PyStr Json PyJson Roster GenAI Roleplay Matchmaker Session.
From S2P Require Import Completeness.

(** The widgets the chat tab draws. [WImage] and [WVideo] carry the
    uploaded file ([msg["file_data"]]). *)
Inductive widget : Type :=
| WMarkdown (text : string)
| WImage (data : uploaded_file) (caption : string)
| WVideo (data : uploaded_file)
| WWarning (text : string).

#[export] Instance widget_eq_dec : EqDecision widget.
Proof. solve_decision. Defined.

(** A [st.chat_message(role, avatar=...)] block and what is drawn in it. *)
Record bubble : Type := {
  b_role : role;
  b_avatar : option string;
  b_body : list widget
}.

#[export] Instance bubble_eq_dec : EqDecision bubble.
Proof. solve_decision. Defined.

(** The chat tab: the banner of line 167, or the room of lines 170-234. *)
Inductive tab_view : Type :=
| ViewInfo (text : string)
| ViewRoom (title caption : string) (box : list bubble).

(** Line 192. *)
Definition attached_label (name : string) : string :=
  "📎 Attached File: " +:+ name.

(** Lines 184-192: the widget of a shared file, by its type. *)
Definition file_widget (f : uploaded_file) : widget :=
  if str_infixb "image" (uf_type f) then WImage f (uf_name f)
  else if str_infixb "video" (uf_type f) then WVideo f
  else WWarning (attached_label (uf_name f)).

(** Lines 177-192: one message of the log. Every message dict has a
    ["content"] key; the file keys are there exactly for a shared file. *)
Definition render_msg (m : message) : bubble :=
  {| b_role := m_role m;
     b_avatar := None;
     b_body := (if py_truthy (m_content m) then [WMarkdown (m_content m)] else []) ++
               match m_file m with Some f => [file_widget f] | None => [] end |}.

(** The bubble of a message whose image [st.image] cannot open: its
    text is drawn (lines 180-181), then [st.image] raises (line 188). *)
Definition render_partial (m : message) : bubble :=
  {| b_role := m_role m;
     b_avatar := None;
     b_body := if py_truthy (m_content m) then [WMarkdown (m_content m)] else [] |}.

(** Line 176: the loop over the log, which stops in the bubble of the
    first message whose image cannot be opened. *)
Fixpoint render_history (ms : list message) : list bubble :=
  match ms with
  | [] => []
  | m :: ms' => if msg_fails m then [render_partial m] else render_msg m :: render_history ms'
  end.

(** Lines 224-226 and 232-234: the user's text and the reply, drawn in
    the run that sends the text. *)
Definition live_turn (target : persona) (p reply : string) : list bubble :=
  [{| b_role := RoleUser; b_avatar := None; b_body := [WMarkdown p] |};
   {| b_role := RoleAssistant; b_avatar := Some (p_avatar target); b_body := [WMarkdown reply] |}].

(** Lines 174-192 and 217-234: the chat box of a run whose chat tab
    starts with the log [ms]; [reply] is what the run's call to
    [chat_with_persona] returned (used only when a text is sent).  When
    the history loop raises, nothing more is drawn. *)
Definition chat_box (target : persona) (ms : list message) (ev : event) (reply : string)
    : list bubble :=
  render_history ms ++
  if history_breaks ms then [] else
  match ev with
  | SubmitChat p => if py_truthy p then live_turn target p reply else []
  | _ => []
  end.

(** Line 167. *)
Definition select_info : string :=
  "👈 Select a person from the **Browse** or **Matchmaker** tab to start chatting.".

(** Lines 166-171 and the chat box, from the session at the tab's entry. *)
Definition chat_tab_view (s : session) (ev : event) (reply : string) : tab_view :=
  match selected_match s with
  | None => ViewInfo select_info
  | Some target =>
      ViewRoom ("### 💬 Chat with " +:+ p_name target)
               ("Role: " +:+ p_role target +:+ " | Style: " +:+ p_style target)
               (chat_box target (messages s) ev reply)
  end.

(** A bubble as the history loop would draw it: without an avatar. *)
Definition drop_avatar (b : bubble) : bubble :=
  {| b_role := b_role b; b_avatar := None; b_body := b_body b |}.

Definition view_drop_avatar (v : tab_view) : tab_view :=
  match v with
  | ViewInfo t => ViewInfo t
  | ViewRoom t c box => ViewRoom t c (map drop_avatar box)
  end.

(** ** Lemmas *)

Lemma if_same {A} (b : bool) (x : A) : (if b then x else x) = x.
Proof. by destruct b. Qed.

Lemma render_msg_no_avatar (m : message) : drop_avatar (render_msg m) = render_msg m.
Proof. reflexivity. Qed.

Lemma render_history_no_avatar (ms : list message) :
  map drop_avatar (render_history ms) = render_history ms.
Proof.
  induction ms as [|m ms IH]; [done |]. cbn [render_history].
  destruct (msg_fails m); [done |]. cbn [map]. by rewrite IH.
Qed.

(** A log the loop draws whole is drawn message by message. *)
Lemma render_history_app (ms ms' : list message) :
  history_breaks ms = false ->
  render_history (ms ++ ms') = render_history ms ++ render_history ms'.
Proof.
  induction ms as [|m ms IH]; [done |]. cbn [history_breaks existsb app render_history].
  intros [-> Hb]%orb_false_iff. cbn [app]. by rewrite IH.
Qed.

(** The [i]-th bubble drawn is the one of the [i]-th message, whole or
    stopped at its image, and every bubble above it is whole. *)
Lemma render_history_lookup_Some (ms : list message) (i : nat) (b : bubble) :
  render_history ms !! i = Some b ->
  exists m, ms !! i = Some m /\ (b = render_msg m \/ b = render_partial m) /\
    forall k m', (k < i)%nat -> ms !! k = Some m' -> render_history ms !! k = Some (render_msg m').
Proof.
  revert i. induction ms as [|m ms IH]; intros i; [done |]. cbn [render_history].
  destruct (msg_fails m) eqn:Hm.
  - destruct i as [|i]; [| by destruct i]. intros [= <-].
    exists m. split; [done |]. split; [by right | intros k m' Hk; lia].
  - destruct i as [|i]; cbn.
    + intros [= <-]. exists m. split; [done |]. split; [by left | intros k m' Hk; lia].
    + intros Hb. destruct (IH i Hb) as (m0 & Hm0 & Hb0 & Hk). exists m0.
      split; [done |]. split; [done |]. intros [|k] m' Hlt; cbn; [by intros [= <-] |].
      intros Hk'. apply (Hk k m'); [lia | done].
Qed.

(** The turn the history loop redraws is the live one, avatar apart,
    when the texts are non-empty. *)
Lemma render_turn (target : persona) (p reply : string) :
  py_truthy p = true -> py_truthy reply = true ->
  render_history [user_text p; assistant_text reply] = map drop_avatar (live_turn target p reply).
Proof. intros Hp Hr. cbv [render_history map render_msg user_text assistant_text]. simpl. by rewrite Hp, Hr. Qed.

Lemma render_turn_avatar (target : persona) (p reply : string) :
  render_history [user_text p; assistant_text reply] <> live_turn target p reply.
Proof. by intros [=]. Qed.

(** In a well-formed log every reply comes right after the non-empty
    user text it answers. *)
Lemma log_wf_reply_after_text (ms : list message) (i : nat) (m : message) :
  log_wf ms -> ms !! i = Some m -> m_role m = RoleAssistant ->
  exists j p, i = S j /\ py_truthy p = true /\ ms !! j = Some (user_text p).
Proof.
  intros Hlog. revert i m.
  induction Hlog as [|ms f _ IH|ms p reply Hp _ IH]; intros i m Hi Hr; [done |..].
  - apply lookup_snoc_Some in Hi as [[_ Hi] | [_ <-]]; [| by cbv in Hr].
    destruct (IH i m Hi Hr) as (j & q & -> & Hq & Hj). exists j, q. eauto using lookup_app_l_Some.
  - change (ms ++ [user_text p; assistant_text reply])
      with (ms ++ [user_text p] ++ [assistant_text reply]) in *.
    rewrite app_assoc in *.
    apply lookup_snoc_Some in Hi as [[_ Hi] | [-> _]].
    + apply lookup_snoc_Some in Hi as [[_ Hi] | [_ <-]]; [| by cbv in Hr].
      destruct (IH i m Hi Hr) as (j & q & -> & Hq & Hj). exists j, q.
      eauto using lookup_app_l_Some.
    + exists (length ms), p. rewrite length_app. split; [simpl; lia |]. split; [done |].
      apply lookup_app_l_Some, lookup_snoc_Some. by right.
Qed.

Section Redraw.
Context `{!JsonLib}.

(** C35: When a logged-in user sends a non-empty text to the selected
    persona, the run appends the text and the reply, and the chat tab
    of that run shows the log followed by the two new bubbles.  The
    next run redraws the same tab from the log, and the two differ:
    the reply was drawn with the persona's avatar, the redrawn reply
    has the default one.  Apart from that avatar, and when the reply is
    not empty, the next run shows exactly what was drawn live.  (When
    the log holds an image PIL cannot open, the history loop raises
    before the text is handled and the session is unchanged.) *)
Theorem live_turn_redrawn (cfg : config) (s : session) (u : profile) (target : persona)
    (p : string) t s' r :
  user_profile s = Some u -> selected_match s = Some target -> py_truthy p = true ->
  gen_exec (page cfg (SubmitChat p) s) t (s', r) ->
  if history_breaks (messages s) then s' = s /\ r = inl (Raised UnidentifiedImageError)
  else
    exists reply,
      s' = append_msg (assistant_text reply) (append_msg (user_text p) s) /\
      chat_tab_view s (SubmitChat p) reply <> chat_tab_view s' NoEvent reply /\
      (py_truthy reply = true ->
         view_drop_avatar (chat_tab_view s (SubmitChat p) reply) = chat_tab_view s' NoEvent reply).
Proof.
  intros Hu Hsel Hp Hr. apply (page_send_text _ _ _ u) in Hr; [| done].
  destruct (history_breaks (messages s)) eqn:Hb.
  { rewrite (chat_tab_broken _ _ _ target) in Hr by done.
    by apply gen_exec_ret_iff in Hr as [_ [= -> ->]]. }
  apply (chat_tab_send_text _ _ _ target) in Hr as (reply & _ & -> & _); [| done..].
  exists reply. split; [done |].
  unfold chat_tab_view, chat_box. cbn [selected_match append_msg set_messages messages].
  rewrite Hsel, Hb, Hp, <- app_assoc. cbn [app].
  rewrite (render_history_app _ _ Hb), (if_same (history_breaks _) (@nil bubble)), app_nil_r.
  split.
  - intros [= E]. apply app_inv_head in E. by apply (render_turn_avatar target p reply).
  - intros Hrep. cbn [view_drop_avatar].
    by rewrite map_app, render_history_no_avatar, (render_turn target).
Qed.
(** C36: In the chat box of every reachable session, each reply the
    history loop draws is drawn right below a user bubble that shows,
    alone, the non-empty text the reply answers: the display never
    starts with a reply, never shows two replies in a row, and never
    shows a reply below a shared file. *)
Theorem history_reply_below_text (s : session) (i : nat) (b : bubble) :
  reachable s -> render_history (messages s) !! i = Some b -> b_role b = RoleAssistant ->
  exists j p, i = S j /\ py_truthy p = true /\
    render_history (messages s) !! j =
      Some {| b_role := RoleUser; b_avatar := None; b_body := [WMarkdown p] |}.
Proof.
  intros Hr Hb Hrole. destruct (reachable_shape_sound s Hr) as [[_ Hlog] _].
  apply render_history_lookup_Some in Hb as (m & Hm & Hbm & Habove).
  assert (Hm_role : m_role m = RoleAssistant) by (by destruct Hbm as [-> | ->]).
  destruct (log_wf_reply_after_text _ i m Hlog Hm Hm_role) as (j & p & -> & Hp & Hj).
  exists j, p. split; [done |]. split; [done |].
  rewrite (Habove j _ ltac:(lia) Hj). unfold render_msg. cbn. by rewrite Hp.
Qed.
End Redraw.

Module Witnesses.
Import Session.Witnesses.

(** Sam, chatting with Bob, sends "hi"; the model answers "Hey". *)
Definition run_hi := gen_run answer_hey (@page py_json cfg0 (SubmitChat "hi") s_bob).

Lemma live_turn_redrawn_witness :
  @gen_exec _ (@page py_json cfg0 (SubmitChat "hi") s_bob)
    (snd run_hi) (fst (fst run_hi), snd (fst run_hi)) /\
  exists reply,
    fst (fst run_hi) = append_msg (assistant_text reply) (append_msg (user_text "hi") s_bob) /\
    chat_tab_view s_bob (SubmitChat "hi") reply <> chat_tab_view (fst (fst run_hi)) NoEvent reply /\
    (py_truthy reply = true ->
       view_drop_avatar (chat_tab_view s_bob (SubmitChat "hi") reply) =
       chat_tab_view (fst (fst run_hi)) NoEvent reply).
Proof.
  assert (H : @gen_exec _ (@page py_json cfg0 (SubmitChat "hi") s_bob)
                (snd run_hi) (fst (fst run_hi), snd (fst run_hi))).
  { apply (gen_exec_of_run answer_hey). vm_compute. reflexivity. }
  split; [exact H |].
  exact (@live_turn_redrawn py_json cfg0 s_bob sam bob "hi" _ _ _ eq_refl eq_refl eq_refl H).
Defined.
Lemma reachable_s_hi : @reachable py_json (fst (fst run_hi)).
Proof. by apply (reachable_run answer_hey cfg0 (SubmitChat "hi") s_bob); [apply reachable_s_bob |]. Qed.

Lemma history_reply_below_text_witness :
  @reachable py_json (fst (fst run_hi)) /\
  render_history (messages (fst (fst run_hi))) !! 1%nat =
    Some {| b_role := RoleAssistant; b_avatar := None; b_body := [WMarkdown "Hey"] |} /\
  exists j p, (1 = S j)%nat /\ py_truthy p = true /\
    render_history (messages (fst (fst run_hi))) !! j =
      Some {| b_role := RoleUser; b_avatar := None; b_body := [WMarkdown p] |}.
Proof.
  assert (Hb : render_history (messages (fst (fst run_hi))) !! 1%nat =
    Some {| b_role := RoleAssistant; b_avatar := None; b_body := [WMarkdown "Hey"] |}).
  { vm_compute. reflexivity. }
  split; [exact reachable_s_hi |]. split; [exact Hb |].
  exact (@history_reply_below_text py_json _ 1%nat _ reachable_s_hi Hb eq_refl).
Defined.
End Witnesses.
