(* ===== verification/Dashboard.v ===== *)
(** * The browse tab's profile cards

    Lines 134-147: [st.columns(3)], then for the [i]-th roster member a
    card in column [cols[i % 3]] showing the avatar and the name, the
    role, the stack and the bio, and a button labelled with the first
    word of the name ([dev['name'].split()[0]], which raises
    [IndexError] for a name with no word) under the widget key
    [btn_<id>].  Streamlit raises [DuplicateWidgetID] when two widgets
    of one run share a key.  [Session.browse_loop] models the buttons'
    effect; this file models what the loop draws.

    [browse_layout]: every card goes to one of the three columns (the
    index [i % 3] is always in bounds), the columns are filled round
    robin ([(n + 2 - j) / 3] cards in column [j] for [n] members), and
    members with distinct ids get distinct keys.  On the roster no name
    is blank, so the loop never raises. *)

From S2P Require Import Prelude PyStr Json PyJson Roster GenAI Roleplay Matchmaker Session.

(** Line 136: [st.columns(3)]. *)
Definition browse_columns : nat := 3.

(** [str(n)] of an [int]: its decimal [repr]. *)
Definition py_str_int (n : Z) : string := String.string_of_list_ascii (int_repr n).

(** Line 144: [name.split()[0]]. *)
Definition first_name (name : string) : string + py_exc :=
  match py_split name with w :: _ => inl w | [] => inr IndexError end.

(** What one iteration draws (lines 138-144). *)
Record card : Type := {
  c_column : nat;
  c_heading : string;
  c_role : string;
  c_stack : string;
  c_bio : string;
  c_label : string;
  c_key : string
}.

(** Lines 138-144: the card of the [i]-th member. *)
Definition browse_card (i : nat) (dev : persona) : card + py_exc :=
  match first_name (p_name dev) with
  | inr e => inr e
  | inl w =>
      inl {| c_column := i mod browse_columns;
             c_heading := "### " +:+ p_avatar dev +:+ " " +:+ p_name dev;
             c_role := "**" +:+ p_role dev +:+ "**";
             c_stack := "🛠 " +:+ p_stack dev;
             c_bio := "_" +:+ p_bio dev +:+ "_";
             c_label := "Message " +:+ w;
             c_key := "btn_" +:+ py_str_int (p_id dev) |}
  end.

(** Line 137: [for i, dev in enumerate(developers)], from index [i];
    an exception ends the loop. *)
Fixpoint browse_cards (i : nat) (ds : list persona) : list card + py_exc :=
  match ds with
  | [] => inl []
  | dev :: ds' =>
      match browse_card i dev with
      | inr e => inr e
      | inl c =>
          match browse_cards (S i) ds' with
          | inr e => inr e
          | inl cs => inl (c :: cs)
          end
      end
  end.

(** ** Lemmas *)

(** The key of a member's button. *)
Definition card_key (id : Z) : string := "btn_" +:+ py_str_int id.

Lemma int_repr_inj (a b : Z) : int_repr a = int_repr b -> a = b.
Proof.
  intros E. pose proof (match_number_int_repr a [] eq_refl) as Ha.
  rewrite E, match_number_int_repr in Ha by reflexivity. congruence.
Qed.

Lemma string_app_inv_head (a s t : string) : a +:+ s = a +:+ t -> s = t.
Proof.
  induction a as [|c a IH]; [done |]. rewrite !string_app_cons. intros [= E]. by apply IH.
Qed.

Lemma card_key_inj (a b : Z) : card_key a = card_key b -> a = b.
Proof.
  unfold card_key, py_str_int. intros E%string_app_inv_head.
  apply int_repr_inj. rewrite <- (String.list_ascii_of_string_of_list_ascii (int_repr a)), E.
  apply String.list_ascii_of_string_of_list_ascii.
Qed.

(** What the loop draws from index [i], field by field. *)
Lemma browse_cards_fields (i : nat) (ds : list persona) (cs : list card) :
  browse_cards i ds = inl cs ->
  map c_column cs = map (fun k => (k mod browse_columns)%nat) (seq i (length ds)) /\
  map c_key cs = map (fun d => card_key (p_id d)) ds.
Proof.
  revert i cs. induction ds as [|d ds IH]; intros i cs; cbn [browse_cards]; [by intros [= <-] |].
  unfold browse_card. destruct (first_name (p_name d)) as [w|]; [| done].
  destruct (browse_cards (S i) ds) as [cs'|] eqn:E; [| done]. intros [= <-].
  destruct (IH (S i) cs' E) as [Hc Hk]. cbn. by rewrite Hc, Hk.
Qed.

(** [x = 3 * (x / 3) + x mod 3] with [x mod 3 < 3], for [lia]. *)
Ltac div3 x := pose proof (Nat.div_mod_eq x 3); pose proof (Nat.mod_upper_bound x 3 ltac:(lia)).

(** Round robin: among [0 .. n-1], [(n + 2 - j) / 3] numbers are [j]
    modulo 3. *)
Lemma round_robin_count (n j : nat) :
  (j < 3)%nat -> length (filter (fun k => (k mod 3)%nat = j) (seq 0 n)) = ((n + 2 - j) / 3)%nat.
Proof.
  intros Hj. induction n as [|n IH]; [destruct j as [|[|[|]]]; simpl; lia |].
  rewrite seq_S, filter_app, length_app, IH. cbn [Nat.add].
  rewrite filter_cons, filter_nil.
  div3 n. div3 (n + 2 - j)%nat. div3 (S (n + 2) - j)%nat.
  case_decide as Hn; cbn [length]; lia.
Qed.

(** Lists with the same image under [f] and [g] have as many elements
    of image [j]. *)
Lemma length_filter_same_map {A B} (f : A -> nat) (g : B -> nat) (j : nat)
    (l1 : list A) (l2 : list B) :
  map f l1 = map g l2 ->
  length (filter (fun x => f x = j) l1) = length (filter (fun y => g y = j) l2).
Proof.
  revert l2. induction l1 as [|x l1 IH]; intros [|y l2]; try done.
  cbn [map]. intros [= Hxy E]. rewrite !filter_cons, Hxy.
  by case_decide; cbn [length]; rewrite (IH l2 E).
Qed.

Lemma NoDup_map_inj {A B} (f : A -> B) (l : list A) :
  (forall a b, f a = f b -> a = b) -> NoDup l -> NoDup (map f l).
Proof.
  intros Hf. induction 1 as [|x l Hx _ IH]; cbn [map]; constructor; [| done].
  intros Hin%list_elem_of_In. apply in_map_iff in Hin as (y & Hy%Hf & Hin). subst y.
  by apply Hx, list_elem_of_In.
Qed.

(** C25: The browse tab's layout is within bounds: when the loop over
    the roster draws its cards, there is one card per member, each in
    one of the three columns ([cols[i % 3]] never indexes past the
    [st.columns(3)] list), the columns are filled round robin (column
    [j] gets [(n + 2 - j) / 3] of the [n] cards), and members with
    distinct ids get distinct button keys, so the run never raises
    [DuplicateWidgetID]. *)
Theorem browse_layout (ds : list persona) (cs : list card) :
  browse_cards 0 ds = inl cs ->
  length cs = length ds /\
  (forall c, c ∈ cs -> (c_column c < browse_columns)%nat) /\
  (forall j, (j < browse_columns)%nat ->
     length (filter (fun c => c_column c = j) cs) = ((length ds + 2 - j) / 3)%nat) /\
  (NoDup (map p_id ds) -> NoDup (map c_key cs)).
Proof.
  intros H. destruct (browse_cards_fields 0 ds cs H) as [Hc Hk].
  split; [by rewrite <- (length_map c_column cs), Hc, length_map, length_seq |].
  split; [|split].
  - intros c Hin%list_elem_of_In. apply (in_map c_column) in Hin.
    rewrite Hc in Hin. apply in_map_iff in Hin as (k & Hck & _). rewrite <- Hck.
    apply Nat.mod_upper_bound. unfold browse_columns. lia.
  - intros j Hj. rewrite (length_filter_same_map _ _ j _ _ Hc). by apply round_robin_count.
  - intros Hnd. rewrite Hk, <- (map_map p_id card_key).
    apply NoDup_map_inj; [apply card_key_inj | done].
Qed.

(** The roster's cards: the loop never raises on it. *)
Definition roster_cards : list card :=
  match browse_cards 0 developers with inl cs => cs | inr _ => [] end.

Lemma browse_layout_witness :
  browse_cards 0 developers = inl roster_cards /\
  (forall j, (j < browse_columns)%nat ->
     length (filter (fun c => c_column c = j) roster_cards) = ((length developers + 2 - j) / 3)%nat) /\
  NoDup (map c_key roster_cards).
Proof.
  assert (H : browse_cards 0 developers = inl roster_cards) by (vm_compute; reflexivity).
  destruct (browse_layout developers roster_cards H) as (_ & _ & Hcount & Hkeys).
  split; [exact H |]. split; [exact Hcount |]. apply Hkeys.
  apply (bool_decide_unpack _). vm_compute. reflexivity.
Defined.
