(* ===== verification/PageView.v ===== *)
(** * What the rest of the page draws

    The elements a run draws outside the chat box and the profile cards
    ([Render], [Dashboard]): the sidebar (lines 31-51), the title (108),
    the login form (112-116), the top bar and the tabs (123-131), the
    headers of the browse and matchmaker tabs (135, 151-152), the toast
    of a browse click (147), the matchmaker's spinner and banners
    (153-162), and the chat tab's input controls and typing spinner
    (195-200, 229).

    The matchmaker's banners are drawn as [handle_match_result] runs:
    [match_banners] follows the same branches and records what has been
    drawn when the run ends, normally or by an exception.
    [matchmaker_view_agrees]: the banners and the run agree: the run
    raises exactly the exception the drawing stops at, the "Best
    Match" banner is drawn exactly when the run selects a persona and
    names it, and a failed call or an answer that is not JSON draws no
    banner at all. *)

From S2P Require Import Prelude PyStr Json PyJson Roster GenAI Roleplay Matchmaker Session.
From S2P Require Import Dashboard.

(** The Streamlit elements the page draws.  [EInfoValue prefix v] is
    [st.info(f"{prefix}{v}")] of a decoded JSON value [v]: it records the
    value the f-string formats (its [str]). *)
Inductive element : Type :=
| ETitle (text : string)
| EHeader (text : string)
| ESubheader (text : string)
| EWrite (text : string)
| EMarkdown (text : string)
| ECaption (text : string)
| ETextInput (label : string) (password : bool)
| ETextArea (label : string)
| EButton (label : string)
| EFormSubmit (label : string)
| ETabs (labels : list string)
| ESuccess (text : string)
| EError (text : string)
| EInfoValue (prefix : string) (v : json)
| EBalloons
| EToast (text icon : string)
| ESpinner (text : string)
| EExpander (label : string)
| EFileUploader (label : string)
| EChatInput (placeholder : string).

(** ** The sidebar *)

(** Lines 45 and 47. *)
Definition status_view (st : Discovery.sidebar_status) : list element :=
  match st with
  | Discovery.StatusNone => []
  | Discovery.StatusOnline m => [ESuccess ("✅ Online: " +:+ m)]
  | Discovery.StatusKeyError => [EError "❌ Key Error"]
  end.

(** Lines 31-51. *)
Definition sidebar_view (cfg : config) : list element :=
  [EHeader "⚙️ Configuration"; ETextInput "Enter Google API Key:" true] ++
  status_view (snd (Discovery.select_model (cfg_api_key cfg) (cfg_listing cfg))) ++
  [EMarkdown "---";
   ECaption ("👥 Community Members: **" +:+ py_str_int (Z.of_nat (length developers)) +:+ "**");
   EButton "🗑️ Clear Chat"].

(** ** The page body *)

(** Line 108. *)
Definition page_title : element := ETitle "🌐 Dev Connect Global".

(** Lines 112-116. *)
Definition login_view : list element :=
  [ESubheader "👋 Create Profile"; ETextInput "Name" false; ETextArea "Skills & Interests";
   EFormSubmit "Join Community"].

(** Lines 123-127: the top bar. *)
Definition top_bar (u : profile) : list element :=
  [EWrite ("Logged in as **" +:+ u_name u +:+ "**"); EButton "🚪 Logout"].

(** Line 131: the tabs, drawn after the logout button's [st.rerun()]. *)
Definition tab_labels : element :=
  ETabs ["👥 Browse Community"; "🤖 AI Matchmaker"; "💬 Private Chat"].

(** Line 135. *)
Definition browse_header : element := EWrite "### Explore Profiles".

(** Line 147: the toast of the clicked member's button. *)
Definition browse_toasts (ev : event) (ds : list persona) : list element :=
  map (fun dev => EToast ("Started chat with " +:+ p_name dev +:+ "!") "💬")
      (filter (fun dev => ev = ClickMessage (p_id dev)) ds).

(** Lines 159-162, drawn as [handle_match_result] runs (lines 155-162):
    the elements drawn and the exception that ends the run, if any. *)
Definition match_banners (match_result : json) : list element * option py_exc :=
  match py_get match_result "name" with
  | inr e => ([], Some e)
  | inl name =>
      if is_error_name name then ([], None)
      else
        match next_by_name match_result developers with
        | inr e => ([], Some e)
        | inl full_profile =>
            let shown := [EBalloons; ESuccess ("**Best Match:** " +:+ p_name full_profile)] in
            match py_getitem match_result "reason" with
            | inr e => (shown, Some e)
            | inl reason => (shown ++ [EInfoValue "**AI Logic:** " reason; EButton "Go to Chat ➡️"], None)
            end
        end
  end.

(** Lines 151-162: the tab's header and button, and when the button
    was clicked, the spinner and the banners of the decoded answer. *)
Definition matchmaker_view (clicked : option json) : list element * option py_exc :=
  let head := [EWrite "### Let AI Find Your Partner"; EButton "Analyze My Profile & Find Match"] in
  match clicked with
  | None => (head, None)
  | Some match_result =>
      let '(shown, exc) := match_banners match_result in
      (head ++ ESpinner "AI is interviewing candidates..." :: shown, exc)
  end.

(** Lines 195-200: the chat tab's input controls. *)
Definition chat_controls : list element :=
  [EExpander "📎 Attach File (Image, Video, Code)"; EFileUploader "Upload assets to share";
   EButton "Send File"; EChatInput "Type your message..."].

(** Line 229. *)
Definition typing_spinner (target : persona) : element :=
  ESpinner (p_name target +:+ " is typing...").

(** ** The banners and the run agree *)

(** How a run that stops at exception [exc] ends. *)
Definition exc_result (exc : option py_exc) : stop + unit :=
  match exc with None => inr tt | Some e => inl (Raised e) end.

Lemma next_by_name_in (v : json) (ds : list persona) (d : persona) :
  next_by_name v ds = inl d -> d ∈ ds.
Proof.
  induction ds as [|d' ds IH]; cbn [next_by_name]; [done |].
  destruct (py_getitem v "name") as [x|]; [| done].
  destruct (py_eq_str x (p_name d')); [intros [= ->]; apply list_elem_of_here |].
  intros H. apply list_elem_of_further, IH, H.
Qed.

(** [handle_match_result] on a decoded answer ends as [match_banners]
    says, and it changes the session exactly when the "Best Match"
    banner is drawn, to the persona the banner names. *)
Lemma match_banners_run (v : json) (s : session) :
  exists s', handle_match_result v s = GRet (s', exc_result (match_banners v).2) /\
    (((match_banners v).1 = [] /\ s' = s) \/
     (exists d, d ∈ developers /\ s' = select d s /\
        ESuccess ("**Best Match:** " +:+ p_name d) ∈ (match_banners v).1)).
Proof.
  unfold handle_match_result, match_banners.
  destruct (py_get v "name") as [name|e]; [| exists s; split; [reflexivity | by left]].
  destruct (is_error_name name); [exists s; split; [reflexivity | by left] |].
  destruct (next_by_name v developers) as [d|e] eqn:En;
    [| exists s; split; [reflexivity | by left]].
  exists (select d s).
  destruct (py_getitem v "reason") as [reason|e]; (split; [reflexivity |]); right;
    exists d; (split; [by eapply next_by_name_in |]); split; try done;
    apply list_elem_of_In; simpl; tauto.
Qed.

Section MatchView.
Context `{!JsonLib}.

(** C23: The matchmaker tab's display agrees with what the run does,
    for every answer of the model: the run ends with exactly the
    exception the tab's drawing stops at (and, when the tab does not
    raise, as the chat tab's history loop drawn after it ends); the
    session changes exactly when the "Best Match" banner is drawn, and
    then to the roster persona it names (with an emptied log); and when
    the call fails or the answer is not JSON (after Python's fence and
    whitespace stripping), no banner at all is drawn, so the failure is
    not shown (the spec asks for a visible failure state). *)
Theorem matchmaker_view_agrees (cfg : config) (s : session) (u : profile) (a : gen_result) s' r :
  user_profile s = Some u ->
  gen_exec (page cfg ClickFindMatch s) [match_call cfg u a] (s', r) ->
  (forall e, (match_banners (decode_answer a)).2 = Some e -> r = inl (Raised e)) /\
  ((match_banners (decode_answer a)).2 = None -> r = history_result s') /\
  (((match_banners (decode_answer a)).1 = [] /\ s' = s) \/
   (exists d, d ∈ developers /\ s' = select d s /\
      ESuccess ("**Best Match:** " +:+ p_name d) ∈ (match_banners (decode_answer a)).1)) /\
  ((a = GenFail \/ exists txt, a = GenText txt /\ json_loads (clean_response txt) = None) ->
   match_banners (decode_answer a) = ([], None)).
Proof.
  intros Hu Hr. apply (page_find_match_answer _ _ u) in Hr as (r1 & Hx' & ->); [| done].
  destruct (match_banners_run (decode_answer a) s) as (s1 & Hx & Hs).
  rewrite Hx in Hx'. injection Hx' as <- <-.
  split; [by intros e -> |]. split; [by intros -> |]. split; [done |].
  intros Ha. assert (E : decode_answer a = error_result).
  { destruct Ha as [-> | (txt & -> & Hj)]; [done |]. by apply decode_answer_undecodable. }
  by rewrite E.
Qed.
End MatchView.

Module Witnesses.
Import Session.Witnesses.

(** The model answers that Alice Chen fits, with a reason. *)
Definition alice_answer : string :=
  "{" +:+ dq +:+ "name" +:+ dq +:+ ": " +:+ dq +:+ "Alice Chen" +:+ dq +:+ ", " +:+
  dq +:+ "reason" +:+ dq +:+ ": " +:+ dq +:+ "UI" +:+ dq +:+ "}".

Definition run_match := gen_run (fun _ _ => GenText alice_answer)
                                (@page py_json cfg0 ClickFindMatch s_joined).

Lemma matchmaker_view_agrees_witness :
  @gen_exec _ (@page py_json cfg0 ClickFindMatch s_joined)
    [@match_call py_json cfg0 sam (GenText alice_answer)]
    (fst (fst run_match), snd (fst run_match)) /\
  ((match_banners (@decode_answer py_json (GenText alice_answer))).2 = None ->
   snd (fst run_match) = history_result (fst (fst run_match))).
Proof.
  assert (H : @gen_exec _ (@page py_json cfg0 ClickFindMatch s_joined)
                [@match_call py_json cfg0 sam (GenText alice_answer)]
                (fst (fst run_match), snd (fst run_match))).
  { apply (gen_exec_of_run (fun _ _ => GenText alice_answer)). vm_compute. reflexivity. }
  split; [exact H |].
  exact (proj1 (proj2 (@matchmaker_view_agrees py_json cfg0 s_joined sam _ _ _ eq_refl H))).
Defined.
End Witnesses.
