(* ===== verification/Errors.v ===== *)
(** * Where a run of the script goes wrong

    An uncaught Python exception ends a Streamlit run and shows a
    traceback.  Two handlers of [page] can raise.  The matchmaker tab:
    [find_best_match] catches every failure of the call and of the
    decoding, but what the tab does with the decoded value
    ([Session.handle_match_result], lines 155-162) assumes a dict with a
    roster name and a reason.  The chat tab's history loop (lines
    184-190): [st.image] hands an image-typed upload to PIL, which
    raises [UnidentifiedImageError] on a format it cannot open
    ([Session.history_loop]).  The browse loop's [name.split()[0]]
    could raise [IndexError] on a blank name, but no roster name is
    blank ([Dashboard.browse_layout_witness]).

    [run_raises_only_matchmaker]: a run raises either when the
    matchmaker button was clicked, logged in, with one of four
    exceptions, the one the tab's drawing stops at
    ([PageView.match_banners]); or with [UnidentifiedImageError] from
    the history loop, with a persona selected and a broken image in
    the log, and then the session is left unchanged. *)

From S2P Require Import Prelude PyStr Json PyJson Roster GenAI Roleplay Matchmaker Session.
From S2P Require Import Dashboard PageView.

(** The roster search of line 156 on a decoded dict raises only
    [KeyError 'name'] or [StopIteration]. *)
Lemma next_by_name_exc (fields : list (string * json)) (ds : list persona) (e : py_exc) :
  next_by_name (JObj fields) ds = inr e -> e = KeyError "name" \/ e = StopIteration.
Proof.
  induction ds as [|d ds IH]; cbn [next_by_name]; [intros [= <-]; by right |].
  cbn [py_getitem]. destruct (obj_lookup "name" fields) as [x|]; [| intros [= <-]; by left].
  destruct (py_eq_str x (p_name d)); [done | exact IH].
Qed.

(** The exceptions the matchmaker tab's handling of a decoded value can
    raise: [.get] on a value that is not a dict, [d["name"]] when the
    name is missing, [next] when no member has the name, and
    [match_result['reason']] when the reason is missing. *)
Lemma match_banners_exc (v : json) (e : py_exc) :
  (match_banners v).2 = Some e ->
  e = AttributeError \/ e = KeyError "name" \/ e = StopIteration \/ e = KeyError "reason".
Proof.
  unfold match_banners. destruct v as [| | | | | |fields]; cbn [py_get];
    try (intros [= <-]; by left).
  destruct (is_error_name (obj_lookup "name" fields)); [done |].
  destruct (next_by_name (JObj fields) developers) as [d|e'] eqn:En.
  - cbn [py_getitem]. destruct (obj_lookup "reason" fields); [done |].
    intros [= <-]. by do 3 right.
  - intros [= <-]. destruct (next_by_name_exc _ _ _ En) as [-> | ->]; tauto.
Qed.

(** A run that computes to a value ends as that value says. *)
Lemma gen_exec_ret_result {A} (s1 s' : session) (r1 r : A) t :
  gen_exec (GRet (s1, r1)) t (s', r) -> r = r1.
Proof. intros H. by apply gen_exec_ret_inv in H as [_ [= _ ->]]. Qed.

(** The login form never raises. *)
Lemma login_form_no_raise (key : string) (ev : event) (s : session) :
  exists s1 r1, login_form key ev s = GRet (s1, r1) /\ (r1 = inl Rerun \/ r1 = inr tt).
Proof.
  destruct ev; unfold login_form; try (eexists _, _; split; [reflexivity | by right]).
  destruct (py_truthy key); eexists _, _; (split; [reflexivity |]); [by left | by right].
Qed.

(** A run that ends without raising: the event's handler computes to a
    value that is a rerun or a normal end. *)
Ltac not_raised Hr :=
  apply gen_exec_ret_result in Hr; discriminate Hr.

(** The chat tab's history loop raises only [UnidentifiedImageError],
    on an open chat whose log holds an image PIL cannot open. *)
Lemma history_result_raise (s : session) (e : py_exc) :
  history_result s = inl (Raised e) ->
  e = UnidentifiedImageError /\ selected_match s <> None /\ history_breaks (messages s) = true.
Proof.
  unfold history_result. destruct (selected_match s); [| done].
  by destruct (history_breaks (messages s)); intros [= <-].
Qed.

(** A run that ends as the history loop on [s1] does. *)
Lemma gen_exec_history (s1 s' : session) t (e : py_exc) :
  gen_exec (GRet (s1, history_result s1)) t (s', inl (Raised e)) ->
  s' = s1 /\ e = UnidentifiedImageError /\ selected_match s1 <> None /\
  history_breaks (messages s1) = true.
Proof. intros [_ [= -> He]]%gen_exec_ret_iff. split; [done |]. by apply history_result_raise. Qed.

(** Selecting empties the log, so a session the history loop stops in
    was not just selected. *)
Lemma selected_or_same (s1 s : session) :
  (s1 = s \/ exists d, s1 = select d s) -> history_breaks (messages s1) = true -> s1 = s.
Proof. by intros [-> | [d ->]]. Qed.

Lemma browse_effect_cases (ev : event) (s : session) :
  browse_effect ev s = s \/ exists d, browse_effect ev s = select d s.
Proof.
  destruct ev; cbn [browse_effect]; try by left.
  destruct (find_by_id id developers); [right; by eexists | by left].
Qed.

(** Closes the case of a run that ends as the chat tab's history loop. *)
Ltac image_case H :=
  apply gen_exec_history in H as (-> & -> & ? & ?); right; repeat split; (done || congruence).

Section GoesWrong.
Context `{!JsonLib}.

(** C8: A run of the script goes wrong (ends with an uncaught
    exception) in two ways only.  Either the matchmaker button is
    clicked by a logged-in user, its one call is answered by a value
    the tab's handling chokes on, and the exception is the one the
    tab's drawing stops at: [AttributeError] (not a dict),
    [KeyError 'name'], [StopIteration] (no roster member has the name)
    or [KeyError 'reason'].  Or the chat tab is drawn for an open chat
    whose log holds a shared image PIL cannot open (an SVG or HEIC file
    typed [image/...]): [st.image] in the history loop raises
    [UnidentifiedImageError], on every event that reaches the tab, and
    the session is left as it was.  Login, logout, Clear Chat and
    selecting a persona never raise. *)
Theorem run_raises_only_matchmaker (cfg : config) (ev : event) (s : session) t s' (e : py_exc) :
  gen_exec (page cfg ev s) t (s', inl (Raised e)) ->
  (ev = ClickFindMatch /\
   exists u a, user_profile s = Some u /\ t = [match_call cfg u a] /\
     (match_banners (decode_answer a)).2 = Some e /\
     (e = AttributeError \/ e = KeyError "name" \/ e = StopIteration \/ e = KeyError "reason")) \/
  (e = UnidentifiedImageError /\ s' = s /\ user_profile s <> None /\
   selected_match s <> None /\ history_breaks (messages s) = true).
Proof.
  intros Hr. destruct (decide (ev = ClickClearChat)) as [->|Hclr].
  { rewrite page_clear in Hr. not_raised Hr. }
  destruct (user_profile s) as [u|] eqn:Hu.
  2:{ rewrite page_logged_out in Hr by done.
      destruct (login_form_no_raise (cfg_api_key cfg) ev s) as (s1 & r1 & Hx & [-> | ->]);
        rewrite Hx in Hr; not_raised Hr. }
  assert (Hin : Some u <> None) by done.
  destruct ev as [| |n b| |id| |f|p]; try done.
  - rewrite (page_inert _ _ _ u) in Hr by eauto. image_case Hr.
  - rewrite (page_inert _ _ _ u) in Hr by eauto. image_case Hr.
  - rewrite (page_logout _ _ u) in Hr by done. not_raised Hr.
  - rewrite (page_message _ _ _ u) in Hr by done. right.
    apply gen_exec_history in Hr as (-> & -> & Hsel & Hb).
    pose proof (selected_or_same _ _ (browse_effect_cases (ClickMessage id) s) Hb) as E.
    repeat split; [exact E | done | by rewrite <- E | by rewrite <- E].
  - apply (page_find_match _ _ u) in Hr as (a & -> & r1 & Hx & Hend); [| done].
    destruct (match_banners_run (decode_answer a) s) as (s1 & Hx' & Hs).
    rewrite Hx' in Hx. injection Hx as <- <-.
    destruct (match_banners (decode_answer a)).2 as [e'|] eqn:He; cbn in Hend.
    + injection Hend as <-. left. split; [done |]. exists u, a.
      split; [done |]. split; [reflexivity |].
      split; [done | by apply (match_banners_exc (decode_answer a))].
    + right. symmetry in Hend. apply history_result_raise in Hend as (-> & Hsel & Hb).
      assert (s1 = s) as ->.
      { apply (selected_or_same _ _); [| done].
        destruct Hs as [[_ ->] | (d & _ & -> & _)]; [by left | right; by exists d]. }
      repeat split; (done || congruence).
  - rewrite (page_send_file _ _ _ u) in Hr by done.
    destruct f as [f|]; destruct (selected_match s) as [d|] eqn:Hsel.
    + destruct (history_breaks (messages s)) eqn:Hb; [| not_raised Hr].
      apply gen_exec_ret_iff in Hr as [_ [= -> ->]]. right. repeat split; (done || congruence).
    + apply gen_exec_history in Hr as (_ & _ & Hs & _). by rewrite Hsel in Hs.
    + apply gen_exec_history in Hr as (-> & -> & Hs & Hb). right. repeat split; (done || congruence).
    + apply gen_exec_history in Hr as (_ & _ & Hs & _). by rewrite Hsel in Hs.
  - apply (page_send_text _ _ _ u) in Hr; [| done].
    destruct (selected_match s) as [target|] eqn:Hsel.
    + destruct (history_breaks (messages s)) eqn:Hb.
      { rewrite (chat_tab_broken _ _ _ target) in Hr by done.
        apply gen_exec_ret_iff in Hr as [_ [= -> ->]]. right. repeat split; (done || congruence). }
      destruct (py_truthy p) eqn:Hp.
      * by apply (chat_tab_send_text _ _ _ target) in Hr as (reply & _ & _ & ?).
      * rewrite chat_tab_empty_text in Hr by done. image_case Hr.
    + rewrite chat_tab_no_selection in Hr by done. not_raised Hr.
Qed.
End GoesWrong.

Module Witnesses.
Import Session.Witnesses.

(** The model names a person who is not in the roster. *)
Definition zed_answer : string :=
  "{" +:+ dq +:+ "name" +:+ dq +:+ ": " +:+ dq +:+ "Zed" +:+ dq +:+ "}".

Definition run_zed := gen_run (fun _ _ => GenText zed_answer)
                              (@page py_json cfg0 ClickFindMatch s_joined).

Lemma run_raises_only_matchmaker_witness :
  @gen_exec _ (@page py_json cfg0 ClickFindMatch s_joined) (snd run_zed)
    (fst (fst run_zed), inl (Raised StopIteration)) /\
  exists u a, user_profile s_joined = Some u /\ snd run_zed = [@match_call py_json cfg0 u a] /\
    (match_banners (@decode_answer py_json a)).2 = Some StopIteration.
Proof.
  assert (H : @gen_exec _ (@page py_json cfg0 ClickFindMatch s_joined) (snd run_zed)
                (fst (fst run_zed), inl (Raised StopIteration))).
  { apply (gen_exec_of_run (fun _ _ => GenText zed_answer)). vm_compute. reflexivity. }
  split; [exact H |].
  destruct (@run_raises_only_matchmaker py_json cfg0 _ _ _ _ _ H)
    as [(_ & u & a & Hu & Ht & He & _) | (? & _)]; [| discriminate].
  exists u, a. split; [exact Hu |]. split; [exact Ht | exact He].
Defined.
End Witnesses.
