(* ===== verification/Screen.v ===== *)
(** * The screen of one run

    The display components composed in the script's order: the
    sidebar, the title, then the login form, or the top bar, the tabs,
    the browse tab (its header, the profile cards and the toast of a
    click), the matchmaker tab (its header, button, spinner and
    banners) and the chat tab (the chat room or the info banner, the
    input controls and the typing spinner).  A run draws until it stops:
    [st.rerun()] right after Clear Chat, a login, a logout or a shared
    file, an uncaught exception in the matchmaker tab or in the chat
    tab's history loop (or in the browse loop on a blank name).  The model answers the one call of the run
    ([Resources.run_calls]) with [a]; the sessions each tab reads are
    computed by the script's own handlers.

    Toasts are pop-ups, drawn here after the cards; the chat box is a
    container, so the live bubbles of a chat turn appear in it, above
    the input controls drawn before them.

    [screen_same_run_selection]: because the chat tab comes after the
    browse and matchmaker tabs, a selection made in a run is drawn by
    that same run: the chosen persona's room with an empty box, unless
    the matchmaker tab raised, in which case no chat tab is drawn at
    all although the selection was already stored. *)

From S2P Require Import Prelude PyStr Json PyJson Roster GenAI Roleplay Matchmaker Session.
From S2P Require Import Completeness Render Dashboard PageView.
From stdpp Require Import sets.

(** What the screen shows, in order. *)
Inductive item : Type :=
| IElem (e : element)
| ICard (c : card)
| IRoom (v : tab_view).

Section Screen.
Context `{!JsonLib}.

(** The reply the chat tab gets for a text (line 230). *)
Definition chat_reply (oracle : string -> string -> gen_result) (md : string) (ev : event)
    (s : session) : string :=
  match ev, selected_match s with
  | SubmitChat p, Some target =>
      fst (gen_run oracle (chat_with_persona md p (p_name target)
                             (file_context_of (messages s ++ [user_text p]))))
  | _, _ => ""
  end.

(** Lines 195-200 and 229 outside the chat box: the input controls, and
    the typing spinner of a text; neither is drawn when the history loop
    raised. *)
Definition chat_extras (ev : event) (s : session) : list item :=
  match selected_match s with
  | None => []
  | Some target =>
      if history_breaks (messages s) then [] else
      map IElem chat_controls ++
      match ev with
      | SubmitChat p => if py_truthy p then [IElem (typing_spinner target)] else []
      | _ => []
      end
  end.

(** Lines 168-170 and 174: the room of a persona just selected, its
    chat box empty. *)
Definition opened_room (d : persona) : item :=
  IRoom (ViewRoom ("### 💬 Chat with " +:+ p_name d)
                  ("Role: " +:+ p_role d +:+ " | Style: " +:+ p_style d) []).

(** Lines 31-234: what a run draws and how it ends. *)
Definition screen (cfg : config) (ev : event) (s : session) (a : gen_result)
    : list item * (stop + unit) :=
  let oracle := fun _ _ : string => a in
  let side := map IElem (sidebar_view cfg) in
  if bool_decide (ev = ClickClearChat) then (side, inl Rerun) else
  let head := side ++ [IElem page_title] in
  match user_profile s with
  | None =>
      (head ++ map IElem login_view,
       snd (fst (gen_run oracle (login_form (cfg_api_key cfg) ev s))))
  | Some u =>
      let bar := head ++ map IElem (top_bar u) in
      if bool_decide (ev = ClickLogout) then (bar, inl Rerun) else
      let tabs := bar ++ [IElem tab_labels; IElem browse_header] in
      match browse_cards 0 developers with
      | inr e => (tabs, inl (Raised e))
      | inl cs =>
          let browse := tabs ++ map ICard cs ++ map IElem (browse_toasts ev developers) in
          let s1 := browse_effect ev s in
          let clicked := if bool_decide (ev = ClickFindMatch) then Some (decode_answer a) else None in
          let mm := matchmaker_view clicked in
          let shown := browse ++ map IElem mm.1 in
          match mm.2 with
          | Some e => (shown, inl (Raised e))
          | None =>
              let s2 := fst (fst (gen_run oracle (matchmaker_tab (model_of cfg) u ev s1))) in
              let r := snd (fst (gen_run oracle (chat_tab (model_of cfg) ev s2))) in
              let reply := chat_reply oracle (model_of cfg) ev s2 in
              (shown ++ IRoom (chat_tab_view s2 ev reply) :: chat_extras ev s2, r)
          end
      end
  end.

(** ** Lemmas *)

Lemma roster_cards_ok : browse_cards 0 developers = inl roster_cards.
Proof. vm_compute. reflexivity. Qed.

(** The matchmaker tab, its one call answered [a]: the handling of the
    decoded answer. *)
Lemma matchmaker_tab_run (md : string) (u : profile) (s : session) (a : gen_result) x :
  handle_match_result (decode_answer a) s = GRet x ->
  fst (gen_run (fun _ _ => a) (matchmaker_tab md u ClickFindMatch s)) = x.
Proof.
  intros Hx. unfold matchmaker_tab, find_best_match, lift_gen, sbind. cbn.
  rewrite Hx. by destruct x as [? [|]].
Qed.

(** The matchmaker tab does nothing on another event. *)
Lemma matchmaker_tab_other (md : string) (u : profile) (ev : event) (s : session) (a : gen_result) :
  ev <> ClickFindMatch ->
  fst (gen_run (fun _ _ => a) (matchmaker_tab md u ev s)) = (s, inr tt).
Proof. intros Hne. unfold matchmaker_tab. by destruct ev. Qed.

(** Membership in a mapped list, for [set_unfold]. *)
#[local] Instance set_unfold_map {A B} (f : A -> B) (l : list A) (y : B) (P : A -> Prop) :
  (forall x, SetUnfoldElemOf x l (P x)) ->
  SetUnfoldElemOf y (map f l) (exists x, y = f x /\ P x).
Proof.
  intros HP. constructor. rewrite list_elem_of_In, in_map_iff.
  setoid_rewrite <- list_elem_of_In. set_unfold. naive_solver.
Qed.

(** The sidebar's status banner is not the matchmaker's. *)
Lemma status_view_not_best (st : Discovery.sidebar_status) (n : string) :
  ESuccess ("**Best Match:** " +:+ n) ∉ status_view st.
Proof. destruct st; set_unfold; intros ?; destruct_or?; try done. Qed.

(** A "Best Match" banner names the persona the roster search found:
    the run selects it, and ends normally or on the missing reason. *)
Lemma match_banners_success (v : json) (d : persona) (s : session) :
  d ∈ developers ->
  ESuccess ("**Best Match:** " +:+ p_name d) ∈ (match_banners v).1 ->
  handle_match_result v s = GRet (select d s, exc_result (match_banners v).2) /\
  ((match_banners v).2 = None \/ (match_banners v).2 = Some (KeyError "reason")).
Proof.
  intros Hd. unfold handle_match_result, match_banners.
  destruct v as [| | | | | |fields]; cbn [py_get]; [cbn [fst]; by intros ?%elem_of_nil.. |].
  destruct (is_error_name (obj_lookup "name" fields)); [cbn [fst]; by intros ?%elem_of_nil |].
  destruct (next_by_name (JObj fields) developers) as [d'|e] eqn:En; [| cbn [fst]; by intros ?%elem_of_nil].
  intros Hin. assert (d' = d) as ->.
  { apply next_by_name_in in En.
    assert (Hn : p_name d' = p_name d).
    { destruct (py_getitem (JObj fields) "reason"); cbn in Hin; set_unfold in Hin;
        decompose [or] Hin; simplify_eq; try done; symmetry; by eapply string_app_inv_head. }
    pose proof (find_persona_complete _ _ developers_names_unique Hd) as E1.
    rewrite <- Hn, (find_persona_complete _ _ developers_names_unique En) in E1. congruence. }
  cbn [py_getitem]. destruct (obj_lookup "reason" fields); (split; [reflexivity | cbn; auto]).
Qed.

(** Nothing the page draws before the matchmaker tab is a chat room
    or a "Best Match" banner. *)
Lemma browse_part_clean (cfg : config) (u : profile) (ev : event) (cs : list card) (x : item) :
  x ∈ (((map IElem (sidebar_view cfg) ++ [IElem page_title]) ++ map IElem (top_bar u)) ++
       [IElem tab_labels; IElem browse_header]) ++ map ICard cs ++ map IElem (browse_toasts ev developers) ->
  (forall v, x <> IRoom v) /\ (forall n, x <> IElem (ESuccess ("**Best Match:** " +:+ n))).
Proof.
  unfold sidebar_view, browse_toasts. set_unfold.
  intros Hx; split; intros y ->; decompose [or ex and] Hx; simplify_eq; try done.
  by eapply status_view_not_best.
Qed.

(** Running [m ;; f]: [f] runs on the session [m] leaves, unless [m]
    stopped. *)
Lemma gen_run_sbind {A B} oracle (m : script A) (f : A -> script B) (s : session) :
  fst (gen_run oracle (sbind m f s)) =
  match fst (gen_run oracle (m s)) with
  | (s1, inl e) => (s1, inl e)
  | (s1, inr x) => fst (gen_run oracle (f x s1))
  end.
Proof. unfold sbind. rewrite gen_run_bind_fst. by destruct (fst (gen_run oracle (m s))) as [? [|]]. Qed.

(** The screen ends as the run of the script does. *)
Lemma screen_result (cfg : config) (ev : event) (s : session) (a : gen_result) :
  (screen cfg ev s a).2 = snd (fst (gen_run (fun _ _ => a) (page cfg ev s))).
Proof.
  unfold page, screen. rewrite gen_run_sbind.
  case_bool_decide as Hc; [by subst |].
  replace (sidebar_clear ev s) with (GRet (A:=session * (stop + unit)) (s, inr tt)) by (by destruct ev).
  cbn [gen_run fst]. rewrite gen_run_sbind. cbn [get_s gen_run fst].
  destruct (user_profile s) as [u|] eqn:Hu; [| done].
  rewrite gen_run_sbind. case_bool_decide as Hl; [by subst |].
  replace (logout_button ev s) with (GRet (A:=session * (stop + unit)) (s, inr tt)) by (by destruct ev).
  cbn [gen_run fst]. rewrite roster_cards_ok, gen_run_sbind, browse_loop_developers.
  cbn [gen_run fst]. rewrite gen_run_sbind. cbv zeta.
  case_bool_decide as Hf.
  - subst ev. destruct (match_banners_run (decode_answer a) (browse_effect ClickFindMatch s))
      as (s' & Hx & _).
    rewrite (matchmaker_tab_run _ _ _ _ _ Hx), !chat_tab_other by done. cbn [matchmaker_view].
    destruct (match_banners (decode_answer a)) as [shown [e|]]; cbn; done.
  - rewrite matchmaker_tab_other by done. done.
Qed.

(** Discards a membership in what is drawn before the matchmaker tab. *)
Ltac drop_prefix H :=
  apply browse_part_clean in H as [Hr Hb]; first [destruct (Hr _ eq_refl) | destruct (Hb _ eq_refl)].

(** No chat room is drawn up to the matchmaker tab's banners. *)
Ltac no_room H :=
  apply elem_of_app in H as [H|H]; [drop_prefix H | set_unfold in H; naive_solver].

(** Unfolds [screen] for a logged-in user's event that is neither
    Clear Chat nor Logout. *)
Ltac open_screen ev Hu :=
  unfold screen; rewrite (bool_decide_false (ev = ClickClearChat)) by done;
  rewrite Hu, (bool_decide_false (ev = ClickLogout)) by done;
  rewrite roster_cards_ok; cbv zeta.

(** C19: What a run draws follows what it does.  The screen ends as
    the run of [page] ends (a rerun, an uncaught exception or a normal
    end).  Because the chat tab is drawn after the browse and
    matchmaker tabs, a persona selected in a run is shown by that same
    run: a click on a roster member's Message button draws that
    member's chat room with an empty box; a "Best Match" banner is
    followed by the matched persona's chat room, unless the answer has
    no reason, in which case the run raises [KeyError 'reason'] after
    the banner and draws no chat room (the selection is stored all the
    same); and whenever the matchmaker tab raises, the run ends with
    that exception and no chat room is drawn. *)
Theorem screen_same_run_selection (cfg : config) (s : session) (u : profile) (a : gen_result) :
  user_profile s = Some u ->
  (forall ev, (screen cfg ev s a).2 = snd (fst (gen_run (fun _ _ => a) (page cfg ev s)))) /\
  (forall d, d ∈ developers -> opened_room d ∈ (screen cfg (ClickMessage (p_id d)) s a).1) /\
  (forall d, d ∈ developers ->
     IElem (ESuccess ("**Best Match:** " +:+ p_name d)) ∈ (screen cfg ClickFindMatch s a).1 ->
     opened_room d ∈ (screen cfg ClickFindMatch s a).1 \/
     ((screen cfg ClickFindMatch s a).2 = inl (Raised (KeyError "reason")) /\
      forall v, IRoom v ∉ (screen cfg ClickFindMatch s a).1)) /\
  (forall e, (match_banners (decode_answer a)).2 = Some e ->
     (screen cfg ClickFindMatch s a).2 = inl (Raised e) /\
     forall v, IRoom v ∉ (screen cfg ClickFindMatch s a).1).
Proof.
  intros Hu. split; [intros ev; apply screen_result |]. split.
  { intros d Hd. open_screen (ClickMessage (p_id d)) Hu.
    rewrite (bool_decide_false (ClickMessage (p_id d) = ClickFindMatch)) by done.
    rewrite matchmaker_tab_other by done. cbn [matchmaker_view fst snd browse_effect].
    rewrite (find_by_id_complete _ _ developers_ids_unique Hd).
    apply elem_of_app. right. by left. }
  open_screen ClickFindMatch Hu.
  rewrite (bool_decide_true (ClickFindMatch = ClickFindMatch)) by done.
  cbn [matchmaker_view browse_effect].
  destruct (match_banners (decode_answer a)) as [shown exc] eqn:Eb. cbn [fst snd].
  destruct exc as [e'|]; cbn [fst snd].
  - split; [| intros e He; cbn in He; injection He as <-; split; [done | intros v Hv; by no_room Hv]].
    intros d Hd Hin. right. assert (Hs : ESuccess ("**Best Match:** " +:+ p_name d) ∈ shown).
    { apply elem_of_app in Hin as [Hin|Hin]; [by drop_prefix Hin |].
      set_unfold in Hin. decompose [or ex and] Hin; by simplify_eq. }
    pose proof (match_banners_success (decode_answer a) d s Hd) as Hm. rewrite Eb in Hm. cbn [fst snd] in Hm.
    destruct (Hm Hs) as [_ [E|E]]; simplify_eq.
    split; [done | intros v Hv; by no_room Hv].
  - split; [| intros e He; by cbn in He].
    intros d Hd Hin. left. assert (Hs : ESuccess ("**Best Match:** " +:+ p_name d) ∈ shown).
    { apply elem_of_app in Hin as [[Hin|Hin]%elem_of_app|Hin]; [by drop_prefix Hin | |].
      - set_unfold in Hin. decompose [or ex and] Hin; by simplify_eq.
      - unfold chat_extras in Hin.
        destruct (selected_match _); [destruct (history_breaks _) |]; set_unfold in Hin; naive_solver. }
    pose proof (match_banners_success (decode_answer a) d s Hd) as Hm. rewrite Eb in Hm. cbn [fst snd] in Hm.
    destruct (Hm Hs) as [Hx _]. rewrite (matchmaker_tab_run _ _ _ _ _ Hx).
    apply elem_of_app. right. by left.
Qed.
End Screen.

Module Witnesses.
Import Session.Witnesses.

(** The model picks Bob Smith and gives no reason. *)
Definition bob_no_reason : string :=
  "{" +:+ dq +:+ "name" +:+ dq +:+ ": " +:+ dq +:+ "Bob Smith" +:+ dq +:+ "}".

Definition screen_bob := @screen py_json cfg0 ClickFindMatch s_joined (GenText bob_no_reason).

Lemma screen_same_run_selection_witness :
  screen_bob.2 = inl (Raised (KeyError "reason")) /\
  IElem (ESuccess ("**Best Match:** " +:+ p_name bob)) ∈ screen_bob.1 /\
  opened_room bob ∈ (@screen py_json cfg0 (ClickMessage (p_id bob)) s_joined (GenText bob_no_reason)).1 /\
  (opened_room bob ∈ screen_bob.1 \/
   (screen_bob.2 = inl (Raised (KeyError "reason")) /\ forall v, IRoom v ∉ screen_bob.1)).
Proof.
  assert (Hin : IElem (ESuccess ("**Best Match:** " +:+ p_name bob)) ∈ screen_bob.1).
  { apply list_elem_of_In. vm_compute. tauto. }
  destruct (@screen_same_run_selection py_json cfg0 s_joined sam (GenText bob_no_reason) eq_refl)
    as (_ & Hmsg & Hbest & _).
  split; [vm_compute; reflexivity |]. split; [exact Hin |].
  split; [exact (Hmsg bob bob_in_roster) | exact (Hbest bob bob_in_roster Hin)].
Defined.
End Witnesses.
