(* ===== verification/Scenarios.v ===== *)
(** * End-to-end scenarios

    The concrete scenarios of the spec's testable properties, run on the
    whole script ([page]) from the initial session, with the answers of
    the model given as an oracle and the [py_json] decoder standing in
    for Python's [json] module.  Every run is computed by [vm_compute];
    the sessions are reachable because each is the result of a run. *)

From S2P Require Import Prelude PyStr Json PyJson Roster GenAI Roleplay Matchmaker Session.

Definition cfg : config := {| cfg_api_key := "AIza-key"; cfg_listing := None |}.

Definition sam : profile := {| u_name := "Sam"; u_bio := "loves Go backends" |}.

Definition persona_at (i : nat) : persona :=
  nth i developers {| p_id := 0; p_name := ""; p_role := ""; p_stack := "";
                      p_bio := ""; p_avatar := ""; p_style := "" |}.

(** The oracle that always gives the same answer. *)
Definition always (a : gen_result) (_ _ : string) : gen_result := a.

(** The session one run leaves. *)
Definition after (oracle : string -> string -> gen_result) (ev : event) (s : session) : session :=
  fst (fst (gen_run oracle (@page py_json cfg ev s))).

Definition joined : session := after (always GenFail) (SubmitJoin "Sam" "loves Go backends") init_session.
Definition with_bob : session := after (always GenFail) (ClickMessage 2) joined.

Lemma reachable_after oracle (ev : event) (s : session) :
  @reachable py_json s -> @reachable py_json (after oracle ev s).
Proof. intros H. by apply (reachable_run oracle cfg ev s). Qed.

Lemma reachable_with_bob : @reachable py_json with_bob.
Proof. do 2 apply reachable_after. constructor. Qed.

(** Scenario "Sam chats with Bob": Sam joins with the bio "loves Go
    backends", opens a chat with Bob Smith and sends "hi".  Whatever the
    model answers, the log is exactly the user's "hi" followed by one
    assistant message (the answer's text, or ["..."] when the call
    failed), and Bob Smith's record stays selected throughout. *)
Theorem scenario_sam_bob_hi (a : gen_result) :
  let s := after (always a) (SubmitChat "hi") with_bob in
  @reachable py_json s /\
  user_profile s = Some sam /\
  selected_match with_bob = Some (persona_at 1) /\
  selected_match s = Some (persona_at 1) /\
  p_name (persona_at 1) = "Bob Smith" /\
  messages s = [user_text "hi"; assistant_text (reply_of a)].
Proof.
  split; [by apply reachable_after, reachable_with_bob |].
  destruct a; vm_compute; repeat split.
Qed.

Definition alice_answer : string :=
  "```json" +:+ nl +:+
  dumps (JObj [("name", JStr "Alice Chen"); ("reason", JStr "UI focus")]) +:+
  nl +:+ "```".

(** Scenario "matchmaker picks Alice": after a chat with Bob, the
    matchmaker is asked and the model answers, inside a markdown fence,
    [{"name": "Alice Chen", "reason": "UI focus"}]; the run completes,
    Alice Chen's record becomes the selection and the log is reset to
    empty. *)
Theorem scenario_match_alice :
  let s0 := after (always (GenText "Hello!")) (SubmitChat "hi") with_bob in
  let s := after (always (GenText alice_answer)) ClickFindMatch s0 in
  @reachable py_json s /\
  messages s0 <> [] /\
  selected_match s = Some (persona_at 0) /\ p_name (persona_at 0) = "Alice Chen" /\
  messages s = [] /\ user_profile s = Some sam /\
  snd (fst (gen_run (always (GenText alice_answer)) (@page py_json cfg ClickFindMatch s0)))
    = inr tt.
Proof.
  split; [by do 2 apply reachable_after; apply reachable_with_bob |].
  vm_compute. repeat split; discriminate.
Qed.

(** Scenario "matchmaker gets invalid JSON": the model answers text
    that is not JSON; [find_best_match] returns the sentinel, and the
    run leaves the session as it was (selection and log unchanged). *)
Theorem scenario_match_invalid_json :
  let a := GenText "Sorry, I cannot decide." in
  @decode_answer py_json a = error_result /\
  after (always a) ClickFindMatch with_bob = with_bob.
Proof. vm_compute. repeat split. Qed.

Definition list_answer : string := "[" +:+ dq +:+ "Alice Chen" +:+ dq +:+ "]".

(** Scenario "matchmaker gets a JSON list or number": the model
    answers the name inside a JSON array, or a bare number; both are
    valid JSON, [json.loads] returns a [list] or a [float], and
    [match_result.get("name")] raises [AttributeError], which nothing
    catches: the run ends with the exception, after the one call, and
    the session is left as it was. *)
Theorem scenario_match_non_object :
  let s := after (always (GenText "Hello!")) (SubmitChat "hi") with_bob in
  @decode_answer py_json (GenText list_answer) = JArr [JStr "Alice Chen"] /\
  @decode_answer py_json (GenText "4.5") = JFloat "4.5" /\
  fst (fst (gen_run (always (GenText list_answer)) (@page py_json cfg ClickFindMatch s))) = s /\
  snd (fst (gen_run (always (GenText list_answer)) (@page py_json cfg ClickFindMatch s)))
    = inl (Raised AttributeError) /\
  fst (fst (gen_run (always (GenText "4.5")) (@page py_json cfg ClickFindMatch s))) = s /\
  snd (fst (gen_run (always (GenText "4.5")) (@page py_json cfg ClickFindMatch s)))
    = inl (Raised AttributeError).
Proof. vm_compute. repeat split. Qed.

Definition design_png : uploaded_file :=
  {| uf_name := "design.png"; uf_type := "image/png"; uf_data := []; uf_opens := true |}.

(** Scenario "a file, then two texts" (spec 4.4 and 9): in Sam's
    chat with Bob, sharing [design.png] appends one message and makes no
    call; the next text is answered with the role-play prompt carrying
    the file instruction for [design.png]; the text after it is answered
    with no file instruction (the attachment was consumed); the log is
    the file, then the two turns. *)
Theorem scenario_file_then_two_texts :
  let s1 := after (always GenFail) (ClickSendFile (Some design_png)) with_bob in
  let r2 := gen_run (always (GenText "Nice colours")) (@page py_json cfg (SubmitChat "thoughts?") s1) in
  let r3 := gen_run (always (GenText "Sure")) (@page py_json cfg (SubmitChat "and now?") (fst (fst r2))) in
  snd (gen_run (always GenFail) (@page py_json cfg (ClickSendFile (Some design_png)) with_bob)) = [] /\
  messages s1 = [file_message design_png] /\
  map call_prompt (snd r2) =
    [roleplay_prompt (persona_at 1) "thoughts?" (file_instruction (Some "design.png"))] /\
  map call_prompt (snd r3) = [roleplay_prompt (persona_at 1) "and now?" (file_instruction None)] /\
  messages (fst (fst r3)) =
    [file_message design_png; user_text "thoughts?"; assistant_text "Nice colours";
     user_text "and now?"; assistant_text "Sure"].
Proof. vm_compute. repeat split. Qed.

(** Scenario "a file, then Clear Chat, then a text": Clear Chat
    empties the log and keeps Bob selected, and the next text is
    answered without any file instruction: the shared file is forgotten
    with the log (the spec's Clear Chat "clears the Message sequence
    only" and its pending attachment is not said to be cleared). *)
Theorem scenario_clear_drops_attachment :
  let s1 := after (always GenFail) (ClickSendFile (Some design_png)) with_bob in
  let s2 := after (always GenFail) ClickClearChat s1 in
  let r3 := gen_run (always (GenText "Hi")) (@page py_json cfg (SubmitChat "thoughts?") s2) in
  messages s1 = [file_message design_png] /\
  messages s2 = [] /\ selected_match s2 = Some (persona_at 1) /\
  map call_prompt (snd r3) = [roleplay_prompt (persona_at 1) "thoughts?" (file_instruction None)].
Proof. vm_compute. repeat split. Qed.
